(** * HugolandP22: the game-state engine of [src/hooks/useGameState.ts]

    A shallow embedding of the state-transition functions of the hook
    [useGameState] and the properties its specification states about them.

    Layout of the file:
    - [JS]: JavaScript numbers (IEEE-754 binary64, on top of the Standard
      Library's executable [SpecFloat]) with the handful of operators and
      [Math] functions the hook uses;
    - the data model ([GameState] and its sub-objects) with field setters;
    - [createInitialGameState] and one definition per updater of the hook;
    - [Op], [applyOp], [commit]: the catalogue of public operations and the
      mutation dispatcher [updateGameState];
    - hydration ([loadGameState]) over untyped JSON values;
    - lemmas on binary64 arithmetic, then the properties themselves.

    Conventions.  A transition is the updater the hook passes to
    [updateGameState]: a function from the committed state to the next one.
    Every source of non-determinism ([Math.random], [new Date()], the item
    and enemy generators of [utils/gameUtils]) is an explicit argument of
    the transition that consumes it.  [attack] and [openChest] mutate
    sub-objects of the previous state in place; the previous state is
    dropped by the dispatcher as soon as the updater returns, so the model
    builds the next state functionally.  Where a hook function captures a
    value inside its updater ([reward], [success], [result]) and returns
    it, the transition returns the state together with the value the
    updater captures; the function itself returns the variable right after
    queuing the updater, whether or not the updater has run. *)

From Stdlib Require Import ZArith Lia Bool List SpecFloat.
From stdpp Require Import gmap strings list pretty.

Open Scope Z_scope.

(** * JavaScript numbers *)

Module JS.

(** Binary64: 53 bits of precision, exponents below 1024. *)
Definition prec : Z := 53.
Definition emax : Z := 1024.

Definition number : Type := spec_float.

(** The double nearest to an integer (exact up to [2^53]). *)
Definition of_Z (z : Z) : number := binary_normalize prec emax z 0 false.

Definition NaN : number := S754_nan.

Definition add : number -> number -> number := SFadd prec emax.
Definition sub : number -> number -> number := SFsub prec emax.
Definition mul : number -> number -> number := SFmul prec emax.
Definition div : number -> number -> number := SFdiv prec emax.

(** A decimal literal [n / 10^k], e.g. [0.85] is [dec 85 2].  Parsing a
    literal and dividing two exactly representable integers both round the
    same real number to nearest-even, so they yield the same double. *)
Definition dec (n : Z) (k : Z) : number := div (of_Z n) (of_Z (10 ^ k)).

(** The mantissa of [m * 2^e], with its sign, rescaled to the exponent
    [ez <= e]. *)
Definition aligned (s : bool) (m : positive) (e ez : Z) : Z :=
  cond_Zopp s (Zpos (fst (shl_align m e ez))).

(** Comparison of the values denoted by two numbers; [None] when one of
    them is NaN.  On finite operands both mantissas are brought to the
    smaller exponent, as [SFadd] and [SFsub] do, and compared exactly. *)
Definition compare (x y : number) : option comparison :=
  match x, y with
  | S754_nan, _ | _, S754_nan => None
  | S754_infinity s1, S754_infinity s2 =>
      Some match s1, s2 with
           | true, true | false, false => Eq
           | true, false => Lt
           | false, true => Gt
           end
  | S754_infinity s, _ => Some (if s then Lt else Gt)
  | _, S754_infinity s => Some (if s then Gt else Lt)
  | S754_zero _, S754_zero _ => Some Eq
  | S754_finite s _ _, S754_zero _ => Some (if s then Lt else Gt)
  | S754_zero _, S754_finite s _ _ => Some (if s then Gt else Lt)
  | S754_finite s1 m1 e1, S754_finite s2 m2 e2 =>
      let ez := Z.min e1 e2 in
      Some (Z.compare (aligned s1 m1 e1 ez) (aligned s2 m2 e2 ez))
  end.

(** [x < y], [x <= y], [x >= y], [x > y] and [x === y] on numbers. *)
Definition ltb (x y : number) : bool :=
  match compare x y with Some Lt => true | _ => false end.
Definition leb (x y : number) : bool :=
  match compare x y with Some (Lt | Eq) => true | _ => false end.
Definition geb (x y : number) : bool := leb y x.
Definition gtb (x y : number) : bool := ltb y x.
Definition eqb (x y : number) : bool :=
  match compare x y with Some Eq => true | _ => false end.

(** [Math.max(x, y)]: NaN if either argument is, and [+0] above [-0]. *)
Definition max (x y : number) : number :=
  match compare x y with
  | None => NaN
  | Some Lt => y
  | Some Gt => x
  | Some Eq =>
      match x, y with
      | S754_zero true, S754_zero _ => y
      | _, _ => x
      end
  end.

(** [Math.floor(x)]: the largest integer not above [x]; zeros, infinities
    and NaN are returned as they are. *)
Definition floor (x : number) : number :=
  match x with
  | S754_finite s m e =>
      match e with
      | Zneg p => binary_normalize prec emax (cond_Zopp s (Zpos m) / 2 ^ Zpos p) 0 false
      | _ => x
      end
  | _ => x
  end.

(** Truthiness of a number in a condition: everything but [0], [-0], NaN. *)
Definition truthy (x : number) : bool :=
  match x with
  | S754_zero _ | S754_nan => false
  | _ => true
  end.

(** A number that does not compare below zero. *)
Definition nonneg (x : number) : Prop := ltb x (of_Z 0) = false.

(** [Number.isFinite(x)] and [Number.isNaN(x)] *)
Definition isFinite (x : number) : bool :=
  match x with
  | S754_zero _ | S754_finite _ _ _ => true
  | _ => false
  end.

Definition isNaN (x : number) : bool :=
  match x with
  | S754_nan => true
  | _ => false
  end.

End JS.

Declare Scope js_scope.
Delimit Scope js_scope with js.
Bind Scope js_scope with JS.number.
Infix "+" := JS.add : js_scope.
Infix "-" := JS.sub : js_scope.
Infix "*" := JS.mul : js_scope.
Infix "/" := JS.div : js_scope.
Infix "<?" := JS.ltb : js_scope.
Infix "<=?" := JS.leb : js_scope.
Infix ">=?" := JS.geb : js_scope.
Infix ">?" := JS.gtb : js_scope.
Notation "# z" := (JS.of_Z z) (at level 1, format "# z") : js_scope.

Abbreviation number := JS.number.

(** Numbers are computed with, not unfolded, when goals are simplified. *)
Arguments JS.of_Z : simpl never.
Arguments JS.add : simpl never.
Arguments JS.sub : simpl never.
Arguments JS.mul : simpl never.
Arguments JS.div : simpl never.
Arguments JS.dec : simpl never.
Arguments JS.compare : simpl never.
Arguments JS.ltb : simpl never.
Arguments JS.leb : simpl never.
Arguments JS.geb : simpl never.
Arguments JS.gtb : simpl never.
Arguments JS.max : simpl never.
Arguments JS.floor : simpl never.

(** * Untyped JavaScript values

    What [JSON.parse] can return, plus [undefined] and [Date] objects, which
    a freshly built state contains.  Objects are finite maps from property
    names to values. *)

#[warnings="-register-all"]
Inductive value : Type :=
  | VUndefined
  | VNull
  | VBool (b : bool)
  | VNum (n : number)
  | VStr (s : string)
  | VDate (t : number)
  | VArr (l : list value)
  | VObj (o : gmap string value).

(** * The data model *)

(** A [Date], as its time value in milliseconds. *)
Definition Date : Type := number.

(** The five rarities, in the order of the chest table. *)
Inductive Rarity : Type := Common | Rare | Epic | Legendary | Mythical.

(** [AdventureSkill['type']]. *)
Inductive SkillType : Type :=
  | risker | lightning_chain | skip_card | metal_shield | truth_lies | ramp | dodge.

(** The game modes [setGameMode] accepts. *)
Inductive GameModeName : Type :=
  | normal | blitz | bloodlust | crazy | survival | timeAttack | boss.

(** [MenuSkill['type']], in the order of [skillTypes] in [rollSkill]. *)
Inductive MenuSkillType : Type :=
  | coin_vacuum | treasurer | xp_surge | luck_gem | enchanter.

(** The second argument of [discardItem], [bulkSell] and [bulkUpgrade]. *)
Inductive ItemKind : Type := KWeapon | KArmor.

(** The keys of [cheats]. *)
Inductive CheatName : Type := infiniteCoins | infiniteGems | obtainAnyItem.

(** A line of the combat log: the template of the message together with the
    values interpolated into it. *)
Inductive LogEntry : Type :=
  | LogEncounter (enemyName : string)   (* You encounter a ${enemy.name}! *)
  | LogDeal (damage : number)           (* You deal ${damage} damage! *)
  | LogDodge                            (* You dodge the attack! *)
  | LogEnemyDeals (damage : number)     (* Enemy deals ${enemyDamage} damage! *)
  | LogVictory (coinReward gemReward : number)
  | LogMetalShield                      (* Metal Shield activated! ... *)
  | LogRevived                          (* You have been revived! *)
  | LogDefeated.                        (* You have been defeated! *)

(** Modelled from the spec: the [Achievement] and [PlayerTag] interfaces of
    [types/game]; the hook only stores them, so they stay untyped values. *)
Definition Achievement : Type := value.
Definition PlayerTag : Type := value.

(** [playerStats]: the player's combat statistics. *)
Module PlayerStats.
Record t : Type := mk {
  hp : number;
  maxHp : number;
  atk : number;
  def : number;
  baseAtk : number;
  baseDef : number;
  baseHp : number
}.
Definition set_hp (v : number) (x : t) : t :=
  mk v (maxHp x) (atk x) (def x) (baseAtk x) (baseDef x) (baseHp x).
Definition set_atk (v : number) (x : t) : t :=
  mk (hp x) (maxHp x) v (def x) (baseAtk x) (baseDef x) (baseHp x).
Definition set_def (v : number) (x : t) : t :=
  mk (hp x) (maxHp x) (atk x) v (baseAtk x) (baseDef x) (baseHp x).
End PlayerStats.

(** Modelled from the spec: the [Weapon] and [Armor] interfaces of
    [types/game], which is not part of the sources; these are the fields the
    spec lists and the hook reads. *)
Module Item.
Record t : Type := mk {
  id : string;
  name : string;
  rarity : Rarity;
  level : number;
  upgradeCost : number;
  sellPrice : number
}.
Definition set_level (v : number) (x : t) : t :=
  mk (id x) (name x) (rarity x) v (upgradeCost x) (sellPrice x).
Definition set_upgradeCost (v : number) (x : t) : t :=
  mk (id x) (name x) (rarity x) (level x) v (sellPrice x).
End Item.

(** Modelled from the spec: the [RelicItem] interface of [types/game]; the
    fields the hook reads.  [baseAtk] and [baseDef] are optional. *)
Module Relic.
Record t : Type := mk {
  id : string;
  name : string;
  level : number;
  upgradeCost : number;
  cost : number;
  baseAtk : option number;
  baseDef : option number
}.
Definition set_level (v : number) (x : t) : t :=
  mk (id x) (name x) v (upgradeCost x) (cost x) (baseAtk x) (baseDef x).
Definition set_upgradeCost (v : number) (x : t) : t :=
  mk (id x) (name x) (level x) v (cost x) (baseAtk x) (baseDef x).
Definition set_baseAtk (v : option number) (x : t) : t :=
  mk (id x) (name x) (level x) (upgradeCost x) (cost x) v (baseDef x).
Definition set_baseDef (v : option number) (x : t) : t :=
  mk (id x) (name x) (level x) (upgradeCost x) (cost x) (baseAtk x) v.
End Relic.

(** Modelled from the spec: the [Enemy] interface of [types/game]; the
    fields the hook reads. *)
Module Enemy.
Record t : Type := mk {
  name : string;
  hp : number;
  atk : number;
  def : number
}.
Definition set_hp (v : number) (x : t) : t :=
  mk (name x) v (atk x) (def x).
End Enemy.

(** An adventure-skill definition. *)
Module AdventureSkill.
Record t : Type := mk {
  id : string;
  name : string;
  description : string;
  type : SkillType
}.
End AdventureSkill.

(** [adventureSkills.skillEffects]: the per-combat effect flags. *)
Module SkillEffects.
Record t : Type := mk {
  skipCardUsed : bool;
  metalShieldUsed : bool;
  dodgeUsed : bool;
  truthLiesActive : bool;
  lightningChainActive : bool;
  rampActive : bool
}.
Definition set_skipCardUsed (v : bool) (x : t) : t :=
  mk v (metalShieldUsed x) (dodgeUsed x) (truthLiesActive x) (lightningChainActive x) (rampActive x).
Definition set_metalShieldUsed (v : bool) (x : t) : t :=
  mk (skipCardUsed x) v (dodgeUsed x) (truthLiesActive x) (lightningChainActive x) (rampActive x).
Definition set_dodgeUsed (v : bool) (x : t) : t :=
  mk (skipCardUsed x) (metalShieldUsed x) v (truthLiesActive x) (lightningChainActive x) (rampActive x).
Definition set_truthLiesActive (v : bool) (x : t) : t :=
  mk (skipCardUsed x) (metalShieldUsed x) (dodgeUsed x) v (lightningChainActive x) (rampActive x).
Definition set_lightningChainActive (v : bool) (x : t) : t :=
  mk (skipCardUsed x) (metalShieldUsed x) (dodgeUsed x) (truthLiesActive x) v (rampActive x).
Definition set_rampActive (v : bool) (x : t) : t :=
  mk (skipCardUsed x) (metalShieldUsed x) (dodgeUsed x) (truthLiesActive x) (lightningChainActive x) v.
End SkillEffects.

(** [adventureSkills]: the selection state of the current combat. *)
Module AdventureSkills.
Record t : Type := mk {
  selectedSkill : option AdventureSkill.t;
  availableSkills : list AdventureSkill.t;
  showSelectionModal : bool;
  skillEffects : SkillEffects.t
}.
Definition set_selectedSkill (v : option AdventureSkill.t) (x : t) : t :=
  mk v (availableSkills x) (showSelectionModal x) (skillEffects x).
Definition set_availableSkills (v : list AdventureSkill.t) (x : t) : t :=
  mk (selectedSkill x) v (showSelectionModal x) (skillEffects x).
Definition set_showSelectionModal (v : bool) (x : t) : t :=
  mk (selectedSkill x) (availableSkills x) v (skillEffects x).
Definition set_skillEffects (v : SkillEffects.t) (x : t) : t :=
  mk (selectedSkill x) (availableSkills x) (showSelectionModal x) v.
End AdventureSkills.

(** [inventory]: owned items and what is equipped. *)
Module Inventory.
Record t : Type := mk {
  weapons : list Item.t;
  armor : list Item.t;
  relics : list Relic.t;
  currentWeapon : option Item.t;
  currentArmor : option Item.t;
  equippedRelics : list Relic.t
}.
Definition set_weapons (v : list Item.t) (x : t) : t :=
  mk v (armor x) (relics x) (currentWeapon x) (currentArmor x) (equippedRelics x).
Definition set_armor (v : list Item.t) (x : t) : t :=
  mk (weapons x) v (relics x) (currentWeapon x) (currentArmor x) (equippedRelics x).
Definition set_relics (v : list Relic.t) (x : t) : t :=
  mk (weapons x) (armor x) v (currentWeapon x) (currentArmor x) (equippedRelics x).
Definition set_currentWeapon (v : option Item.t) (x : t) : t :=
  mk (weapons x) (armor x) (relics x) v (currentArmor x) (equippedRelics x).
Definition set_currentArmor (v : option Item.t) (x : t) : t :=
  mk (weapons x) (armor x) (relics x) (currentWeapon x) v (equippedRelics x).
Definition set_equippedRelics (v : list Relic.t) (x : t) : t :=
  mk (weapons x) (armor x) (relics x) (currentWeapon x) (currentArmor x) v.
End Inventory.

(** [research]. *)
Module Research.
Record t : Type := mk {
  level : number;
  totalSpent : number;
  availableUpgrades : list string
}.
Definition set_level (v : number) (x : t) : t :=
  mk v (totalSpent x) (availableUpgrades x).
Definition set_totalSpent (v : number) (x : t) : t :=
  mk (level x) v (availableUpgrades x).
End Research.

(** [collectionBook.rarityStats]: one counter per rarity. *)
Module RarityStats.
Record t : Type := mk {
  common : number;
  rare : number;
  epic : number;
  legendary : number;
  mythical : number
}.
Definition set_common (v : number) (x : t) : t :=
  mk v (rare x) (epic x) (legendary x) (mythical x).
Definition set_rare (v : number) (x : t) : t :=
  mk (common x) v (epic x) (legendary x) (mythical x).
Definition set_epic (v : number) (x : t) : t :=
  mk (common x) (rare x) v (legendary x) (mythical x).
Definition set_legendary (v : number) (x : t) : t :=
  mk (common x) (rare x) (epic x) v (mythical x).
Definition set_mythical (v : number) (x : t) : t :=
  mk (common x) (rare x) (epic x) (legendary x) v.
End RarityStats.

(** [collectionBook]: discovered item names and the rarity histogram. *)
Module CollectionBook.
Record t : Type := mk {
  weapons : gmap string bool;
  armor : gmap string bool;
  totalWeaponsFound : number;
  totalArmorFound : number;
  rarityStats : RarityStats.t
}.
Definition set_weapons (v : gmap string bool) (x : t) : t :=
  mk v (armor x) (totalWeaponsFound x) (totalArmorFound x) (rarityStats x).
Definition set_armor (v : gmap string bool) (x : t) : t :=
  mk (weapons x) v (totalWeaponsFound x) (totalArmorFound x) (rarityStats x).
Definition set_totalWeaponsFound (v : number) (x : t) : t :=
  mk (weapons x) (armor x) v (totalArmorFound x) (rarityStats x).
Definition set_totalArmorFound (v : number) (x : t) : t :=
  mk (weapons x) (armor x) (totalWeaponsFound x) v (rarityStats x).
Definition set_rarityStats (v : RarityStats.t) (x : t) : t :=
  mk (weapons x) (armor x) (totalWeaponsFound x) (totalArmorFound x) v.
End CollectionBook.

(** [knowledgeStreak]. *)
Module KnowledgeStreak.
Record t : Type := mk {
  current : number;
  best : number;
  multiplier : number
}.
Definition set_current (v : number) (x : t) : t :=
  mk v (best x) (multiplier x).
Definition set_best (v : number) (x : t) : t :=
  mk (current x) v (multiplier x).
Definition set_multiplier (v : number) (x : t) : t :=
  mk (current x) (best x) v.
End KnowledgeStreak.

(** [gameMode]. *)
Module GameMode.
Record t : Type := mk {
  current : GameModeName;
  speedModeActive : bool;
  survivalLives : number;
  maxSurvivalLives : number;
  timeAttackScore : number;
  timeAttackTimeLeft : number;
  bossProgress : number
}.
Definition set_current (v : GameModeName) (x : t) : t :=
  mk v (speedModeActive x) (survivalLives x) (maxSurvivalLives x) (timeAttackScore x) (timeAttackTimeLeft x) (bossProgress x).
End GameMode.

(** An entry of [statistics.accuracyByCategory]. *)
Module CategoryAccuracy.
Record t : Type := mk {
  correct : number;
  total : number
}.
Definition set_correct (v : number) (x : t) : t :=
  mk v (total x).
Definition set_total (v : number) (x : t) : t :=
  mk (correct x) v.
End CategoryAccuracy.

(** [statistics]: the counters of the session. *)
Module Statistics.
Record t : Type := mk {
  totalQuestionsAnswered : number;
  correctAnswers : number;
  totalPlayTime : number;
  zonesReached : number;
  itemsCollected : number;
  coinsEarned : number;
  gemsEarned : number;
  shinyGemsEarned : number;
  chestsOpened : number;
  accuracyByCategory : gmap string CategoryAccuracy.t;
  sessionStartTime : Date;
  totalDeaths : number;
  totalVictories : number;
  longestStreak : number;
  fastestVictory : number;
  totalDamageDealt : number;
  totalDamageTaken : number;
  itemsUpgraded : number;
  itemsSold : number;
  totalResearchSpent : number;
  averageAccuracy : number;
  revivals : number
}.
Definition set_totalQuestionsAnswered (v : number) (x : t) : t :=
  mk v (correctAnswers x) (totalPlayTime x) (zonesReached x) (itemsCollected x) (coinsEarned x) (gemsEarned x) (shinyGemsEarned x) (chestsOpened x) (accuracyByCategory x) (sessionStartTime x) (totalDeaths x) (totalVictories x) (longestStreak x) (fastestVictory x) (totalDamageDealt x) (totalDamageTaken x) (itemsUpgraded x) (itemsSold x) (totalResearchSpent x) (averageAccuracy x) (revivals x).
Definition set_correctAnswers (v : number) (x : t) : t :=
  mk (totalQuestionsAnswered x) v (totalPlayTime x) (zonesReached x) (itemsCollected x) (coinsEarned x) (gemsEarned x) (shinyGemsEarned x) (chestsOpened x) (accuracyByCategory x) (sessionStartTime x) (totalDeaths x) (totalVictories x) (longestStreak x) (fastestVictory x) (totalDamageDealt x) (totalDamageTaken x) (itemsUpgraded x) (itemsSold x) (totalResearchSpent x) (averageAccuracy x) (revivals x).
Definition set_zonesReached (v : number) (x : t) : t :=
  mk (totalQuestionsAnswered x) (correctAnswers x) (totalPlayTime x) v (itemsCollected x) (coinsEarned x) (gemsEarned x) (shinyGemsEarned x) (chestsOpened x) (accuracyByCategory x) (sessionStartTime x) (totalDeaths x) (totalVictories x) (longestStreak x) (fastestVictory x) (totalDamageDealt x) (totalDamageTaken x) (itemsUpgraded x) (itemsSold x) (totalResearchSpent x) (averageAccuracy x) (revivals x).
Definition set_itemsCollected (v : number) (x : t) : t :=
  mk (totalQuestionsAnswered x) (correctAnswers x) (totalPlayTime x) (zonesReached x) v (coinsEarned x) (gemsEarned x) (shinyGemsEarned x) (chestsOpened x) (accuracyByCategory x) (sessionStartTime x) (totalDeaths x) (totalVictories x) (longestStreak x) (fastestVictory x) (totalDamageDealt x) (totalDamageTaken x) (itemsUpgraded x) (itemsSold x) (totalResearchSpent x) (averageAccuracy x) (revivals x).
Definition set_coinsEarned (v : number) (x : t) : t :=
  mk (totalQuestionsAnswered x) (correctAnswers x) (totalPlayTime x) (zonesReached x) (itemsCollected x) v (gemsEarned x) (shinyGemsEarned x) (chestsOpened x) (accuracyByCategory x) (sessionStartTime x) (totalDeaths x) (totalVictories x) (longestStreak x) (fastestVictory x) (totalDamageDealt x) (totalDamageTaken x) (itemsUpgraded x) (itemsSold x) (totalResearchSpent x) (averageAccuracy x) (revivals x).
Definition set_gemsEarned (v : number) (x : t) : t :=
  mk (totalQuestionsAnswered x) (correctAnswers x) (totalPlayTime x) (zonesReached x) (itemsCollected x) (coinsEarned x) v (shinyGemsEarned x) (chestsOpened x) (accuracyByCategory x) (sessionStartTime x) (totalDeaths x) (totalVictories x) (longestStreak x) (fastestVictory x) (totalDamageDealt x) (totalDamageTaken x) (itemsUpgraded x) (itemsSold x) (totalResearchSpent x) (averageAccuracy x) (revivals x).
Definition set_shinyGemsEarned (v : number) (x : t) : t :=
  mk (totalQuestionsAnswered x) (correctAnswers x) (totalPlayTime x) (zonesReached x) (itemsCollected x) (coinsEarned x) (gemsEarned x) v (chestsOpened x) (accuracyByCategory x) (sessionStartTime x) (totalDeaths x) (totalVictories x) (longestStreak x) (fastestVictory x) (totalDamageDealt x) (totalDamageTaken x) (itemsUpgraded x) (itemsSold x) (totalResearchSpent x) (averageAccuracy x) (revivals x).
Definition set_chestsOpened (v : number) (x : t) : t :=
  mk (totalQuestionsAnswered x) (correctAnswers x) (totalPlayTime x) (zonesReached x) (itemsCollected x) (coinsEarned x) (gemsEarned x) (shinyGemsEarned x) v (accuracyByCategory x) (sessionStartTime x) (totalDeaths x) (totalVictories x) (longestStreak x) (fastestVictory x) (totalDamageDealt x) (totalDamageTaken x) (itemsUpgraded x) (itemsSold x) (totalResearchSpent x) (averageAccuracy x) (revivals x).
Definition set_accuracyByCategory (v : gmap string CategoryAccuracy.t) (x : t) : t :=
  mk (totalQuestionsAnswered x) (correctAnswers x) (totalPlayTime x) (zonesReached x) (itemsCollected x) (coinsEarned x) (gemsEarned x) (shinyGemsEarned x) (chestsOpened x) v (sessionStartTime x) (totalDeaths x) (totalVictories x) (longestStreak x) (fastestVictory x) (totalDamageDealt x) (totalDamageTaken x) (itemsUpgraded x) (itemsSold x) (totalResearchSpent x) (averageAccuracy x) (revivals x).
Definition set_totalDeaths (v : number) (x : t) : t :=
  mk (totalQuestionsAnswered x) (correctAnswers x) (totalPlayTime x) (zonesReached x) (itemsCollected x) (coinsEarned x) (gemsEarned x) (shinyGemsEarned x) (chestsOpened x) (accuracyByCategory x) (sessionStartTime x) v (totalVictories x) (longestStreak x) (fastestVictory x) (totalDamageDealt x) (totalDamageTaken x) (itemsUpgraded x) (itemsSold x) (totalResearchSpent x) (averageAccuracy x) (revivals x).
Definition set_totalVictories (v : number) (x : t) : t :=
  mk (totalQuestionsAnswered x) (correctAnswers x) (totalPlayTime x) (zonesReached x) (itemsCollected x) (coinsEarned x) (gemsEarned x) (shinyGemsEarned x) (chestsOpened x) (accuracyByCategory x) (sessionStartTime x) (totalDeaths x) v (longestStreak x) (fastestVictory x) (totalDamageDealt x) (totalDamageTaken x) (itemsUpgraded x) (itemsSold x) (totalResearchSpent x) (averageAccuracy x) (revivals x).
Definition set_totalDamageDealt (v : number) (x : t) : t :=
  mk (totalQuestionsAnswered x) (correctAnswers x) (totalPlayTime x) (zonesReached x) (itemsCollected x) (coinsEarned x) (gemsEarned x) (shinyGemsEarned x) (chestsOpened x) (accuracyByCategory x) (sessionStartTime x) (totalDeaths x) (totalVictories x) (longestStreak x) (fastestVictory x) v (totalDamageTaken x) (itemsUpgraded x) (itemsSold x) (totalResearchSpent x) (averageAccuracy x) (revivals x).
Definition set_totalDamageTaken (v : number) (x : t) : t :=
  mk (totalQuestionsAnswered x) (correctAnswers x) (totalPlayTime x) (zonesReached x) (itemsCollected x) (coinsEarned x) (gemsEarned x) (shinyGemsEarned x) (chestsOpened x) (accuracyByCategory x) (sessionStartTime x) (totalDeaths x) (totalVictories x) (longestStreak x) (fastestVictory x) (totalDamageDealt x) v (itemsUpgraded x) (itemsSold x) (totalResearchSpent x) (averageAccuracy x) (revivals x).
Definition set_itemsUpgraded (v : number) (x : t) : t :=
  mk (totalQuestionsAnswered x) (correctAnswers x) (totalPlayTime x) (zonesReached x) (itemsCollected x) (coinsEarned x) (gemsEarned x) (shinyGemsEarned x) (chestsOpened x) (accuracyByCategory x) (sessionStartTime x) (totalDeaths x) (totalVictories x) (longestStreak x) (fastestVictory x) (totalDamageDealt x) (totalDamageTaken x) v (itemsSold x) (totalResearchSpent x) (averageAccuracy x) (revivals x).
Definition set_itemsSold (v : number) (x : t) : t :=
  mk (totalQuestionsAnswered x) (correctAnswers x) (totalPlayTime x) (zonesReached x) (itemsCollected x) (coinsEarned x) (gemsEarned x) (shinyGemsEarned x) (chestsOpened x) (accuracyByCategory x) (sessionStartTime x) (totalDeaths x) (totalVictories x) (longestStreak x) (fastestVictory x) (totalDamageDealt x) (totalDamageTaken x) (itemsUpgraded x) v (totalResearchSpent x) (averageAccuracy x) (revivals x).
Definition set_totalResearchSpent (v : number) (x : t) : t :=
  mk (totalQuestionsAnswered x) (correctAnswers x) (totalPlayTime x) (zonesReached x) (itemsCollected x) (coinsEarned x) (gemsEarned x) (shinyGemsEarned x) (chestsOpened x) (accuracyByCategory x) (sessionStartTime x) (totalDeaths x) (totalVictories x) (longestStreak x) (fastestVictory x) (totalDamageDealt x) (totalDamageTaken x) (itemsUpgraded x) (itemsSold x) v (averageAccuracy x) (revivals x).
Definition set_revivals (v : number) (x : t) : t :=
  mk (totalQuestionsAnswered x) (correctAnswers x) (totalPlayTime x) (zonesReached x) (itemsCollected x) (coinsEarned x) (gemsEarned x) (shinyGemsEarned x) (chestsOpened x) (accuracyByCategory x) (sessionStartTime x) (totalDeaths x) (totalVictories x) (longestStreak x) (fastestVictory x) (totalDamageDealt x) (totalDamageTaken x) (itemsUpgraded x) (itemsSold x) (totalResearchSpent x) (averageAccuracy x) v.
End Statistics.

(** [cheats]. *)
Module Cheats.
Record t : Type := mk {
  infiniteCoins : bool;
  infiniteGems : bool;
  obtainAnyItem : bool
}.
Definition set_infiniteCoins (v : bool) (x : t) : t :=
  mk v (infiniteGems x) (obtainAnyItem x).
Definition set_infiniteGems (v : bool) (x : t) : t :=
  mk (infiniteCoins x) v (obtainAnyItem x).
Definition set_obtainAnyItem (v : bool) (x : t) : t :=
  mk (infiniteCoins x) (infiniteGems x) v.
End Cheats.

(** [mining]. *)
Module Mining.
Record t : Type := mk {
  totalGemsMined : number;
  totalShinyGemsMined : number
}.
Definition set_totalGemsMined (v : number) (x : t) : t :=
  mk v (totalShinyGemsMined x).
Definition set_totalShinyGemsMined (v : number) (x : t) : t :=
  mk (totalGemsMined x) v.
End Mining.

(** [yojefMarket]. *)
Module YojefMarket.
Record t : Type := mk {
  items : list Relic.t;
  lastRefresh : Date;
  nextRefresh : Date
}.
Definition set_items (v : list Relic.t) (x : t) : t :=
  mk v (lastRefresh x) (nextRefresh x).
End YojefMarket.

(** Modelled from the spec: the [DailyReward] interface of [types/game]; the
    amounts the hook reads and the two fields it writes on a claim. *)
Module DailyReward.
Record t : Type := mk {
  coins : number;
  gems : number;
  claimed : bool;
  claimDate : option Date
}.
Definition set_claimed (v : bool) (x : t) : t :=
  mk (coins x) (gems x) v (claimDate x).
Definition set_claimDate (v : option Date) (x : t) : t :=
  mk (coins x) (gems x) (claimed x) v.
End DailyReward.

(** [dailyRewards]. *)
Module DailyRewards.
Record t : Type := mk {
  lastClaimDate : option Date;
  currentStreak : number;
  maxStreak : number;
  availableReward : option DailyReward.t;
  rewardHistory : list DailyReward.t
}.
Definition set_lastClaimDate (v : option Date) (x : t) : t :=
  mk v (currentStreak x) (maxStreak x) (availableReward x) (rewardHistory x).
Definition set_availableReward (v : option DailyReward.t) (x : t) : t :=
  mk (lastClaimDate x) (currentStreak x) (maxStreak x) v (rewardHistory x).
Definition set_rewardHistory (v : list DailyReward.t) (x : t) : t :=
  mk (lastClaimDate x) (currentStreak x) (maxStreak x) (availableReward x) v.
End DailyRewards.

(** [progression]. *)
Module Progression.
Record t : Type := mk {
  level : number;
  experience : number;
  experienceToNext : number;
  skillPoints : number;
  unlockedSkills : list string;
  prestigeLevel : number;
  prestigePoints : number;
  masteryLevels : gmap string number
}.
Definition set_experience (v : number) (x : t) : t :=
  mk (level x) v (experienceToNext x) (skillPoints x) (unlockedSkills x) (prestigeLevel x) (prestigePoints x) (masteryLevels x).
End Progression.

(** [offlineProgress]. *)
Module OfflineProgress.
Record t : Type := mk {
  lastSaveTime : Date;
  offlineCoins : number;
  offlineGems : number;
  offlineTime : number;
  maxOfflineHours : number
}.
Definition set_offlineCoins (v : number) (x : t) : t :=
  mk (lastSaveTime x) v (offlineGems x) (offlineTime x) (maxOfflineHours x).
Definition set_offlineGems (v : number) (x : t) : t :=
  mk (lastSaveTime x) (offlineCoins x) v (offlineTime x) (maxOfflineHours x).
Definition set_offlineTime (v : number) (x : t) : t :=
  mk (lastSaveTime x) (offlineCoins x) (offlineGems x) v (maxOfflineHours x).
End OfflineProgress.

(** [gardenOfGrowth]. *)
Module GardenOfGrowth.
Record t : Type := mk {
  isPlanted : bool;
  plantedAt : option Date;
  lastWatered : option Date;
  waterHoursRemaining : number;
  growthCm : number;
  totalGrowthBonus : number;
  seedCost : number;
  waterCost : number;
  maxGrowthCm : number
}.
Definition set_isPlanted (v : bool) (x : t) : t :=
  mk v (plantedAt x) (lastWatered x) (waterHoursRemaining x) (growthCm x) (totalGrowthBonus x) (seedCost x) (waterCost x) (maxGrowthCm x).
Definition set_plantedAt (v : option Date) (x : t) : t :=
  mk (isPlanted x) v (lastWatered x) (waterHoursRemaining x) (growthCm x) (totalGrowthBonus x) (seedCost x) (waterCost x) (maxGrowthCm x).
Definition set_lastWatered (v : option Date) (x : t) : t :=
  mk (isPlanted x) (plantedAt x) v (waterHoursRemaining x) (growthCm x) (totalGrowthBonus x) (seedCost x) (waterCost x) (maxGrowthCm x).
Definition set_waterHoursRemaining (v : number) (x : t) : t :=
  mk (isPlanted x) (plantedAt x) (lastWatered x) v (growthCm x) (totalGrowthBonus x) (seedCost x) (waterCost x) (maxGrowthCm x).
End GardenOfGrowth.

(** [settings]. *)
Module Settings.
Record t : Type := mk {
  colorblindMode : bool;
  darkMode : bool;
  language : string;
  notifications : bool
}.
End Settings.

(** A rolled menu skill.  The three fields derived from the rolled type are
    optional: indexing past the table of types yields [undefined]. *)
Module MenuSkill.
Record t : Type := mk {
  id : string;
  name : option string;
  description : option string;
  duration : number;
  activatedAt : Date;
  expiresAt : Date;
  type : option MenuSkillType
}.
End MenuSkill.

(** [skills]: the menu-skill timer state. *)
Module Skills.
Record t : Type := mk {
  activeMenuSkill : option MenuSkill.t;
  lastRollTime : option Date;
  playTimeThisSession : number;
  sessionStartTime : Date
}.
Definition set_activeMenuSkill (v : option MenuSkill.t) (x : t) : t :=
  mk v (lastRollTime x) (playTimeThisSession x) (sessionStartTime x).
Definition set_lastRollTime (v : option Date) (x : t) : t :=
  mk (activeMenuSkill x) v (playTimeThisSession x) (sessionStartTime x).
End Skills.

(** [Weapon] and [Armor] share their shape. *)
Abbreviation Weapon := Item.t.
Abbreviation Armor := Item.t.

(** [GameState]: the root object, in the field order of
    [createInitialGameState]. *)
Record GameState : Type := mkGameState {
  coins : number;
  gems : number;
  shinyGems : number;
  zone : number;
  playerStats : PlayerStats.t;
  inventory : Inventory.t;
  currentEnemy : option Enemy.t;
  inCombat : bool;
  combatLog : list LogEntry;
  research : Research.t;
  isPremium : bool;
  achievements : list Achievement;
  collectionBook : CollectionBook.t;
  knowledgeStreak : KnowledgeStreak.t;
  gameMode : GameMode.t;
  statistics : Statistics.t;
  cheats : Cheats.t;
  mining : Mining.t;
  yojefMarket : YojefMarket.t;
  playerTags : list PlayerTag;
  dailyRewards : DailyRewards.t;
  progression : Progression.t;
  offlineProgress : OfflineProgress.t;
  gardenOfGrowth : GardenOfGrowth.t;
  settings : Settings.t;
  hasUsedRevival : bool;
  skills : Skills.t;
  adventureSkills : AdventureSkills.t
}.

(** [{ ...state, field: v }] for each field an updater replaces. *)
Definition set_coins (v : number) (s : GameState) : GameState :=
  mkGameState v (gems s) (shinyGems s) (zone s) (playerStats s) (inventory s) (currentEnemy s) (inCombat s) (combatLog s) (research s) (isPremium s) (achievements s) (collectionBook s) (knowledgeStreak s) (gameMode s) (statistics s) (cheats s) (mining s) (yojefMarket s) (playerTags s) (dailyRewards s) (progression s) (offlineProgress s) (gardenOfGrowth s) (settings s) (hasUsedRevival s) (skills s) (adventureSkills s).
Definition set_gems (v : number) (s : GameState) : GameState :=
  mkGameState (coins s) v (shinyGems s) (zone s) (playerStats s) (inventory s) (currentEnemy s) (inCombat s) (combatLog s) (research s) (isPremium s) (achievements s) (collectionBook s) (knowledgeStreak s) (gameMode s) (statistics s) (cheats s) (mining s) (yojefMarket s) (playerTags s) (dailyRewards s) (progression s) (offlineProgress s) (gardenOfGrowth s) (settings s) (hasUsedRevival s) (skills s) (adventureSkills s).
Definition set_shinyGems (v : number) (s : GameState) : GameState :=
  mkGameState (coins s) (gems s) v (zone s) (playerStats s) (inventory s) (currentEnemy s) (inCombat s) (combatLog s) (research s) (isPremium s) (achievements s) (collectionBook s) (knowledgeStreak s) (gameMode s) (statistics s) (cheats s) (mining s) (yojefMarket s) (playerTags s) (dailyRewards s) (progression s) (offlineProgress s) (gardenOfGrowth s) (settings s) (hasUsedRevival s) (skills s) (adventureSkills s).
Definition set_zone (v : number) (s : GameState) : GameState :=
  mkGameState (coins s) (gems s) (shinyGems s) v (playerStats s) (inventory s) (currentEnemy s) (inCombat s) (combatLog s) (research s) (isPremium s) (achievements s) (collectionBook s) (knowledgeStreak s) (gameMode s) (statistics s) (cheats s) (mining s) (yojefMarket s) (playerTags s) (dailyRewards s) (progression s) (offlineProgress s) (gardenOfGrowth s) (settings s) (hasUsedRevival s) (skills s) (adventureSkills s).
Definition set_playerStats (v : PlayerStats.t) (s : GameState) : GameState :=
  mkGameState (coins s) (gems s) (shinyGems s) (zone s) v (inventory s) (currentEnemy s) (inCombat s) (combatLog s) (research s) (isPremium s) (achievements s) (collectionBook s) (knowledgeStreak s) (gameMode s) (statistics s) (cheats s) (mining s) (yojefMarket s) (playerTags s) (dailyRewards s) (progression s) (offlineProgress s) (gardenOfGrowth s) (settings s) (hasUsedRevival s) (skills s) (adventureSkills s).
Definition set_inventory (v : Inventory.t) (s : GameState) : GameState :=
  mkGameState (coins s) (gems s) (shinyGems s) (zone s) (playerStats s) v (currentEnemy s) (inCombat s) (combatLog s) (research s) (isPremium s) (achievements s) (collectionBook s) (knowledgeStreak s) (gameMode s) (statistics s) (cheats s) (mining s) (yojefMarket s) (playerTags s) (dailyRewards s) (progression s) (offlineProgress s) (gardenOfGrowth s) (settings s) (hasUsedRevival s) (skills s) (adventureSkills s).
Definition set_currentEnemy (v : option Enemy.t) (s : GameState) : GameState :=
  mkGameState (coins s) (gems s) (shinyGems s) (zone s) (playerStats s) (inventory s) v (inCombat s) (combatLog s) (research s) (isPremium s) (achievements s) (collectionBook s) (knowledgeStreak s) (gameMode s) (statistics s) (cheats s) (mining s) (yojefMarket s) (playerTags s) (dailyRewards s) (progression s) (offlineProgress s) (gardenOfGrowth s) (settings s) (hasUsedRevival s) (skills s) (adventureSkills s).
Definition set_inCombat (v : bool) (s : GameState) : GameState :=
  mkGameState (coins s) (gems s) (shinyGems s) (zone s) (playerStats s) (inventory s) (currentEnemy s) v (combatLog s) (research s) (isPremium s) (achievements s) (collectionBook s) (knowledgeStreak s) (gameMode s) (statistics s) (cheats s) (mining s) (yojefMarket s) (playerTags s) (dailyRewards s) (progression s) (offlineProgress s) (gardenOfGrowth s) (settings s) (hasUsedRevival s) (skills s) (adventureSkills s).
Definition set_combatLog (v : list LogEntry) (s : GameState) : GameState :=
  mkGameState (coins s) (gems s) (shinyGems s) (zone s) (playerStats s) (inventory s) (currentEnemy s) (inCombat s) v (research s) (isPremium s) (achievements s) (collectionBook s) (knowledgeStreak s) (gameMode s) (statistics s) (cheats s) (mining s) (yojefMarket s) (playerTags s) (dailyRewards s) (progression s) (offlineProgress s) (gardenOfGrowth s) (settings s) (hasUsedRevival s) (skills s) (adventureSkills s).
Definition set_research (v : Research.t) (s : GameState) : GameState :=
  mkGameState (coins s) (gems s) (shinyGems s) (zone s) (playerStats s) (inventory s) (currentEnemy s) (inCombat s) (combatLog s) v (isPremium s) (achievements s) (collectionBook s) (knowledgeStreak s) (gameMode s) (statistics s) (cheats s) (mining s) (yojefMarket s) (playerTags s) (dailyRewards s) (progression s) (offlineProgress s) (gardenOfGrowth s) (settings s) (hasUsedRevival s) (skills s) (adventureSkills s).
Definition set_isPremium (v : bool) (s : GameState) : GameState :=
  mkGameState (coins s) (gems s) (shinyGems s) (zone s) (playerStats s) (inventory s) (currentEnemy s) (inCombat s) (combatLog s) (research s) v (achievements s) (collectionBook s) (knowledgeStreak s) (gameMode s) (statistics s) (cheats s) (mining s) (yojefMarket s) (playerTags s) (dailyRewards s) (progression s) (offlineProgress s) (gardenOfGrowth s) (settings s) (hasUsedRevival s) (skills s) (adventureSkills s).
Definition set_collectionBook (v : CollectionBook.t) (s : GameState) : GameState :=
  mkGameState (coins s) (gems s) (shinyGems s) (zone s) (playerStats s) (inventory s) (currentEnemy s) (inCombat s) (combatLog s) (research s) (isPremium s) (achievements s) v (knowledgeStreak s) (gameMode s) (statistics s) (cheats s) (mining s) (yojefMarket s) (playerTags s) (dailyRewards s) (progression s) (offlineProgress s) (gardenOfGrowth s) (settings s) (hasUsedRevival s) (skills s) (adventureSkills s).
Definition set_knowledgeStreak (v : KnowledgeStreak.t) (s : GameState) : GameState :=
  mkGameState (coins s) (gems s) (shinyGems s) (zone s) (playerStats s) (inventory s) (currentEnemy s) (inCombat s) (combatLog s) (research s) (isPremium s) (achievements s) (collectionBook s) v (gameMode s) (statistics s) (cheats s) (mining s) (yojefMarket s) (playerTags s) (dailyRewards s) (progression s) (offlineProgress s) (gardenOfGrowth s) (settings s) (hasUsedRevival s) (skills s) (adventureSkills s).
Definition set_gameMode (v : GameMode.t) (s : GameState) : GameState :=
  mkGameState (coins s) (gems s) (shinyGems s) (zone s) (playerStats s) (inventory s) (currentEnemy s) (inCombat s) (combatLog s) (research s) (isPremium s) (achievements s) (collectionBook s) (knowledgeStreak s) v (statistics s) (cheats s) (mining s) (yojefMarket s) (playerTags s) (dailyRewards s) (progression s) (offlineProgress s) (gardenOfGrowth s) (settings s) (hasUsedRevival s) (skills s) (adventureSkills s).
Definition set_statistics (v : Statistics.t) (s : GameState) : GameState :=
  mkGameState (coins s) (gems s) (shinyGems s) (zone s) (playerStats s) (inventory s) (currentEnemy s) (inCombat s) (combatLog s) (research s) (isPremium s) (achievements s) (collectionBook s) (knowledgeStreak s) (gameMode s) v (cheats s) (mining s) (yojefMarket s) (playerTags s) (dailyRewards s) (progression s) (offlineProgress s) (gardenOfGrowth s) (settings s) (hasUsedRevival s) (skills s) (adventureSkills s).
Definition set_cheats (v : Cheats.t) (s : GameState) : GameState :=
  mkGameState (coins s) (gems s) (shinyGems s) (zone s) (playerStats s) (inventory s) (currentEnemy s) (inCombat s) (combatLog s) (research s) (isPremium s) (achievements s) (collectionBook s) (knowledgeStreak s) (gameMode s) (statistics s) v (mining s) (yojefMarket s) (playerTags s) (dailyRewards s) (progression s) (offlineProgress s) (gardenOfGrowth s) (settings s) (hasUsedRevival s) (skills s) (adventureSkills s).
Definition set_mining (v : Mining.t) (s : GameState) : GameState :=
  mkGameState (coins s) (gems s) (shinyGems s) (zone s) (playerStats s) (inventory s) (currentEnemy s) (inCombat s) (combatLog s) (research s) (isPremium s) (achievements s) (collectionBook s) (knowledgeStreak s) (gameMode s) (statistics s) (cheats s) v (yojefMarket s) (playerTags s) (dailyRewards s) (progression s) (offlineProgress s) (gardenOfGrowth s) (settings s) (hasUsedRevival s) (skills s) (adventureSkills s).
Definition set_yojefMarket (v : YojefMarket.t) (s : GameState) : GameState :=
  mkGameState (coins s) (gems s) (shinyGems s) (zone s) (playerStats s) (inventory s) (currentEnemy s) (inCombat s) (combatLog s) (research s) (isPremium s) (achievements s) (collectionBook s) (knowledgeStreak s) (gameMode s) (statistics s) (cheats s) (mining s) v (playerTags s) (dailyRewards s) (progression s) (offlineProgress s) (gardenOfGrowth s) (settings s) (hasUsedRevival s) (skills s) (adventureSkills s).
Definition set_dailyRewards (v : DailyRewards.t) (s : GameState) : GameState :=
  mkGameState (coins s) (gems s) (shinyGems s) (zone s) (playerStats s) (inventory s) (currentEnemy s) (inCombat s) (combatLog s) (research s) (isPremium s) (achievements s) (collectionBook s) (knowledgeStreak s) (gameMode s) (statistics s) (cheats s) (mining s) (yojefMarket s) (playerTags s) v (progression s) (offlineProgress s) (gardenOfGrowth s) (settings s) (hasUsedRevival s) (skills s) (adventureSkills s).
Definition set_progression (v : Progression.t) (s : GameState) : GameState :=
  mkGameState (coins s) (gems s) (shinyGems s) (zone s) (playerStats s) (inventory s) (currentEnemy s) (inCombat s) (combatLog s) (research s) (isPremium s) (achievements s) (collectionBook s) (knowledgeStreak s) (gameMode s) (statistics s) (cheats s) (mining s) (yojefMarket s) (playerTags s) (dailyRewards s) v (offlineProgress s) (gardenOfGrowth s) (settings s) (hasUsedRevival s) (skills s) (adventureSkills s).
Definition set_offlineProgress (v : OfflineProgress.t) (s : GameState) : GameState :=
  mkGameState (coins s) (gems s) (shinyGems s) (zone s) (playerStats s) (inventory s) (currentEnemy s) (inCombat s) (combatLog s) (research s) (isPremium s) (achievements s) (collectionBook s) (knowledgeStreak s) (gameMode s) (statistics s) (cheats s) (mining s) (yojefMarket s) (playerTags s) (dailyRewards s) (progression s) v (gardenOfGrowth s) (settings s) (hasUsedRevival s) (skills s) (adventureSkills s).
Definition set_gardenOfGrowth (v : GardenOfGrowth.t) (s : GameState) : GameState :=
  mkGameState (coins s) (gems s) (shinyGems s) (zone s) (playerStats s) (inventory s) (currentEnemy s) (inCombat s) (combatLog s) (research s) (isPremium s) (achievements s) (collectionBook s) (knowledgeStreak s) (gameMode s) (statistics s) (cheats s) (mining s) (yojefMarket s) (playerTags s) (dailyRewards s) (progression s) (offlineProgress s) v (settings s) (hasUsedRevival s) (skills s) (adventureSkills s).
Definition set_settings (v : Settings.t) (s : GameState) : GameState :=
  mkGameState (coins s) (gems s) (shinyGems s) (zone s) (playerStats s) (inventory s) (currentEnemy s) (inCombat s) (combatLog s) (research s) (isPremium s) (achievements s) (collectionBook s) (knowledgeStreak s) (gameMode s) (statistics s) (cheats s) (mining s) (yojefMarket s) (playerTags s) (dailyRewards s) (progression s) (offlineProgress s) (gardenOfGrowth s) v (hasUsedRevival s) (skills s) (adventureSkills s).
Definition set_hasUsedRevival (v : bool) (s : GameState) : GameState :=
  mkGameState (coins s) (gems s) (shinyGems s) (zone s) (playerStats s) (inventory s) (currentEnemy s) (inCombat s) (combatLog s) (research s) (isPremium s) (achievements s) (collectionBook s) (knowledgeStreak s) (gameMode s) (statistics s) (cheats s) (mining s) (yojefMarket s) (playerTags s) (dailyRewards s) (progression s) (offlineProgress s) (gardenOfGrowth s) (settings s) v (skills s) (adventureSkills s).
Definition set_skills (v : Skills.t) (s : GameState) : GameState :=
  mkGameState (coins s) (gems s) (shinyGems s) (zone s) (playerStats s) (inventory s) (currentEnemy s) (inCombat s) (combatLog s) (research s) (isPremium s) (achievements s) (collectionBook s) (knowledgeStreak s) (gameMode s) (statistics s) (cheats s) (mining s) (yojefMarket s) (playerTags s) (dailyRewards s) (progression s) (offlineProgress s) (gardenOfGrowth s) (settings s) (hasUsedRevival s) v (adventureSkills s).
Definition set_adventureSkills (v : AdventureSkills.t) (s : GameState) : GameState :=
  mkGameState (coins s) (gems s) (shinyGems s) (zone s) (playerStats s) (inventory s) (currentEnemy s) (inCombat s) (combatLog s) (research s) (isPremium s) (achievements s) (collectionBook s) (knowledgeStreak s) (gameMode s) (statistics s) (cheats s) (mining s) (yojefMarket s) (playerTags s) (dailyRewards s) (progression s) (offlineProgress s) (gardenOfGrowth s) (settings s) (hasUsedRevival s) (skills s) v.

(** [ChestReward]: what [openChest] hands back to its caller. *)
Record ChestReward : Type := mkChestReward {
  reward_type : ItemKind;
  reward_items : list Item.t
}.

(** [Partial<GameState['settings']>], the argument of [updateSettings]. *)
Record PartialSettings : Type := mkPartialSettings {
  new_colorblindMode : option bool;
  new_darkMode : option bool;
  new_language : option string;
  new_notifications : option bool
}.

(** * Small helpers for the JavaScript idioms of the hook *)

Open Scope js_scope.

(** [x?.id === id] on an optional equipped item. *)
Definition hasId (x : option Item.t) (id : string) : bool :=
  match x with
  | Some w => String.eqb (Item.id w) id
  | None => false
  end.

(** [ids.includes(id)]. *)
Definition includes (ids : list string) (id : string) : bool :=
  existsb (String.eqb id) ids.

(** Truthiness of an optional string argument ([if (category)]). *)
Definition truthyString (c : option string) : bool :=
  match c with
  | Some c => negb (String.eqb c "")
  | None => false
  end.

(** Truthiness of an optional number ([r.baseAtk ? ... : undefined]). *)
Definition truthyNumber (x : option number) : bool :=
  match x with
  | Some n => JS.truthy n
  | None => false
  end.

(** The integer a number denotes, when it denotes one. *)
Definition toInteger (x : number) : option Z :=
  match x with
  | S754_zero _ => Some 0%Z
  | S754_finite s m (Zneg p) =>
      if (Zpos m mod 2 ^ Zpos p =? 0)%Z
      then Some (cond_Zopp s (Zpos m / 2 ^ Zpos p))%Z
      else None
  | S754_finite s m e => Some (cond_Zopp s (Zpos m * 2 ^ e))%Z
  | _ => None
  end.

(** [xs[i]] for a number [i]: [undefined] unless [i] is an index of [xs]. *)
Definition index {A : Type} (xs : list A) (i : number) : option A :=
  match toInteger i with
  | Some z => if (0 <=? z)%Z then xs !! Z.to_nat z else None
  | None => None
  end.

(** [xs.reduce((sum, x) => sum + f(x), 0)]. *)
Definition sumOf {A : Type} (f : A -> number) (xs : list A) : number :=
  fold_left (fun sum x => sum + f x) xs #0.

(** The empty default of [adventureSkills], written out three times in the
    hook (initial state, victory, defeat). *)
Definition noSkillEffects : SkillEffects.t :=
  SkillEffects.mk false false false false false false.

Definition emptyAdventureSkills : AdventureSkills.t :=
  AdventureSkills.mk None [] false noSkillEffects.

(** * The engine *)

Section Engine.

(** The pure collaborators of [utils/gameUtils], [utils/achievements] and
    [utils/playerTags], which are outside the sources. *)
Variable calculateResearchCost : number -> number.
Variable getChestRarityWeights : number -> list number.
Variable initializeAchievements : list Achievement.
Variable initializePlayerTags : list PlayerTag.

(** [createInitialGameState()].  [now] is the clock value its [new Date()]
    and [Date.now()] calls read. *)
Definition createInitialGameState (now : Date) : GameState := {|
  coins := #100;
  gems := #0;
  shinyGems := #0;
  zone := #1;
  playerStats := PlayerStats.mk #100 #100 #20 #10 #20 #10 #100;
  inventory := Inventory.mk [] [] [] None None [];
  currentEnemy := None;
  inCombat := false;
  combatLog := [];
  research := Research.mk #0 #0 ["atk"; "def"; "hp"]%string;
  isPremium := false;
  achievements := initializeAchievements;
  collectionBook := CollectionBook.mk ∅ ∅ #0 #0 (RarityStats.mk #0 #0 #0 #0 #0);
  knowledgeStreak := KnowledgeStreak.mk #0 #0 #1;
  gameMode := GameMode.mk normal false #3 #3 #0 #60 #0;
  statistics :=
    Statistics.mk #0 #0 #0 #1 #0 #0 #0 #0 #0 ∅ now #0 #0 #0 #0 #0 #0 #0 #0 #0 #0 #0;
  cheats := Cheats.mk false false false;
  mining := Mining.mk #0 #0;
  yojefMarket := YojefMarket.mk [] now (now + #24 * #60 * #60 * #1000);
  playerTags := initializePlayerTags;
  dailyRewards := DailyRewards.mk None #0 #0 None [];
  progression := Progression.mk #1 #0 #100 #0 [] #0 #0 ∅;
  offlineProgress := OfflineProgress.mk now #0 #0 #0 #24;
  gardenOfGrowth := GardenOfGrowth.mk false None None #0 #0 #0 #1000 #500 #100;
  settings := Settings.mk false true "en" true;
  hasUsedRevival := false;
  skills := Skills.mk None None #0 now;
  adventureSkills := emptyAdventureSkills
|}.

(** ** The mutation dispatcher *)

(** [updateGameState(updater)]: a no-op until the state is loaded. *)
Definition updateGameState (updater : GameState -> GameState)
    (prevState : option GameState) : option GameState :=
  match prevState with
  | None => None
  | Some state => Some (updater state)
  end.

(** ** Equipment *)

Definition equipWeapon (weapon : Weapon) (state : GameState) : GameState :=
  set_inventory (Inventory.set_currentWeapon (Some weapon) (inventory state)) state.

Definition equipArmor (armor : Armor) (state : GameState) : GameState :=
  set_inventory (Inventory.set_currentArmor (Some armor) (inventory state)) state.

(** [{ ...w, level: w.level + 1, upgradeCost: Math.floor(w.upgradeCost * 1.5) }] *)
Definition upgradedCost (upgradeCost : number) : number :=
  JS.floor (upgradeCost * JS.dec 15 1).

Definition levelUp (w : Item.t) : Item.t :=
  Item.set_upgradeCost (upgradedCost (Item.upgradeCost w))
    (Item.set_level (Item.level w + #1) w).

Definition findItem (id : string) (items : list Item.t) : option Item.t :=
  List.find (fun w => String.eqb (Item.id w) id) items.

Definition countUpgrade (state : GameState) : GameState :=
  set_statistics
    (Statistics.set_itemsUpgraded (Statistics.itemsUpgraded (statistics state) + #1)
       (statistics state)) state.

Definition upgradeWeapon (weaponId : string) (state : GameState) : GameState :=
  match findItem weaponId (Inventory.weapons (inventory state)) with
  | None => state
  | Some weapon =>
      if gems state <? Item.upgradeCost weapon then state
      else
        let updatedWeapons :=
          List.map (fun w => if String.eqb (Item.id w) weaponId then levelUp w else w)
            (Inventory.weapons (inventory state)) in
        let updatedCurrentWeapon :=
          if hasId (Inventory.currentWeapon (inventory state)) weaponId
          then match findItem weaponId updatedWeapons with
               | Some w => Some w
               | None => Inventory.currentWeapon (inventory state)
               end
          else Inventory.currentWeapon (inventory state) in
        countUpgrade
          (set_inventory
             (Inventory.set_currentWeapon updatedCurrentWeapon
                (Inventory.set_weapons updatedWeapons (inventory state)))
             (set_gems (gems state - Item.upgradeCost weapon) state))
  end.

Definition upgradeArmor (armorId : string) (state : GameState) : GameState :=
  match findItem armorId (Inventory.armor (inventory state)) with
  | None => state
  | Some armor =>
      if gems state <? Item.upgradeCost armor then state
      else
        let updatedArmor :=
          List.map (fun a => if String.eqb (Item.id a) armorId then levelUp a else a)
            (Inventory.armor (inventory state)) in
        let updatedCurrentArmor :=
          if hasId (Inventory.currentArmor (inventory state)) armorId
          then match findItem armorId updatedArmor with
               | Some a => Some a
               | None => Inventory.currentArmor (inventory state)
               end
          else Inventory.currentArmor (inventory state) in
        countUpgrade
          (set_inventory
             (Inventory.set_currentArmor updatedCurrentArmor
                (Inventory.set_armor updatedArmor (inventory state)))
             (set_gems (gems state - Item.upgradeCost armor) state))
  end.

(** [items.filter(w => w.id !== id)] *)
Definition removeItem (id : string) (items : list Item.t) : list Item.t :=
  List.filter (fun w => negb (String.eqb (Item.id w) id)) items.

Definition countSale (state : GameState) : GameState :=
  set_statistics
    (Statistics.set_itemsSold (Statistics.itemsSold (statistics state) + #1)
       (statistics state)) state.

Definition sellWeapon (weaponId : string) (state : GameState) : GameState :=
  match findItem weaponId (Inventory.weapons (inventory state)) with
  | None => state
  | Some weapon =>
      if hasId (Inventory.currentWeapon (inventory state)) weaponId then state
      else
        countSale
          (set_inventory
             (Inventory.set_weapons
                (removeItem weaponId (Inventory.weapons (inventory state)))
                (inventory state))
             (set_coins (coins state + Item.sellPrice weapon) state))
  end.

Definition sellArmor (armorId : string) (state : GameState) : GameState :=
  match findItem armorId (Inventory.armor (inventory state)) with
  | None => state
  | Some armor =>
      if hasId (Inventory.currentArmor (inventory state)) armorId then state
      else
        countSale
          (set_inventory
             (Inventory.set_armor
                (removeItem armorId (Inventory.armor (inventory state)))
                (inventory state))
             (set_coins (coins state + Item.sellPrice armor) state))
  end.

(** The [type] argument of [upgradeResearch] is not read by the updater. *)
Definition upgradeResearch (state : GameState) : GameState :=
  let cost := calculateResearchCost (Research.level (research state)) in
  if coins state <? cost then state
  else
    set_statistics
      (Statistics.set_totalResearchSpent
         (Statistics.totalResearchSpent (statistics state) + cost) (statistics state))
      (set_research
         (Research.set_totalSpent (Research.totalSpent (research state) + cost)
            (Research.set_level (Research.level (research state) + #1) (research state)))
         (set_coins (coins state - cost) state)).

(** ** Chests *)

(** The table [rarities] of [openChest]. *)
Definition rarities : list Rarity := [Common; Rare; Epic; Legendary; Mythical].

(** The selection loop of [openChest] from index [i] on: add [weights[i]]
    to the running total, stop at the first total the draw does not exceed.
    [selectedRarity] is the value the variable holds when no index stops
    the loop; [None] stands for [undefined], which [rarities[i]] yields
    past the end of the table. *)
Fixpoint rarityLoop (random cumulative : number) (i : nat)
    (weights : list number) (selectedRarity : option Rarity) : option Rarity :=
  match weights with
  | [] => selectedRarity
  | w :: rest =>
      let cumulative := cumulative + w in
      if random <=? cumulative then rarities !! i
      else rarityLoop random cumulative (S i) rest selectedRarity
  end.

Definition selectRarity (weights : list number) (random : number) : option Rarity :=
  rarityLoop random #0 0 weights (Some Common).

(** [rarityStats[rarity] += 1] *)
Definition countRarity (r : Rarity) (st : RarityStats.t) : RarityStats.t :=
  match r with
  | Common => RarityStats.set_common (RarityStats.common st + #1) st
  | Rare => RarityStats.set_rare (RarityStats.rare st + #1) st
  | Epic => RarityStats.set_epic (RarityStats.epic st + #1) st
  | Legendary => RarityStats.set_legendary (RarityStats.legendary st + #1) st
  | Mythical => RarityStats.set_mythical (RarityStats.mythical st + #1) st
  end.

(** A name is recorded when [!book[name]] holds. *)
Definition discovered (book : gmap string bool) (name : string) : bool :=
  default false (book !! name).

Definition recordDiscovery (isWeapon : bool) (item : Item.t)
    (book : CollectionBook.t) : CollectionBook.t :=
  let book :=
    if isWeapon then
      if discovered (CollectionBook.weapons book) (Item.name item) then book
      else
        CollectionBook.set_totalWeaponsFound (CollectionBook.totalWeaponsFound book + #1)
          (CollectionBook.set_weapons
             (<[Item.name item := true]> (CollectionBook.weapons book)) book)
    else
      if discovered (CollectionBook.armor book) (Item.name item) then book
      else
        CollectionBook.set_totalArmorFound (CollectionBook.totalArmorFound book + #1)
          (CollectionBook.set_armor
             (<[Item.name item := true]> (CollectionBook.armor book)) book) in
  CollectionBook.set_rarityStats
    (countRarity (Item.rarity item) (CollectionBook.rarityStats book)) book.

(** [newInventory.weapons = [...weapons, item]] or the same for armor. *)
Definition addItem (isWeapon : bool) (item : Item.t) (inv : Inventory.t) : Inventory.t :=
  if isWeapon then Inventory.set_weapons (Inventory.weapons inv ++ [item]) inv
  else Inventory.set_armor (Inventory.armor inv ++ [item]) inv.

(** [openChest(cost)].  [r1], [r2], [r3] are its three [Math.random()]
    draws in evaluation order; [generateWeapon] and [generateArmor] answer
    the call [generate(false, selectedRarity)].  The second component is the
    value the updater leaves in the closure variable [reward].  The hook
    function returns that variable as soon as it has handed the updater to
    [updateGameState], so its caller receives this value only when the
    updater has already run by then, and [null] otherwise. *)
Definition openChest (cost : number) (r1 r2 r3 : number)
    (generateWeapon generateArmor : option Rarity -> Item.t)
    (state : GameState) : GameState * option ChestReward :=
  if coins state <? cost then (state, None)
  else
    let weights := getChestRarityWeights cost in
    let random := r1 * #100 in
    let selectedRarity := selectRarity weights random in
    let isWeapon := r2 <? JS.dec 7 1 in
    let item := if isWeapon then generateWeapon selectedRarity
                else generateArmor selectedRarity in
    let reward := mkChestReward (if isWeapon then KWeapon else KArmor) [item] in
    (set_statistics
       (Statistics.set_itemsCollected
          (Statistics.itemsCollected (statistics state) + #1)
          (Statistics.set_chestsOpened
             (Statistics.chestsOpened (statistics state) + #1) (statistics state)))
       (set_collectionBook (recordDiscovery isWeapon item (collectionBook state))
          (set_inventory (addItem isWeapon item (inventory state))
             (set_gems (gems state + JS.floor (r3 * #10) + #5)
                (set_coins (coins state - cost) state)))),
     Some reward).

(** [purchaseMythical(cost)], with its draw and the generators' answers;
    the second component is the value the updater leaves in the closure
    variable [success], which the hook function returns as soon as the
    updater is handed over (see [openChest]). *)
Definition purchaseMythical (cost : number) (r : number)
    (generateWeapon generateArmor : option Rarity -> Item.t)
    (state : GameState) : GameState * bool :=
  if coins state <? cost then (state, false)
  else
    let isWeapon := r <? JS.dec 5 1 in
    let item := if isWeapon then generateWeapon (Some Mythical)
                else generateArmor (Some Mythical) in
    (set_inventory (addItem isWeapon item (inventory state))
       (set_coins (coins state - cost) state),
     true).

(** ** Adventure skills *)

(** The catalogue of [generateRandomAdventureSkills]. *)
Definition allSkills : list AdventureSkill.t := [
  AdventureSkill.mk "risker" "Risker"
    "Lose 15% health but get 20% extra ATK" risker;
  AdventureSkill.mk "lightning_chain" "Lightning Chain"
    "Every correct answer, deal 15% extra ATK but every wrong answer, be dealt 10% more ATK"
    lightning_chain;
  AdventureSkill.mk "skip_card" "Skip Card"
    "Skip any question. Effective only once." skip_card;
  AdventureSkill.mk "metal_shield" "Metal Shield"
    "If you are about to die, auto sacrifice 30% ATK to just cancel damage taken"
    metal_shield;
  AdventureSkill.mk "truth_lies" "1 Truth, 2 Lies"
    "Remove one of the wrong answers in a multi choice question for the ENTIRE adventure"
    truth_lies;
  AdventureSkill.mk "ramp" "Ramp"
    "A random stat is doubled but another is reduced by 40%" ramp;
  AdventureSkill.mk "dodge" "Dodge"
    "Don't take damage from the first wrong answer" dodge
]%string.

(** [generateRandomAdventureSkills()]: the first three entries of the
    shuffled catalogue.  [shuffled] is what sorting a copy of [allSkills]
    with the random comparator produced. *)
Definition generateRandomAdventureSkills (shuffled : list AdventureSkill.t)
    : list AdventureSkill.t :=
  take 3 shuffled.

Definition startCombat (shuffled : list AdventureSkill.t) (state : GameState)
    : GameState :=
  let availableSkills := generateRandomAdventureSkills shuffled in
  set_adventureSkills
    (AdventureSkills.set_showSelectionModal true
       (AdventureSkills.set_availableSkills availableSkills (adventureSkills state)))
    state.

(** The three stats [ramp] chooses between. *)
Inductive Stat : Type := StatAtk | StatDef | StatHp.

(** The two choices of [ramp]; [r1], [r2], [r3] are the draws of the
    [Math.random()] calls in the order the conditional expressions reach
    them ([r2] is only read when the first test fails). *)
Definition statToDouble (r1 r2 : number) : Stat :=
  if r1 <? JS.dec 33 2 then StatAtk
  else if r2 <? JS.dec 5 1 then StatDef else StatHp.

Definition statToReduce (doubled : Stat) (r3 : number) : Stat :=
  match doubled with
  | StatAtk => if r3 <? JS.dec 5 1 then StatDef else StatHp
  | StatDef => if r3 <? JS.dec 5 1 then StatAtk else StatHp
  | StatHp => if r3 <? JS.dec 5 1 then StatAtk else StatDef
  end.

Definition doubleStat (st : Stat) (p : PlayerStats.t) : PlayerStats.t :=
  match st with
  | StatAtk => PlayerStats.set_atk (PlayerStats.atk p * #2) p
  | StatDef => PlayerStats.set_def (PlayerStats.def p * #2) p
  | StatHp => PlayerStats.set_hp (PlayerStats.hp p * #2) p
  end.

Definition reduceStat (st : Stat) (p : PlayerStats.t) : PlayerStats.t :=
  match st with
  | StatAtk => PlayerStats.set_atk (JS.floor (PlayerStats.atk p * JS.dec 6 1)) p
  | StatDef => PlayerStats.set_def (JS.floor (PlayerStats.def p * JS.dec 6 1)) p
  | StatHp => PlayerStats.set_hp (JS.floor (PlayerStats.hp p * JS.dec 6 1)) p
  end.

(** The [switch (skill.type)] of [selectAdventureSkill] on the copies of the
    player's stats and of the effect flags. *)
Definition applySkill (ty : SkillType) (r1 r2 r3 : number)
    (stats : PlayerStats.t) (effects : SkillEffects.t)
    : PlayerStats.t * SkillEffects.t :=
  match ty with
  | risker =>
      let stats := PlayerStats.set_hp (JS.floor (PlayerStats.hp stats * JS.dec 85 2)) stats in
      let stats := PlayerStats.set_atk (JS.floor (PlayerStats.atk stats * JS.dec 12 1)) stats in
      (stats, effects)
  | lightning_chain => (stats, SkillEffects.set_lightningChainActive true effects)
  | truth_lies => (stats, SkillEffects.set_truthLiesActive true effects)
  | ramp =>
      let doubled := statToDouble r1 r2 in
      let reduced := statToReduce doubled r3 in
      (reduceStat reduced (doubleStat doubled stats),
       SkillEffects.set_rampActive true effects)
  | skip_card | metal_shield | dodge => (stats, effects)
  end.

(** [selectAdventureSkill(skill)]; [generateEnemy] answers the call
    [generateEnemy(state.zone)]. *)
Definition selectAdventureSkill (skill : AdventureSkill.t)
    (generateEnemy : number -> Enemy.t) (r1 r2 r3 : number)
    (state : GameState) : GameState :=
  let enemy := generateEnemy (zone state) in
  let '(modifiedPlayerStats, skillEffects) :=
    applySkill (AdventureSkill.type skill) r1 r2 r3 (playerStats state)
      (AdventureSkills.skillEffects (adventureSkills state)) in
  set_adventureSkills
    (AdventureSkills.set_skillEffects
       (SkillEffects.set_dodgeUsed false
          (SkillEffects.set_metalShieldUsed false
             (SkillEffects.set_skipCardUsed false skillEffects)))
       (AdventureSkills.set_showSelectionModal false
          (AdventureSkills.set_selectedSkill (Some skill) (adventureSkills state))))
    (set_combatLog [LogEncounter (Enemy.name enemy)]
       (set_playerStats modifiedPlayerStats
          (set_inCombat true
             (set_currentEnemy (Some enemy) state)))).

Definition skipAdventureSkills (generateEnemy : number -> Enemy.t)
    (state : GameState) : GameState :=
  let enemy := generateEnemy (zone state) in
  set_adventureSkills
    (AdventureSkills.set_skillEffects noSkillEffects
       (AdventureSkills.set_showSelectionModal false
          (AdventureSkills.set_selectedSkill None (adventureSkills state))))
    (set_combatLog [LogEncounter (Enemy.name enemy)]
       (set_inCombat true
          (set_currentEnemy (Some enemy) state))).

Definition useSkipCard (state : GameState) : GameState :=
  set_adventureSkills
    (AdventureSkills.set_skillEffects
       (SkillEffects.set_skipCardUsed true
          (AdventureSkills.skillEffects (adventureSkills state)))
       (adventureSkills state))
    state.

(** ** Combat *)

(** The bookkeeping of [statistics.accuracyByCategory[category]]: create
    the entry when it is missing, then count the answer. *)
Definition recordAnswer (correct : bool) (category : option string)
    (st : Statistics.t) : Statistics.t :=
  match category with
  | Some c =>
      if truthyString category then
        let acc := Statistics.accuracyByCategory st in
        let entry := default (CategoryAccuracy.mk #0 #0) (acc !! c) in
        let entry :=
          if correct
          then CategoryAccuracy.set_correct (CategoryAccuracy.correct entry + #1) entry
          else entry in
        let entry := CategoryAccuracy.set_total (CategoryAccuracy.total entry + #1) entry in
        Statistics.set_accuracyByCategory (<[c := entry]> acc) st
      else st
  | None => st
  end.

(** The damage of a hit: [Math.max(1, atk - enemy.def)], raised by 15% and
    floored under [lightning_chain]. *)
Definition playerDamage (enemy : Enemy.t) (state : GameState) : number :=
  let damage := JS.max #1 (PlayerStats.atk (playerStats state) - Enemy.def enemy) in
  if SkillEffects.lightningChainActive (AdventureSkills.skillEffects (adventureSkills state))
  then JS.floor (damage * JS.dec 115 2) else damage.

(** The branch [if (hit)] of [attack]: the player strikes [enemy]. *)
Definition playerAttacks (category : option string) (enemy : Enemy.t)
    (state : GameState) : GameState :=
  let damage := playerDamage enemy state in
  let enemy := Enemy.set_hp (JS.max #0 (Enemy.hp enemy - damage)) enemy in
  let streak := knowledgeStreak state in
  let current := KnowledgeStreak.current streak + #1 in
  let best :=
    if current >? KnowledgeStreak.best streak then current
    else KnowledgeStreak.best streak in
  let multiplier := #1 + current * JS.dec 1 1 in
  let st := statistics state in
  let st := Statistics.set_correctAnswers (Statistics.correctAnswers st + #1) st in
  let st := Statistics.set_totalDamageDealt (Statistics.totalDamageDealt st + damage) st in
  let st := recordAnswer true category st in
  set_statistics st
    (set_knowledgeStreak (KnowledgeStreak.mk current best multiplier)
       (set_combatLog (combatLog state ++ [LogDeal damage])
          (set_currentEnemy (Some enemy) state))).

(** [selectedSkill?.type === ty] *)
Definition hasSkill (ty : SkillType) (sk : option AdventureSkill.t) : bool :=
  match sk with
  | Some skill =>
      match AdventureSkill.type skill, ty with
      | risker, risker | lightning_chain, lightning_chain | skip_card, skip_card
      | metal_shield, metal_shield | truth_lies, truth_lies | ramp, ramp
      | dodge, dodge => true
      | _, _ => false
      end
  | None => false
  end.

(** The damage of a miss that is not dodged: [Math.max(1, enemy.atk - def)],
    raised by 10% and floored under [lightning_chain]. *)
Definition enemyDamage (enemy : Enemy.t) (state : GameState) : number :=
  let enemyDamage := JS.max #1 (Enemy.atk enemy - PlayerStats.def (playerStats state)) in
  if SkillEffects.lightningChainActive (AdventureSkills.skillEffects (adventureSkills state))
  then JS.floor (enemyDamage * JS.dec 11 1) else enemyDamage.

(** The test that lets [dodge] cancel a miss. *)
Definition dodges (state : GameState) : bool :=
  negb (SkillEffects.dodgeUsed (AdventureSkills.skillEffects (adventureSkills state)))
  && hasSkill dodge (AdventureSkills.selectedSkill (adventureSkills state)).

(** The [else] branch of [attack]: the enemy strikes, unless [dodge]
    cancels the blow. *)
Definition enemyAttacks (category : option string) (enemy : Enemy.t)
    (state : GameState) : GameState :=
  let adv := adventureSkills state in
  let state :=
    if dodges state then
      set_combatLog (combatLog state ++ [LogDodge])
        (set_adventureSkills
           (AdventureSkills.set_skillEffects
              (SkillEffects.set_dodgeUsed true (AdventureSkills.skillEffects adv)) adv)
           state)
    else
      let enemyDamage := enemyDamage enemy state in
      set_statistics
        (Statistics.set_totalDamageTaken
           (Statistics.totalDamageTaken (statistics state) + enemyDamage)
           (statistics state))
        (set_combatLog (combatLog state ++ [LogEnemyDeals enemyDamage])
           (set_playerStats
              (PlayerStats.set_hp
                 (JS.max #0 (PlayerStats.hp (playerStats state) - enemyDamage))
                 (playerStats state))
              state)) in
  set_statistics (recordAnswer false category (statistics state))
    (set_knowledgeStreak
       (KnowledgeStreak.set_multiplier #1
          (KnowledgeStreak.set_current #0 (knowledgeStreak state)))
       state).

(** [newState.statistics.totalQuestionsAnswered += 1] *)
Definition countQuestion (state : GameState) : GameState :=
  set_statistics
    (Statistics.set_totalQuestionsAnswered
       (Statistics.totalQuestionsAnswered (statistics state) + #1) (statistics state))
    state.

(** The rewards of a victory in [zone] under the streak [multiplier]. *)
Definition coinReward (zone multiplier : number) : number :=
  JS.floor ((#10 + zone * #2) * multiplier).

Definition gemReward (zone multiplier : number) : number :=
  JS.floor ((#1 + JS.floor (zone / #5)) * multiplier).

(** The block "Check if enemy is defeated". *)
Definition victoryCheck (state : GameState) : GameState :=
  match currentEnemy state with
  | None => state
  | Some enemy =>
      if Enemy.hp enemy <=? #0 then
        let coinReward := coinReward (zone state) (KnowledgeStreak.multiplier (knowledgeStreak state)) in
        let gemReward := gemReward (zone state) (KnowledgeStreak.multiplier (knowledgeStreak state)) in
        let zone' := zone state + #1 in
        let st := statistics state in
        let st := Statistics.set_totalVictories (Statistics.totalVictories st + #1) st in
        let st := Statistics.set_coinsEarned (Statistics.coinsEarned st + coinReward) st in
        let st := Statistics.set_gemsEarned (Statistics.gemsEarned st + gemReward) st in
        let st := Statistics.set_zonesReached (JS.max (Statistics.zonesReached st) zone') st in
        set_statistics st
          (set_isPremium (if zone' >=? #50 then true else isPremium state)
             (set_adventureSkills emptyAdventureSkills
                (set_combatLog (combatLog state ++ [LogVictory coinReward gemReward])
                   (set_currentEnemy None
                      (set_inCombat false
                         (set_zone zone'
                            (set_gems (gems state + gemReward)
                               (set_coins (coins state + coinReward) state))))))))
      else state
  end.

(** The three outcomes of the block "Check if player is defeated". *)
Definition metalShield (state : GameState) : GameState :=
  let adv := adventureSkills state in
  set_combatLog (combatLog state ++ [LogMetalShield])
    (set_adventureSkills
       (AdventureSkills.set_skillEffects
          (SkillEffects.set_metalShieldUsed true (AdventureSkills.skillEffects adv)) adv)
       (set_playerStats
          (PlayerStats.set_atk
             (JS.floor (PlayerStats.atk (playerStats state) * JS.dec 7 1))
             (PlayerStats.set_hp #1 (playerStats state)))
          state)).

Definition freeRevival (state : GameState) : GameState :=
  set_statistics
    (Statistics.set_revivals (Statistics.revivals (statistics state) + #1)
       (statistics state))
    (set_combatLog (combatLog state ++ [LogRevived])
       (set_hasUsedRevival true
          (set_playerStats
             (PlayerStats.set_hp (PlayerStats.maxHp (playerStats state))
                (playerStats state))
             state))).

Definition gameOver (state : GameState) : GameState :=
  set_adventureSkills emptyAdventureSkills
    (set_statistics
       (Statistics.set_totalDeaths (Statistics.totalDeaths (statistics state) + #1)
          (statistics state))
       (set_combatLog (combatLog state ++ [LogDefeated])
          (set_currentEnemy None
             (set_inCombat false state)))).

(** Which of the three the defeat check takes. *)
Inductive DefeatBranch : Type := ShieldBranch | RevivalBranch | GameOverBranch.

Definition defeatBranch (state : GameState) : DefeatBranch :=
  let adv := adventureSkills state in
  if hasSkill metal_shield (AdventureSkills.selectedSkill adv)
     && negb (SkillEffects.metalShieldUsed (AdventureSkills.skillEffects adv))
  then ShieldBranch
  else if negb (hasUsedRevival state) then RevivalBranch
  else GameOverBranch.

(** The block "Check if player is defeated". *)
Definition defeatCheck (state : GameState) : GameState :=
  if PlayerStats.hp (playerStats state) <=? #0 then
    match defeatBranch state with
    | ShieldBranch => metalShield state
    | RevivalBranch => freeRevival state
    | GameOverBranch => gameOver state
    end
  else state.

(** The exchange of blows that opens [attack], up to the count of the
    question. *)
Definition exchange (hit : bool) (category : option string) (enemy : Enemy.t)
    (state : GameState) : GameState :=
  countQuestion
    (if hit then playerAttacks category enemy state
     else enemyAttacks category enemy state).

(** [attack(hit, category)] *)
Definition attack (hit : bool) (category : option string) (state : GameState)
    : GameState :=
  match currentEnemy state with
  | None => state
  | Some enemy => defeatCheck (victoryCheck (exchange hit category enemy state))
  end.

(** ** Modes, cheats, mining and the gem exchange *)

Definition setGameMode (mode : GameModeName) (state : GameState) : GameState :=
  set_gameMode (GameMode.set_current mode (gameMode state)) state.

Definition toggleCheat (cheat : CheatName) (state : GameState) : GameState :=
  let c := cheats state in
  set_cheats
    match cheat with
    | infiniteCoins => Cheats.set_infiniteCoins (negb (Cheats.infiniteCoins c)) c
    | infiniteGems => Cheats.set_infiniteGems (negb (Cheats.infiniteGems c)) c
    | obtainAnyItem => Cheats.set_obtainAnyItem (negb (Cheats.obtainAnyItem c)) c
    end
    state.

(** [mineGem(x, y)] with its draw; the second component is what the
    updater leaves in the closure variable [result], as the pair (gems,
    shinyGems) (see [openChest] on what the caller receives).  The
    coordinates are not read. *)
Definition mineGem (r : number) (state : GameState) : GameState * (number * number) :=
  let isShinyNode := r <? JS.dec 5 2 in
  if isShinyNode then
    (set_statistics
       (Statistics.set_shinyGemsEarned
          (Statistics.shinyGemsEarned (statistics state) + #1) (statistics state))
       (set_mining
          (Mining.set_totalShinyGemsMined
             (Mining.totalShinyGemsMined (mining state) + #1) (mining state))
          (set_shinyGems (shinyGems state + #1) state)),
     (#0, #1))
  else
    (set_statistics
       (Statistics.set_gemsEarned
          (Statistics.gemsEarned (statistics state) + #1) (statistics state))
       (set_mining
          (Mining.set_totalGemsMined
             (Mining.totalGemsMined (mining state) + #1) (mining state))
          (set_gems (gems state + #1) state)),
     (#1, #0)).

Definition exchangeShinyGems (amount : number) (state : GameState)
    : GameState * bool :=
  if shinyGems state <? amount then (state, false)
  else
    (set_gems (gems state + amount * #10)
       (set_shinyGems (shinyGems state - amount) state),
     true).

Definition discardItem (itemId : string) (type : ItemKind) (state : GameState)
    : GameState :=
  match type with
  | KWeapon =>
      set_inventory
        (Inventory.set_weapons
           (removeItem itemId (Inventory.weapons (inventory state))) (inventory state))
        state
  | KArmor =>
      set_inventory
        (Inventory.set_armor
           (removeItem itemId (Inventory.armor (inventory state))) (inventory state))
        state
  end.

(** ** Relics *)

Definition findRelic (id : string) (rs : list Relic.t) : option Relic.t :=
  List.find (fun r => String.eqb (Relic.id r) id) rs.

(** [rs.filter(r => r.id !== id)] *)
Definition removeRelic (id : string) (rs : list Relic.t) : list Relic.t :=
  List.filter (fun r => negb (String.eqb (Relic.id r) id)) rs.

Definition purchaseRelic (relicId : string) (state : GameState) : GameState * bool :=
  match findRelic relicId (YojefMarket.items (yojefMarket state)) with
  | None => (state, false)
  | Some relic =>
      if (gems state <? Relic.cost relic)
         || (5 <=? length (Inventory.equippedRelics (inventory state)))%nat
      then (state, false)
      else
        (set_yojefMarket
           (YojefMarket.set_items
              (removeRelic relicId (YojefMarket.items (yojefMarket state)))
              (yojefMarket state))
           (set_inventory
              (Inventory.set_equippedRelics
                 (Inventory.equippedRelics (inventory state) ++ [relic])
                 (Inventory.set_relics
                    (Inventory.relics (inventory state) ++ [relic]) (inventory state)))
              (set_gems (gems state - Relic.cost relic) state)),
         true)
  end.

(** The object [upgradeRelic] builds for the relic it upgrades. *)
Definition relicLevelUp (r : Relic.t) : Relic.t :=
  Relic.set_baseDef
    (if truthyNumber (Relic.baseDef r)
     then (fun d => d + #15) <$> Relic.baseDef r else None)
    (Relic.set_baseAtk
       (if truthyNumber (Relic.baseAtk r)
        then (fun a => a + #22) <$> Relic.baseAtk r else None)
       (Relic.set_upgradeCost (upgradedCost (Relic.upgradeCost r))
          (Relic.set_level (Relic.level r + #1) r))).

Definition upgradeRelic (relicId : string) (state : GameState) : GameState :=
  match findRelic relicId (Inventory.relics (inventory state)) with
  | None => state
  | Some relic =>
      if gems state <? Relic.upgradeCost relic then state
      else
        let updatedRelics :=
          List.map (fun r => if String.eqb (Relic.id r) relicId then relicLevelUp r else r)
            (Inventory.relics (inventory state)) in
        let updatedEquippedRelics :=
          List.map
            (fun r =>
               if String.eqb (Relic.id r) relicId
               then default r (findRelic relicId updatedRelics)
               else r)
            (Inventory.equippedRelics (inventory state)) in
        set_inventory
          (Inventory.set_equippedRelics updatedEquippedRelics
             (Inventory.set_relics updatedRelics (inventory state)))
          (set_gems (gems state - Relic.upgradeCost relic) state)
  end.

Definition equipRelic (relicId : string) (state : GameState) : GameState :=
  match findRelic relicId (Inventory.relics (inventory state)) with
  | None => state
  | Some relic =>
      if (5 <=? length (Inventory.equippedRelics (inventory state)))%nat
         || existsb (fun r => String.eqb (Relic.id r) relicId)
              (Inventory.equippedRelics (inventory state))
      then state
      else
        set_inventory
          (Inventory.set_equippedRelics
             (Inventory.equippedRelics (inventory state) ++ [relic]) (inventory state))
          state
  end.

Definition unequipRelic (relicId : string) (state : GameState) : GameState :=
  set_inventory
    (Inventory.set_equippedRelics
       (removeRelic relicId (Inventory.equippedRelics (inventory state)))
       (inventory state))
    state.

Definition sellRelic (relicId : string) (state : GameState) : GameState :=
  set_inventory
    (Inventory.set_equippedRelics
       (removeRelic relicId (Inventory.equippedRelics (inventory state)))
       (Inventory.set_relics
          (removeRelic relicId (Inventory.relics (inventory state))) (inventory state)))
    state.

(** ** Rewards *)

(** [claimDailyReward()]; [now1] and [now2] are its two clock reads. *)
Definition claimDailyReward (now1 now2 : Date) (state : GameState)
    : GameState * bool :=
  match DailyRewards.availableReward (dailyRewards state) with
  | None => (state, false)
  | Some reward =>
      (set_dailyRewards
         (DailyRewards.set_rewardHistory
            (DailyRewards.rewardHistory (dailyRewards state)
               ++ [DailyReward.set_claimDate (Some now2)
                     (DailyReward.set_claimed true reward)])
            (DailyRewards.set_lastClaimDate (Some now1)
               (DailyRewards.set_availableReward None (dailyRewards state))))
         (set_gems (gems state + DailyReward.gems reward)
            (set_coins (coins state + DailyReward.coins reward) state)),
       true)
  end.

Definition claimOfflineRewards (state : GameState) : GameState :=
  set_offlineProgress
    (OfflineProgress.set_offlineTime #0
       (OfflineProgress.set_offlineGems #0
          (OfflineProgress.set_offlineCoins #0 (offlineProgress state))))
    (set_gems (gems state + OfflineProgress.offlineGems (offlineProgress state))
       (set_coins (coins state + OfflineProgress.offlineCoins (offlineProgress state))
          state)).

(** ** Bulk operations *)

Definition bulkSell (itemIds : list string) (type : ItemKind) (state : GameState)
    : GameState :=
  match type with
  | KWeapon =>
      let current := Inventory.currentWeapon (inventory state) in
      let weaponsToSell :=
        List.filter
          (fun w => includes itemIds (Item.id w) && negb (hasId current (Item.id w)))
          (Inventory.weapons (inventory state)) in
      let totalValue := sumOf Item.sellPrice weaponsToSell in
      set_inventory
        (Inventory.set_weapons
           (List.filter
              (fun w => negb (includes itemIds (Item.id w)) || hasId current (Item.id w))
              (Inventory.weapons (inventory state)))
           (inventory state))
        (set_coins (coins state + totalValue) state)
  | KArmor =>
      let current := Inventory.currentArmor (inventory state) in
      let armorToSell :=
        List.filter
          (fun a => includes itemIds (Item.id a) && negb (hasId current (Item.id a)))
          (Inventory.armor (inventory state)) in
      let totalValue := sumOf Item.sellPrice armorToSell in
      set_inventory
        (Inventory.set_armor
           (List.filter
              (fun a => negb (includes itemIds (Item.id a)) || hasId current (Item.id a))
              (Inventory.armor (inventory state)))
           (inventory state))
        (set_coins (coins state + totalValue) state)
  end.

Definition bulkUpgrade (itemIds : list string) (type : ItemKind) (state : GameState)
    : GameState :=
  match type with
  | KWeapon =>
      let weaponsToUpgrade :=
        List.filter (fun w => includes itemIds (Item.id w))
          (Inventory.weapons (inventory state)) in
      let totalCost := sumOf Item.upgradeCost weaponsToUpgrade in
      if gems state <? totalCost then state
      else
        set_inventory
          (Inventory.set_weapons
             (List.map (fun w => if includes itemIds (Item.id w) then levelUp w else w)
                (Inventory.weapons (inventory state)))
             (inventory state))
          (set_gems (gems state - totalCost) state)
  | KArmor =>
      let armorToUpgrade :=
        List.filter (fun a => includes itemIds (Item.id a))
          (Inventory.armor (inventory state)) in
      let totalCost := sumOf Item.upgradeCost armorToUpgrade in
      if gems state <? totalCost then state
      else
        set_inventory
          (Inventory.set_armor
             (List.map (fun a => if includes itemIds (Item.id a) then levelUp a else a)
                (Inventory.armor (inventory state)))
             (inventory state))
          (set_gems (gems state - totalCost) state)
  end.

(** ** The garden *)

(** [plantSeed()]; [now1] and [now2] are its two clock reads. *)
Definition plantSeed (now1 now2 : Date) (state : GameState) : GameState * bool :=
  let garden := gardenOfGrowth state in
  if (coins state <? GardenOfGrowth.seedCost garden) || GardenOfGrowth.isPlanted garden
  then (state, false)
  else
    (set_gardenOfGrowth
       (GardenOfGrowth.set_waterHoursRemaining #24
          (GardenOfGrowth.set_lastWatered (Some now2)
             (GardenOfGrowth.set_plantedAt (Some now1)
                (GardenOfGrowth.set_isPlanted true garden))))
       (set_coins (coins state - GardenOfGrowth.seedCost garden) state),
     true).

Definition buyWater (hours : number) (state : GameState) : GameState * bool :=
  let garden := gardenOfGrowth state in
  let cost := (hours / #24) * GardenOfGrowth.waterCost garden in
  if coins state <? cost then (state, false)
  else
    (set_gardenOfGrowth
       (GardenOfGrowth.set_waterHoursRemaining
          (GardenOfGrowth.waterHoursRemaining garden + hours) garden)
       (set_coins (coins state - cost) state),
     true).

(** ** Settings and the debug entry points *)

Definition updateSettings (newSettings : PartialSettings) (state : GameState)
    : GameState :=
  let old := settings state in
  set_settings
    (Settings.mk
       (default (Settings.colorblindMode old) (new_colorblindMode newSettings))
       (default (Settings.darkMode old) (new_darkMode newSettings))
       (default (Settings.language old) (new_language newSettings))
       (default (Settings.notifications old) (new_notifications newSettings)))
    state.

Definition addCoins (amount : number) (state : GameState) : GameState :=
  set_coins (coins state + amount) state.

Definition addGems (amount : number) (state : GameState) : GameState :=
  set_gems (gems state + amount) state.

Definition teleportToZone (zone : number) (state : GameState) : GameState :=
  set_zone (JS.max #1 zone) state.

Definition setExperience (xp : number) (state : GameState) : GameState :=
  set_progression (Progression.set_experience (JS.max #0 xp) (progression state)) state.

(** ** Menu skills *)

(** The tables of [rollSkill]. *)
Definition skillTypes : list MenuSkillType :=
  [coin_vacuum; treasurer; xp_surge; luck_gem; enchanter].

Definition skillNames (ty : MenuSkillType) : string :=
  match ty with
  | coin_vacuum => "Coin Vacuum"
  | treasurer => "Treasurer"
  | xp_surge => "XP Surge"
  | luck_gem => "Luck Gem"
  | enchanter => "Enchanter"
  end.

Definition skillDescriptions (ty : MenuSkillType) : string :=
  match ty with
  | coin_vacuum => "Get 15 free coins per minute of play time"
  | treasurer => "Guarantees next chest opened is epic or better"
  | xp_surge => "Gives 300% XP gains for 24 hours"
  | luck_gem => "All gems mined for 1 hour are shiny gems"
  | enchanter => "Epic+ drops have 80% chance to be enchanted"
  end.

(** [rollSkill()]; [r] is the draw that picks the type, [newId] the string
    the second draw is rendered to, [now] the clock read. *)
Definition rollSkill (r : number) (newId : string) (now : Date)
    (state : GameState) : GameState * bool :=
  if coins state <? #100 then (state, false)
  else
    let randomType := index skillTypes (JS.floor (r * #5)) in
    let duration :=
      match randomType with
      | Some luck_gem => #1
      | Some treasurer => JS.dec 1 1
      | _ => #24
      end in
    let expiresAt := now + duration * #60 * #60 * #1000 in
    let newSkill :=
      MenuSkill.mk newId (skillNames <$> randomType) (skillDescriptions <$> randomType)
        duration now expiresAt randomType in
    (set_skills
       (Skills.set_lastRollTime (Some now)
          (Skills.set_activeMenuSkill (Some newSkill) (skills state)))
       (set_coins (coins state - #100) state),
     true).

(** ** The catalogue of public operations *)

(** One constructor per function the hook returns, with the arguments of
    the call and the answers of the environment it consumes. *)
Inductive Op : Type :=
  | OpEquipWeapon (weapon : Weapon)
  | OpEquipArmor (armor : Armor)
  | OpUpgradeWeapon (weaponId : string)
  | OpUpgradeArmor (armorId : string)
  | OpSellWeapon (weaponId : string)
  | OpSellArmor (armorId : string)
  | OpUpgradeResearch
  | OpOpenChest (cost r1 r2 r3 : number)
      (generateWeapon generateArmor : option Rarity -> Item.t)
  | OpPurchaseMythical (cost r : number)
      (generateWeapon generateArmor : option Rarity -> Item.t)
  | OpStartCombat (shuffled : list AdventureSkill.t)
  | OpAttack (hit : bool) (category : option string)
  | OpResetGame (now : Date)
  | OpSetGameMode (mode : GameModeName)
  | OpToggleCheat (cheat : CheatName)
  | OpGenerateCheatItem
  | OpMineGem (r : number)
  | OpExchangeShinyGems (amount : number)
  | OpDiscardItem (itemId : string) (type : ItemKind)
  | OpPurchaseRelic (relicId : string)
  | OpUpgradeRelic (relicId : string)
  | OpEquipRelic (relicId : string)
  | OpUnequipRelic (relicId : string)
  | OpSellRelic (relicId : string)
  | OpClaimDailyReward (now1 now2 : Date)
  | OpUpgradeSkill (skillId : string)
  | OpPrestige
  | OpClaimOfflineRewards
  | OpBulkSell (itemIds : list string) (type : ItemKind)
  | OpBulkUpgrade (itemIds : list string) (type : ItemKind)
  | OpPlantSeed (now1 now2 : Date)
  | OpBuyWater (hours : number)
  | OpUpdateSettings (newSettings : PartialSettings)
  | OpAddCoins (amount : number)
  | OpAddGems (amount : number)
  | OpTeleportToZone (zone : number)
  | OpSetExperience (xp : number)
  | OpRollSkill (r : number) (newId : string) (now : Date)
  | OpSelectAdventureSkill (skill : AdventureSkill.t)
      (generateEnemy : number -> Enemy.t) (r1 r2 r3 : number)
  | OpSkipAdventureSkills (generateEnemy : number -> Enemy.t)
  | OpUseSkipCard.

(** The state an operation commits when the committed state is [state].
    [generateCheatItem], [upgradeSkill] and [prestige] have empty bodies;
    [resetGame] replaces the state by a fresh initial one. *)
Definition applyOp (op : Op) (state : GameState) : GameState :=
  match op with
  | OpEquipWeapon weapon => equipWeapon weapon state
  | OpEquipArmor armor => equipArmor armor state
  | OpUpgradeWeapon weaponId => upgradeWeapon weaponId state
  | OpUpgradeArmor armorId => upgradeArmor armorId state
  | OpSellWeapon weaponId => sellWeapon weaponId state
  | OpSellArmor armorId => sellArmor armorId state
  | OpUpgradeResearch => upgradeResearch state
  | OpOpenChest cost r1 r2 r3 gw ga => fst (openChest cost r1 r2 r3 gw ga state)
  | OpPurchaseMythical cost r gw ga => fst (purchaseMythical cost r gw ga state)
  | OpStartCombat shuffled => startCombat shuffled state
  | OpAttack hit category => attack hit category state
  | OpResetGame now => createInitialGameState now
  | OpSetGameMode mode => setGameMode mode state
  | OpToggleCheat cheat => toggleCheat cheat state
  | OpGenerateCheatItem => state
  | OpMineGem r => fst (mineGem r state)
  | OpExchangeShinyGems amount => fst (exchangeShinyGems amount state)
  | OpDiscardItem itemId type => discardItem itemId type state
  | OpPurchaseRelic relicId => fst (purchaseRelic relicId state)
  | OpUpgradeRelic relicId => upgradeRelic relicId state
  | OpEquipRelic relicId => equipRelic relicId state
  | OpUnequipRelic relicId => unequipRelic relicId state
  | OpSellRelic relicId => sellRelic relicId state
  | OpClaimDailyReward now1 now2 => fst (claimDailyReward now1 now2 state)
  | OpUpgradeSkill _ => state
  | OpPrestige => state
  | OpClaimOfflineRewards => claimOfflineRewards state
  | OpBulkSell itemIds type => bulkSell itemIds type state
  | OpBulkUpgrade itemIds type => bulkUpgrade itemIds type state
  | OpPlantSeed now1 now2 => fst (plantSeed now1 now2 state)
  | OpBuyWater hours => fst (buyWater hours state)
  | OpUpdateSettings newSettings => updateSettings newSettings state
  | OpAddCoins amount => addCoins amount state
  | OpAddGems amount => addGems amount state
  | OpTeleportToZone zone => teleportToZone zone state
  | OpSetExperience xp => setExperience xp state
  | OpRollSkill r newId now => fst (rollSkill r newId now state)
  | OpSelectAdventureSkill skill ge r1 r2 r3 => selectAdventureSkill skill ge r1 r2 r3 state
  | OpSkipAdventureSkills ge => skipAdventureSkills ge state
  | OpUseSkipCard => useSkipCard state
  end.

(** The committed state after an operation: every operation goes through
    [updateGameState], except [resetGame], which calls [setGameState]
    directly and so also acts before the state is loaded. *)
Definition commit (op : Op) (committed : option GameState) : option GameState :=
  match op with
  | OpResetGame now => Some (createInitialGameState now)
  | _ => updateGameState (applyOp op) committed
  end.

(** The committed state after a sequence of operations, and the states an
    execution goes through. *)
Definition run (ops : list Op) (state : GameState) : GameState :=
  fold_left (fun s op => applyOp op s) ops state.

Fixpoint trace (ops : list Op) (state : GameState) : list GameState :=
  match ops with
  | [] => []
  | op :: rest => applyOp op state :: trace rest (applyOp op state)
  end.

(** * Hydration

    [loadGameState] merges whatever [JSON.parse] returned into fresh
    default states, so it is modelled over untyped values: a persisted
    snapshot may lack fields, carry extra ones, or hold values of any
    shape. *)

Definition obj (fields : list (string * value)) : value := VObj (list_to_map fields).

Definition num (z : Z) : value := VNum #z.

(** The object literal of [createInitialGameState], as an untyped object. *)
Definition initialAdventureSkills : value :=
  obj [("selectedSkill", VNull);
       ("availableSkills", VArr []);
       ("showSelectionModal", VBool false);
       ("skillEffects",
        obj [("skipCardUsed", VBool false);
             ("metalShieldUsed", VBool false);
             ("dodgeUsed", VBool false);
             ("truthLiesActive", VBool false);
             ("lightningChainActive", VBool false);
             ("rampActive", VBool false)])]%string.

Definition initialSkills (now : Date) : value :=
  obj [("activeMenuSkill", VNull);
       ("lastRollTime", VNull);
       ("playTimeThisSession", num 0);
       ("sessionStartTime", VDate now)]%string.

Definition initialObject (now : Date) : gmap string value :=
  list_to_map [
    ("coins", num 100); ("gems", num 0); ("shinyGems", num 0); ("zone", num 1);
    ("playerStats",
     obj [("hp", num 100); ("maxHp", num 100); ("atk", num 20); ("def", num 10);
          ("baseAtk", num 20); ("baseDef", num 10); ("baseHp", num 100)]);
    ("inventory",
     obj [("weapons", VArr []); ("armor", VArr []); ("relics", VArr []);
          ("currentWeapon", VNull); ("currentArmor", VNull);
          ("equippedRelics", VArr [])]);
    ("currentEnemy", VNull); ("inCombat", VBool false); ("combatLog", VArr []);
    ("research",
     obj [("level", num 0); ("totalSpent", num 0);
          ("availableUpgrades", VArr [VStr "atk"; VStr "def"; VStr "hp"])]);
    ("isPremium", VBool false);
    ("achievements", VArr initializeAchievements);
    ("collectionBook",
     obj [("weapons", obj []); ("armor", obj []);
          ("totalWeaponsFound", num 0); ("totalArmorFound", num 0);
          ("rarityStats",
           obj [("common", num 0); ("rare", num 0); ("epic", num 0);
                ("legendary", num 0); ("mythical", num 0)])]);
    ("knowledgeStreak",
     obj [("current", num 0); ("best", num 0); ("multiplier", num 1)]);
    ("gameMode",
     obj [("current", VStr "normal"); ("speedModeActive", VBool false);
          ("survivalLives", num 3); ("maxSurvivalLives", num 3);
          ("timeAttackScore", num 0); ("timeAttackTimeLeft", num 60);
          ("bossProgress", num 0)]);
    ("statistics",
     obj [("totalQuestionsAnswered", num 0); ("correctAnswers", num 0);
          ("totalPlayTime", num 0); ("zonesReached", num 1);
          ("itemsCollected", num 0); ("coinsEarned", num 0); ("gemsEarned", num 0);
          ("shinyGemsEarned", num 0); ("chestsOpened", num 0);
          ("accuracyByCategory", obj []); ("sessionStartTime", VDate now);
          ("totalDeaths", num 0); ("totalVictories", num 0); ("longestStreak", num 0);
          ("fastestVictory", num 0); ("totalDamageDealt", num 0);
          ("totalDamageTaken", num 0); ("itemsUpgraded", num 0); ("itemsSold", num 0);
          ("totalResearchSpent", num 0); ("averageAccuracy", num 0);
          ("revivals", num 0)]);
    ("cheats",
     obj [("infiniteCoins", VBool false); ("infiniteGems", VBool false);
          ("obtainAnyItem", VBool false)]);
    ("mining", obj [("totalGemsMined", num 0); ("totalShinyGemsMined", num 0)]);
    ("yojefMarket",
     obj [("items", VArr []); ("lastRefresh", VDate now);
          ("nextRefresh", VDate (now + #24 * #60 * #60 * #1000))]);
    ("playerTags", VArr initializePlayerTags);
    ("dailyRewards",
     obj [("lastClaimDate", VNull); ("currentStreak", num 0); ("maxStreak", num 0);
          ("availableReward", VNull); ("rewardHistory", VArr [])]);
    ("progression",
     obj [("level", num 1); ("experience", num 0); ("experienceToNext", num 100);
          ("skillPoints", num 0); ("unlockedSkills", VArr []);
          ("prestigeLevel", num 0); ("prestigePoints", num 0);
          ("masteryLevels", obj [])]);
    ("offlineProgress",
     obj [("lastSaveTime", VDate now); ("offlineCoins", num 0); ("offlineGems", num 0);
          ("offlineTime", num 0); ("maxOfflineHours", num 24)]);
    ("gardenOfGrowth",
     obj [("isPlanted", VBool false); ("plantedAt", VNull); ("lastWatered", VNull);
          ("waterHoursRemaining", num 0); ("growthCm", num 0);
          ("totalGrowthBonus", num 0); ("seedCost", num 1000); ("waterCost", num 500);
          ("maxGrowthCm", num 100)]);
    ("settings",
     obj [("colorblindMode", VBool false); ("darkMode", VBool true);
          ("language", VStr "en"); ("notifications", VBool true)]);
    ("hasUsedRevival", VBool false);
    ("skills", initialSkills now);
    ("adventureSkills", initialAdventureSkills)
  ]%string.

(** The own enumerable properties an object spread [...v] copies: those of
    an object, the indexed elements of an array or of a string, and nothing
    for the other values ([null] and [undefined] included). *)
Definition ownProperties (v : value) : gmap string value :=
  match v with
  | VObj o => o
  | VArr l => list_to_map (imap (fun i x => (pretty i, x)) l)
  | VStr s =>
      list_to_map
        (imap (fun i c => (pretty i, VStr (String c EmptyString)))
           (String.list_ascii_of_string s))
  | _ => ∅
  end.

(** The property read [v.key] for a key that is no index and no built-in
    member: [None] when the read throws, on [null] and [undefined]. *)
Definition property (v : value) (key : string) : option value :=
  match v with
  | VNull | VUndefined => None
  | VObj o => Some (default VUndefined (o !! key))
  | _ => Some VUndefined
  end.

(** What the effect of [loadGameState] finds in storage. *)
Inductive Stored : Type :=
  | Absent                 (* no item, or an empty string: [savedState] is falsy *)
  | Malformed              (* reading or [JSON.parse] throws *)
  | Parsed (v : value).    (* [parsedState] *)

(** [{ ...defaults, ...persisted }] *)
Definition mergeObjects (defaults persisted : value) : gmap string value :=
  ownProperties persisted ∪ ownProperties defaults.

(** The state [loadGameState] commits.  [now0], [now1], [now2] are the clock
    values of the successive [createInitialGameState()] calls: three in the
    merge; a read that throws does so after two of them, and the [catch]
    block makes the third. *)
Definition loadGameState (now0 now1 now2 : Date) (stored : Stored)
    : gmap string value :=
  match stored with
  | Parsed parsedState =>
      match property parsedState "skills", property parsedState "adventureSkills" with
      | Some persistedSkills, Some persistedAdventureSkills =>
          <["adventureSkills" :=
              VObj (mergeObjects (default VUndefined (initialObject now2 !! "adventureSkills"))
                      persistedAdventureSkills)]>
            (<["skills" :=
                 VObj (mergeObjects (default VUndefined (initialObject now1 !! "skills"))
                         persistedSkills)]>
               (mergeObjects (VObj (initialObject now0)) parsedState))
      | _, _ => initialObject now2   (* the read threw: the [catch] block *)
      end
  | Absent | Malformed => initialObject now0
  end.

End Engine.

(** * Vocabulary of the properties *)

(** The cost after [k] level-ups from the cost [C]: [Math.floor(c * 1.5)]
    applied [k] times. *)
Definition costAfter (k : nat) (C : number) : number := Nat.iter k upgradedCost C.

(** The guards that let an upgrade through. *)
Definition canUpgradeWeapon (id : string) (state : GameState) : bool :=
  match findItem id (Inventory.weapons (inventory state)) with
  | Some w => negb (gems state <? Item.upgradeCost w)
  | None => false
  end.

Definition canUpgradeArmor (id : string) (state : GameState) : bool :=
  match findItem id (Inventory.armor (inventory state)) with
  | Some a => negb (gems state <? Item.upgradeCost a)
  | None => false
  end.

Definition canUpgradeRelic (id : string) (state : GameState) : bool :=
  match findRelic id (Inventory.relics (inventory state)) with
  | Some r => negb (gems state <? Relic.upgradeCost r)
  | None => false
  end.

(** [k] calls of [step] in a row, each of them passing its guard [can]. *)
Fixpoint allSucceed (can : GameState -> bool) (step : GameState -> GameState)
    (k : nat) (state : GameState) : Prop :=
  match k with
  | O => True
  | S k' => can state = true /\ allSucceed can step k' (step state)
  end.

Fixpoint repeatOp (step : GameState -> GameState) (k : nat) (state : GameState)
    : GameState :=
  match k with
  | O => state
  | S k' => repeatOp step k' (step state)
  end.

(** The running totals [cumulative] takes in the loop of [openChest],
    starting from [acc]. *)
Fixpoint runningTotals (acc : number) (weights : list number) : list number :=
  match weights with
  | [] => []
  | w :: rest => (acc + w) :: runningTotals (acc + w) rest
  end.

(** What the exchange of blows of an [attack] leaves of the enemy's and of
    the player's hit points, and of the streak multiplier. *)
Definition enemyHpAfter (hit : bool) (enemy : Enemy.t) (state : GameState) : number :=
  if hit then JS.max #0 (Enemy.hp enemy - playerDamage enemy state)
  else Enemy.hp enemy.

Definition playerHpAfter (hit : bool) (enemy : Enemy.t) (state : GameState) : number :=
  if hit then PlayerStats.hp (playerStats state)
  else if dodges state then PlayerStats.hp (playerStats state)
  else JS.max #0 (PlayerStats.hp (playerStats state) - enemyDamage enemy state).

Definition multiplierAfter (hit : bool) (state : GameState) : number :=
  if hit then #1 + (KnowledgeStreak.current (knowledgeStreak state) + #1) * JS.dec 1 1
  else #1.

(** The branch of the defeat check an [attack] takes, if it takes one. *)
Definition defeatBranchOf (hit : bool) (category : option string)
    (state : GameState) : option DefeatBranch :=
  match currentEnemy state with
  | None => None
  | Some enemy =>
      let checked := victoryCheck (exchange hit category enemy state) in
      if PlayerStats.hp (playerStats checked) <=? #0
      then Some (defeatBranch checked) else None
  end.

(** The same for any operation: only [attack] has a defeat check. *)
Definition branchOf (op : Op) (state : GameState) : option DefeatBranch :=
  match op with
  | OpAttack hit category => defeatBranchOf hit category state
  | _ => None
  end.

Definition isReset (op : Op) : bool :=
  match op with OpResetGame _ => true | _ => false end.

Definition isSelect (op : Op) : bool :=
  match op with OpSelectAdventureSkill _ _ _ _ _ => true | _ => false end.

(** The branches the operations of a sequence take, one entry per
    operation, along the run from [state]; [step] is [applyOp] with its
    collaborators. *)
Fixpoint branches (step : Op -> GameState -> GameState) (ops : list Op)
    (state : GameState) : list (option DefeatBranch) :=
  match ops with
  | [] => []
  | op :: rest => branchOf op state :: branches step rest (step op state)
  end.

(** The metal shield can still fire: it is the selected skill and unused. *)
Definition shieldReady (state : GameState) : bool :=
  hasSkill metal_shield (AdventureSkills.selectedSkill (adventureSkills state))
  && negb (SkillEffects.metalShieldUsed (AdventureSkills.skillEffects (adventureSkills state))).

Definition isRevival (b : option DefeatBranch) : bool :=
  match b with Some RevivalBranch => true | _ => false end.

Definition isShield (b : option DefeatBranch) : bool :=
  match b with Some ShieldBranch => true | _ => false end.

(** No operation of the sequence satisfies [p]. *)
Definition none (p : Op -> bool) (ops : list Op) : Prop :=
  forallb (fun op => negb (p op)) ops = true.

(** ** The counters *)

(** The three currency counters do not compare below zero. *)
Definition countersNonneg (state : GameState) : Prop :=
  JS.nonneg (coins state) /\ JS.nonneg (gems state) /\ JS.nonneg (shinyGems state).

Definition nonnegPrices (items : list Item.t) : Prop :=
  Forall (fun w => JS.nonneg (Item.sellPrice w)) items.

(** An operation whose amount is not negative, and whose environment
    answers as it should: [Math.random()] is not negative and generated
    items do not have a negative sell price. *)
Definition wellBehaved (op : Op) : Prop :=
  match op with
  | OpAddCoins amount | OpAddGems amount | OpExchangeShinyGems amount =>
      JS.nonneg amount
  | OpOpenChest _ _ _ r3 generateWeapon generateArmor =>
      JS.nonneg r3
      /\ (forall r, JS.nonneg (Item.sellPrice (generateWeapon r)))
      /\ (forall r, JS.nonneg (Item.sellPrice (generateArmor r)))
  | OpPurchaseMythical _ _ generateWeapon generateArmor =>
      (forall r, JS.nonneg (Item.sellPrice (generateWeapon r)))
      /\ (forall r, JS.nonneg (Item.sellPrice (generateArmor r)))
  | _ => True
  end.

(** What the counters rest on: besides themselves, every quantity that is
    ever added to them. *)
Record economyInvariant (state : GameState) : Prop := mkEconomyInvariant {
  inv_counters : countersNonneg state;
  inv_zone : JS.nonneg (zone state);
  inv_current : JS.nonneg (KnowledgeStreak.current (knowledgeStreak state));
  inv_multiplier : JS.nonneg (KnowledgeStreak.multiplier (knowledgeStreak state));
  inv_weapons : nonnegPrices (Inventory.weapons (inventory state));
  inv_armor : nonnegPrices (Inventory.armor (inventory state));
  inv_reward : DailyRewards.availableReward (dailyRewards state) = None;
  inv_offlineCoins : JS.nonneg (OfflineProgress.offlineCoins (offlineProgress state));
  inv_offlineGems : JS.nonneg (OfflineProgress.offlineGems (offlineProgress state))
}.

(** ** Binary64 values

    The vocabulary of the facts on rounding. *)

(** A number whose sign bit, if it has one, is [s]. *)
Definition signed (s : bool) (x : number) : Prop :=
  match x with
  | S754_nan => True
  | S754_zero s' | S754_infinity s' | S754_finite s' _ _ => s' = s
  end.

(** Only negative infinity and the negative finite numbers compare below
    zero. *)
Definition negative (x : number) : bool :=
  match x with
  | S754_infinity true | S754_finite true _ _ => true
  | _ => false
  end.

(** [vle m1 e1 m2 e2]: [m1 * 2^e1 <= m2 * 2^e2], stated on integers by
    scaling both sides to any common exponent [K] below [e1] and [e2]. *)
Definition vle (m1 e1 m2 e2 : Z) : Prop :=
  forall K : Z,
    (K <= e1)%Z -> (K <= e2)%Z -> (m1 * 2 ^ (e1 - K) <= m2 * 2 ^ (e2 - K))%Z.

(** The two bits by which [shr] remembers that digits were lost. *)
Definition inexact (mrs : shr_record) : bool := shr_r mrs || shr_s mrs.

(** [mrs] is what [k] shifts make of [m]. *)
Definition shifted (m k : Z) (mrs : shr_record) : Prop :=
  shr_m mrs = (m / 2 ^ k)%Z /\ (inexact mrs = false <-> (m mod 2 ^ k)%Z = 0%Z).

(** A double that is [+0] or positive and whose value does not exceed
    [mX * 2^eX]. *)
Definition below (x : number) (mX eX : Z) : Prop :=
  match x with
  | S754_zero false => True
  | S754_finite false m e => vle (Zpos m) e mX eX
  | _ => False
  end.

(** [mX * 2^eX] is a double in canonical form. *)
Definition canonical (mX : positive) (eX : Z) : Prop :=
  fexp JS.prec JS.emax (Zdigits2 (Zpos mX) + eX)%Z = eX
  /\ (eX <= JS.emax - JS.prec)%Z.

(** A factor [mc * 2^ec] with a full mantissa and no greater than one. *)
Definition fraction (mc : positive) (ec : Z) : Prop :=
  (2 ^ 52 <= Zpos mc)%Z /\ (ec <= 0)%Z /\ (Zpos mc <= 2 ^ (- ec))%Z.

(** A number that is not NaN and not negative: the damage of a blow. *)
Definition positive_or_zero (y : number) : Prop :=
  match y with
  | S754_zero _ | S754_infinity false | S754_finite false _ _ => True
  | _ => False
  end.

(** ** The player's health *)

(** [playerStats.hp <= playerStats.maxHp] *)
Definition hpWithinMax (state : GameState) : Prop :=
  (PlayerStats.hp (playerStats state) <=? PlayerStats.maxHp (playerStats state)) = true.

(** A selection of [ramp] whose draws make the health the stat it
    doubles. *)
Definition doublesHp (op : Op) : bool :=
  match op with
  | OpSelectAdventureSkill skill _ r1 r2 _ =>
      match AdventureSkill.type skill, statToDouble r1 r2 with
      | ramp, StatHp => true
      | _, _ => false
      end
  | _ => false
  end.

(** The enemies an operation generates have a finite attack. *)
Definition finiteEnemies (op : Op) : Prop :=
  match op with
  | OpSelectAdventureSkill _ generateEnemy _ _ _
  | OpSkipAdventureSkills generateEnemy =>
      forall zone, JS.isFinite (Enemy.atk (generateEnemy zone)) = true
  | _ => True
  end.

(** The maximum health, [100], is [maxHpMantissa * 2^maxHpExponent]. *)
Definition maxHpMantissa : positive := 7036874417766400.
Definition maxHpExponent : Z := -46.

(** What [hp <= maxHp] rests on: the maximum is the initial one, the health
    is [+0] or a positive double not above it, the defence is a number, and
    the enemy in the arena strikes with a finite force. *)
Record healthyStats (p : PlayerStats.t) : Prop := mkHealthyStats {
  inv_maxHp : PlayerStats.maxHp p = #100;
  inv_hp : below (PlayerStats.hp p) (Zpos maxHpMantissa) maxHpExponent;
  inv_def : JS.isNaN (PlayerStats.def p) = false
}.

Record healthInvariant (state : GameState) : Prop := mkHealthInvariant {
  inv_stats : healthyStats (playerStats state);
  inv_enemy : forall enemy,
    currentEnemy state = Some enemy -> JS.isFinite (Enemy.atk enemy) = true
}.

(** ** Relics, market and garden *)

(** At most five relics are equipped, and every equipped relic is owned. *)
Definition relicsCoherent (state : GameState) : Prop :=
  (length (Inventory.equippedRelics (inventory state)) <= 5)%nat
  /\ forall r, In r (Inventory.equippedRelics (inventory state)) ->
               In r (Inventory.relics (inventory state)).

(** Nothing to buy, wear or claim: an empty market, no relic, no daily
    reward on offer and no offline earnings. *)
Record unstocked (state : GameState) : Prop := mkUnstocked {
  no_market : YojefMarket.items (yojefMarket state) = [];
  no_relics : Inventory.relics (inventory state) = [];
  no_equipped : Inventory.equippedRelics (inventory state) = [];
  no_reward : DailyRewards.availableReward (dailyRewards state) = None;
  no_offlineCoins : OfflineProgress.offlineCoins (offlineProgress state) = #0;
  no_offlineGems : OfflineProgress.offlineGems (offlineProgress state) = #0
}.

(** The seed is in the ground. *)
Definition planted (state : GameState) : bool :=
  GardenOfGrowth.isPlanted (gardenOfGrowth state).

(** ** What a fight leaves alone *)

(** The fields a fight does not write. *)
Record untouched (before after : GameState) : Prop := mkUntouched {
  same_inventory : inventory after = inventory before;
  same_yojefMarket : yojefMarket after = yojefMarket before;
  same_dailyRewards : dailyRewards after = dailyRewards before;
  same_offlineProgress : offlineProgress after = offlineProgress before;
  same_gardenOfGrowth : gardenOfGrowth after = gardenOfGrowth before;
  same_research : research after = research before;
  same_mining : mining after = mining before;
  same_cheats : cheats after = cheats before;
  same_totalResearchSpent :
    Statistics.totalResearchSpent (statistics after)
    = Statistics.totalResearchSpent (statistics before);
  same_shinyGemsEarned :
    Statistics.shinyGemsEarned (statistics after)
    = Statistics.shinyGemsEarned (statistics before)
}.

(** ** The state of a combat *)

(** [inCombat] tells whether there is an enemy, and outside a combat no
    skill is selected and no skill effect but [skipCardUsed] is set. *)
Record combatCoherent (state : GameState) : Prop := mkCombatCoherent {
  combat_enemy :
    inCombat state = match currentEnemy state with Some _ => true | None => false end;
  combat_skill :
    inCombat state = false ->
    AdventureSkills.selectedSkill (adventureSkills state) = None
    /\ SkillEffects.set_skipCardUsed false
         (AdventureSkills.skillEffects (adventureSkills state))
       = noSkillEffects
}.

(** The player's stats do not compare below zero. *)
Definition statsNonneg (state : GameState) : Prop :=
  JS.nonneg (PlayerStats.hp (playerStats state))
  /\ JS.nonneg (PlayerStats.maxHp (playerStats state))
  /\ JS.nonneg (PlayerStats.atk (playerStats state))
  /\ JS.nonneg (PlayerStats.def (playerStats state)).

(** The two books kept on research spending agree, and so do the two kept
    on shiny gems. *)
Definition ledgersAgree (state : GameState) : Prop :=
  Research.totalSpent (research state)
  = Statistics.totalResearchSpent (statistics state)
  /\ Mining.totalShinyGemsMined (mining state)
     = Statistics.shinyGemsEarned (statistics state).

(** The knowledge streak: the best streak is not below the current one and
    the multiplier is one plus a tenth of the current streak. *)
Definition streakOrdered (state : GameState) : Prop :=
  (KnowledgeStreak.current (knowledgeStreak state)
   <=? KnowledgeStreak.best (knowledgeStreak state)) = true
  /\ KnowledgeStreak.multiplier (knowledgeStreak state)
     = #1 + KnowledgeStreak.current (knowledgeStreak state) * JS.dec 1 1.

Record streakCoherent (state : GameState) : Prop := mkStreakCoherent {
  streak_current : positive_or_zero (KnowledgeStreak.current (knowledgeStreak state));
  streak_best : positive_or_zero (KnowledgeStreak.best (knowledgeStreak state));
  streak_ordered : streakOrdered state
}.

(** ** Hydrated states *)

(** [m] has every key of [defaults]. *)
Definition covers (m defaults : gmap string value) : Prop :=
  forall key, is_Some (defaults !! key) -> is_Some (m !! key).

(** An object with every field of a game state, whose [skills] and
    [adventureSkills] are objects with every field of theirs. *)
Record complete (initializeAchievements : list Achievement)
    (initializePlayerTags : list PlayerTag) (m : gmap string value) : Prop :=
  mkComplete {
    complete_fields :
      forall now, covers m (initialObject initializeAchievements initializePlayerTags now);
    complete_skills :
      exists skills,
        m !! "skills"%string = Some (VObj skills)
        /\ forall now, covers skills (ownProperties (initialSkills now));
    complete_adventureSkills :
      exists adventureSkills,
        m !! "adventureSkills"%string = Some (VObj adventureSkills)
        /\ covers adventureSkills (ownProperties initialAdventureSkills)
  }.

(** ** Before the state is loaded *)

(** The committed state after a sequence of operations, from a state that
    may not be loaded yet. *)
Definition commitAll (calculateResearchCost : number -> number)
    (getChestRarityWeights : number -> list number)
    (initializeAchievements : list Achievement) (initializePlayerTags : list PlayerTag)
    (ops : list Op) (committed : option GameState) : option GameState :=
  fold_left
    (fun s op =>
       commit calculateResearchCost getChestRarityWeights
         initializeAchievements initializePlayerTags op s)
    ops committed.

(** ** Base stats *)

(** The maximum health and the base stats are those of the initial state. *)
Definition baseStatsInitial (state : GameState) : Prop :=
  PlayerStats.maxHp (playerStats state) = #100
  /\ PlayerStats.baseAtk (playerStats state) = #20
  /\ PlayerStats.baseDef (playerStats state) = #10
  /\ PlayerStats.baseHp (playerStats state) = #100.

(** The three effects that [selectAdventureSkill] switches on. *)
Definition lastingEffects (state : GameState) : bool * bool * bool :=
  let effects := AdventureSkills.skillEffects (adventureSkills state) in
  (SkillEffects.lightningChainActive effects, SkillEffects.truthLiesActive effects,
   SkillEffects.rampActive effects).

(** ** Cheats *)

(** The flag of a cheat. *)
Definition cheatFlag (cheat : CheatName) (c : Cheats.t) : bool :=
  match cheat with
  | infiniteCoins => Cheats.infiniteCoins c
  | infiniteGems => Cheats.infiniteGems c
  | obtainAnyItem => Cheats.obtainAnyItem c
  end.

(** Two names of the same cheat. *)
Definition sameCheat (a b : CheatName) : bool :=
  match a, b with
  | infiniteCoins, infiniteCoins | infiniteGems, infiniteGems
  | obtainAnyItem, obtainAnyItem => true
  | _, _ => false
  end.


(** * Sample data

    Concrete collaborators, items and states on which the properties are
    exercised. *)

Module Sample.

(** Collaborators: the chest table of the spec and a linear research cost. *)
Definition weights : list number := [ #70; #20; #7; #2; #1 ].
Definition chestWeights (cost : number) : list number := weights.
Definition researchCost (level : number) : number := #100 * (level + #1).

(** The operations, with these collaborators. *)
Definition step : Op -> GameState -> GameState :=
  applyOp researchCost chestWeights [] [].

(** The state a first start commits. *)
Definition fresh : GameState := createInitialGameState [] [] #0.

Definition sword : Item.t := Item.mk "w1" "Iron Sword" Common #1 #5 #10.
Definition plate : Item.t := Item.mk "a1" "Iron Plate" Rare #1 #8 #12.
Definition charm : Relic.t := Relic.mk "r1" "Charm" #1 #5 #40 (Some #30) None.

(** A player who owns and has equipped [sword], [plate] and [charm]. *)
Definition armed : GameState :=
  set_inventory
    (Inventory.mk [sword] [plate] [charm] (Some sword) (Some plate) [charm])
    (set_gems #1000 fresh).

(** A player who owns [sword] and nothing else, with gems to spend. *)
Definition swordsman : GameState :=
  set_inventory (Inventory.mk [sword] [] [] None None []) (set_gems #1000 fresh).

(** The same player with [sword] in hand and no armor. *)
Definition duelist : GameState := equipWeapon sword swordsman.

Definition slime : Enemy.t := Enemy.mk "Slime" #30 #25 #5.
Definition ogre : Enemy.t := Enemy.mk "Ogre" #1000 #200 #0.

Definition skill (ty : SkillType) : AdventureSkill.t :=
  AdventureSkill.mk "" "" "" ty.

Definition rat : Enemy.t := Enemy.mk "Rat" #5 #5 #0.

(** In combat with [ogre] behind a metal shield; with [slime] and [dodge];
    with [ogre] and no skill at all. *)
Definition shielded : GameState :=
  selectAdventureSkill (skill metal_shield) (fun _ => ogre) #0 #0 #0 fresh.


Definition mauled : GameState := skipAdventureSkills (fun _ => ogre) fresh.

(** In zone 10 on a streak of four, facing [rat]. *)
Definition veteran : GameState :=
  set_zone #10
    (set_knowledgeStreak (KnowledgeStreak.mk #4 #4 (#1 + #4 * JS.dec 1 1))
       (skipAdventureSkills (fun _ => rat) fresh)).

(** Deposits and a gem mined. *)
Definition deposits : list Op :=
  [OpAddCoins #5; OpExchangeShinyGems #0; OpMineGem #0; OpAddGems #3].

(** A venture with [risker] against [slime], then three wrong answers. *)
Definition venture : list Op :=
  [OpSelectAdventureSkill (skill risker) (fun _ => slime) #0 #0 #0;
   OpAttack false None; OpAttack false None; OpAttack true None].

(** [ramp] with the draws 1, 1, 0: neither [1 < 0.33] nor [1 < 0.5], so the
    health is doubled; [0 < 0.5], so the attack is reduced. *)
Definition ramped : GameState :=
  step (OpSelectAdventureSkill (skill ramp) (fun _ => slime) #1 #1 #0) fresh.

(** A second relic, on sale at the market of a player with gems to spend
    who owns and wears [charm]. *)
Definition idol : Relic.t := Relic.mk "r2" "Idol" #1 #5 #40 None (Some #12).

Definition stocked : GameState :=
  set_yojefMarket
    (YojefMarket.set_items [idol] (yojefMarket armed)) armed.

(** Buying, wearing, upgrading and selling relics. *)
Definition dealings : list Op :=
  [OpPurchaseRelic "r2"; OpUnequipRelic "r1"; OpEquipRelic "r1";
   OpUpgradeRelic "r2"; OpSellRelic "r1"].

(** Facing [rat] with no health left and the revival still unused. *)
Definition spent : GameState :=
  set_playerStats (PlayerStats.set_hp #0 (playerStats fresh))
    (skipAdventureSkills (fun _ => rat) fresh).

(** A shuffle of the catalogue of adventure skills. *)
Definition shuffle : list AdventureSkill.t := rev allSkills.

(** In combat with [slime] under the lightning chain. *)
Definition charged : GameState :=
  selectAdventureSkill (skill lightning_chain) (fun _ => slime) #0 #0 #0 fresh.

(** The same player after a second selection, of [dodge] this time: the
    lightning chain is still on. *)
Definition chargedDodger : GameState :=
  selectAdventureSkill (skill dodge) (fun _ => slime) #0 #0 #0 charged.

(** A rich player who has sown the seed, and what the player does next. *)
Definition sown : GameState :=
  fst (plantSeed #0 #0 (set_coins #5000 fresh)).

Definition gardening : list Op :=
  [OpPlantSeed #1 #2; OpBuyWater #24; OpAttack true None; OpPlantSeed #3 #4].

End Sample.


(** * Binary64 arithmetic: signs

    The facts on [SFadd], [SFsub], [SFmul], [SFdiv] the invariants on the
    counters rest on: rounding never changes a sign, and a difference taken
    behind the guard [x < c] is not negative. *)

Module SignFacts.

Lemma binary_round_aux_signed (s : bool) (m e : Z) (l : location) :
  signed s (binary_round_aux JS.prec JS.emax s m e l).
Proof.
  unfold binary_round_aux.
  destruct (shr_fexp JS.prec JS.emax m e l) as [mrs' e'].
  destruct (shr_fexp JS.prec JS.emax _ e' loc_Exact) as [mrs'' e''].
  destruct (shr_m mrs''); cbn; trivial.
  destruct (e'' <=? JS.emax - JS.prec)%Z; reflexivity.
Qed.

Lemma binary_round_signed (s : bool) (m : positive) (e : Z) :
  signed s (binary_round JS.prec JS.emax s m e).
Proof.
  unfold binary_round. destruct (shl_align m e _) as [mz ez].
  apply binary_round_aux_signed.
Qed.

Lemma binary_normalize_nonneg (m e : Z) :
  (0 <= m)%Z -> signed false (binary_normalize JS.prec JS.emax m e false).
Proof.
  intros Hm. destruct m as [| p | p]; cbn [binary_normalize]; [reflexivity | | lia].
  apply binary_round_signed.
Qed.

Lemma nonneg_negative (x : number) : JS.nonneg x <-> negative x = false.
Proof.
  unfold JS.nonneg, JS.ltb, JS.compare. change (JS.of_Z 0) with (S754_zero false).
  destruct x as [s | [] | | [] m e]; cbn; split; trivial; discriminate.
Qed.

Lemma signed_nonneg (x : number) : signed false x -> JS.nonneg x.
Proof.
  intros H. apply nonneg_negative. destruct x as [s | s | | s m e]; cbn in *; now subst.
Qed.

(** The shape of a number that is not negative. *)
Lemma nonneg_cases (x : number) :
  JS.nonneg x ->
  x = S754_nan \/ (exists s, x = S754_zero s) \/ x = S754_infinity false
  \/ exists m e, x = S754_finite false m e.
Proof.
  intros H. apply nonneg_negative in H.
  destruct x as [s | [] | | [] m e]; cbn in H; try discriminate; eauto 10.
Qed.

Ltac nonneg_shape H :=
  apply nonneg_cases in H;
  destruct H as [-> | [[? ->] | [-> | (? & ? & ->)]]].

(** Goals on numbers given by their constructor. *)
Ltac nonneg_by_shape :=
  apply nonneg_negative; unfold JS.add, JS.sub, JS.mul, JS.div; cbn; reflexivity.

Lemma nonneg_add (x y : number) : JS.nonneg x -> JS.nonneg y -> JS.nonneg (x + y).
Proof.
  intros Hx Hy. nonneg_shape Hx; nonneg_shape Hy;
    try nonneg_by_shape.
  - apply nonneg_negative. unfold JS.add. cbn. now destruct x0, x.
  - apply signed_nonneg. unfold JS.add, SFadd. apply binary_normalize_nonneg. cbn. lia.
Qed.

Lemma nonneg_mul (x y : number) : JS.nonneg x -> JS.nonneg y -> JS.nonneg (x * y).
Proof.
  intros Hx Hy. nonneg_shape Hx; nonneg_shape Hy;
    try nonneg_by_shape.
  apply signed_nonneg. unfold JS.mul, SFmul. apply binary_round_aux_signed.
Qed.

(** Division by a positive finite number (dividing by [-0] would turn a
    positive number into negative infinity). *)
Lemma nonneg_div (x : number) (m : positive) (e : Z) :
  JS.nonneg x -> JS.nonneg (x / S754_finite false m e).
Proof.
  intros Hx. nonneg_shape Hx; try nonneg_by_shape.
  apply signed_nonneg. unfold JS.div, SFdiv.
  destruct (SFdiv_core_binary _ _ _ _ _ _) as [[mz ez] lz].
  apply binary_round_aux_signed.
Qed.

Lemma nonneg_floor (x : number) : JS.nonneg x -> JS.nonneg (JS.floor x).
Proof.
  intros Hx. unfold JS.floor.
  destruct x as [s | s | | s m [| p | p]]; try exact Hx.
  apply nonneg_negative in Hx. destruct s; [discriminate |].
  apply signed_nonneg, binary_normalize_nonneg. cbn [cond_Zopp].
  apply Z.div_pos; lia.
Qed.

(** [Math.max(x, y)] is not negative as soon as its first argument is not:
    it returns [y] only when [y] is not below [x]. *)
Lemma nonneg_max (x y : number) : JS.nonneg x -> JS.nonneg (JS.max x y).
Proof.
  intros Hx. unfold JS.max.
  destruct (JS.compare x y) as [[] |] eqn:Hc; try exact Hx.
  - destruct x as [[] | | |]; try exact Hx. destruct y; exact Hx.
  - unfold JS.compare in Hc. apply nonneg_negative in Hx. apply nonneg_negative.
    destruct x as [sx | [] | | [] mx ex], y as [sy | [] | | [] my ey];
      cbn in Hc, Hx |- *; try discriminate; reflexivity.
  - nonneg_by_shape.
Qed.

(** Behind the guard [if (x < c) return state], [x - c] is not negative. *)
Lemma nonneg_sub_guarded (x c : number) :
  (x <? c) = false -> JS.nonneg x -> JS.nonneg (x - c).
Proof.
  unfold JS.ltb, JS.compare. intros Hg Hx. apply nonneg_negative in Hx.
  destruct x as [sx | [] | | [] mx ex], c as [sc | [] | | [] mc ec];
    cbn [negative] in Hx; try discriminate; try nonneg_by_shape;
    try (cbn in Hg; discriminate).
  - apply nonneg_negative. unfold JS.sub. now destruct sx, sc.
  - apply signed_nonneg. unfold JS.sub, SFsub. apply binary_normalize_nonneg.
    cbn [cond_Zopp negb]. lia.
  - apply signed_nonneg. unfold JS.sub, SFsub. apply binary_normalize_nonneg.
    unfold JS.aligned in Hg. cbn [cond_Zopp] in *.
    destruct (_ ?= _)%Z eqn:Hcmp; try discriminate.
    + apply Z.compare_eq in Hcmp. lia.
    + apply Z.compare_gt_iff in Hcmp. lia.
Qed.

(** The constants of the hook are not negative. *)
Lemma nonneg_of_Z (z : Z) : (0 <= z)%Z -> JS.nonneg (JS.of_Z z).
Proof. intros Hz. now apply signed_nonneg, binary_normalize_nonneg. Qed.

Lemma nonneg_sumOf {A : Type} (f : A -> number) (xs : list A) :
  Forall (fun x => JS.nonneg (f x)) xs -> JS.nonneg (sumOf f xs).
Proof.
  unfold sumOf. assert (H0 : JS.nonneg #0) by now apply nonneg_of_Z.
  revert H0. generalize #0. induction xs as [| x xs IH]; intros acc Hacc Hall;
    [exact Hacc |].
  inversion Hall; subst. cbn [fold_left]. apply IH; [now apply nonneg_add | assumption].
Qed.

End SignFacts.


(** * Binary64 arithmetic: rounding stays below a representable bound

    Rounding to nearest is monotone: when the exact result of an operation
    does not exceed a double [X], neither does the rounded result.  This is
    proved here for the rounding function of [SpecFloat] on exact inputs,
    which is what [SFadd], [SFsub] and [SFmul] call. *)

Module RoundFacts.

Local Open Scope Z_scope.

(** ** Powers of two and digits *)

Lemma pow2_pos (n : Z) : 0 <= n -> 0 < 2 ^ n.
Proof. intros Hn. apply Z.pow_pos_nonneg; lia. Qed.

Lemma pow2_split (a b : Z) : 0 <= a -> 0 <= b -> 2 ^ (a + b) = 2 ^ a * 2 ^ b.
Proof. intros Ha Hb. now apply Z.pow_add_r. Qed.

(** [digits2_pos m] is the number of binary digits of [m]. *)
Lemma digits2_bounds (m : positive) :
  2 ^ (Zpos (digits2_pos m) - 1) <= Zpos m < 2 ^ Zpos (digits2_pos m).
Proof.
  induction m as [m IH | m IH |]; cbn [digits2_pos].
  - rewrite Pos2Z.inj_succ. replace (Z.succ (Zpos (digits2_pos m)) - 1)
      with (Z.succ (Zpos (digits2_pos m) - 1)) by lia.
    rewrite !Z.pow_succ_r by lia. lia.
  - rewrite Pos2Z.inj_succ. replace (Z.succ (Zpos (digits2_pos m)) - 1)
      with (Z.succ (Zpos (digits2_pos m) - 1)) by lia.
    rewrite !Z.pow_succ_r by lia. lia.
  - cbn. lia.
Qed.

Lemma Zdigits2_bounds (m : Z) :
  0 < m -> 2 ^ (Zdigits2 m - 1) <= m < 2 ^ Zdigits2 m.
Proof. destruct m as [| p | p]; try lia. intros _. apply digits2_bounds. Qed.

Lemma Zdigits2_pos (m : Z) : 0 < m -> 0 < Zdigits2 m.
Proof. destruct m; cbn; lia. Qed.

(** A number below a power of two has at most that many digits, and
    conversely. *)
Lemma Zdigits2_le (m n : Z) : 0 < m -> 0 <= n -> m < 2 ^ n -> Zdigits2 m <= n.
Proof.
  intros Hm Hn Hlt. pose proof (Zdigits2_bounds m Hm) as [Hlo _].
  pose proof (Zdigits2_pos m Hm).
  destruct (Z_le_gt_dec (Zdigits2 m) n) as [| Hgt]; [assumption |].
  assert (2 ^ n <= 2 ^ (Zdigits2 m - 1)) by (apply Z.pow_le_mono_r; lia). lia.
Qed.

Lemma Zdigits2_ge (m n : Z) : 0 < m -> 0 <= n -> 2 ^ n <= m -> n < Zdigits2 m.
Proof.
  intros Hm Hn Hle. pose proof (Zdigits2_bounds m Hm) as [_ Hhi].
  pose proof (Zdigits2_pos m Hm).
  destruct (Z_lt_le_dec n (Zdigits2 m)) as [| Hge]; [assumption |].
  assert (2 ^ Zdigits2 m <= 2 ^ n) by (apply Z.pow_le_mono_r; lia). lia.
Qed.

(** ** The order of values

    [vle] scales both sides to any common exponent; one is enough. *)

Lemma vle_intro (K m1 e1 m2 e2 : Z) :
  K <= e1 -> K <= e2 -> m1 * 2 ^ (e1 - K) <= m2 * 2 ^ (e2 - K) -> vle m1 e1 m2 e2.
Proof.
  intros H1 H2 Hle K' H1' H2'.
  destruct (Z_le_gt_dec K' K) as [Hk | Hk].
  - replace (e1 - K') with ((e1 - K) + (K - K')) by lia.
    replace (e2 - K') with ((e2 - K) + (K - K')) by lia.
    rewrite !pow2_split by lia. pose proof (pow2_pos (K - K')). nia.
  - replace (e1 - K) with ((e1 - K') + (K' - K)) in Hle by lia.
    replace (e2 - K) with ((e2 - K') + (K' - K)) in Hle by lia.
    rewrite !pow2_split in Hle by lia. pose proof (pow2_pos (K' - K)). nia.
Qed.

Lemma vle_refl (m e : Z) : vle m e m e.
Proof. intros K _ _. lia. Qed.

Lemma vle_trans (m1 e1 m2 e2 m3 e3 : Z) :
  vle m1 e1 m2 e2 -> vle m2 e2 m3 e3 -> vle m1 e1 m3 e3.
Proof.
  intros H12 H23. apply (vle_intro (Z.min e1 (Z.min e2 e3))); try lia.
  etransitivity; [apply H12 | apply H23]; lia.
Qed.

(** The value order bounds the digits: a smaller value has no higher
    magnitude. *)
Lemma vle_magnitude (m1 e1 m2 e2 : Z) :
  0 < m1 -> 0 < m2 -> vle m1 e1 m2 e2 ->
  Zdigits2 m1 + e1 <= Zdigits2 m2 + e2.
Proof.
  intros H1 H2 Hle. specialize (Hle (Z.min e1 e2) ltac:(lia) ltac:(lia)).
  pose proof (Zdigits2_bounds m1 H1) as [Hlo1 _].
  pose proof (Zdigits2_bounds m2 H2) as [_ Hhi2].
  pose proof (Zdigits2_pos m1 H1). pose proof (Zdigits2_pos m2 H2).
  set (K := Z.min e1 e2) in *.
  assert (Ha : 2 ^ (Zdigits2 m1 - 1 + (e1 - K)) <= m1 * 2 ^ (e1 - K)).
  { rewrite pow2_split by lia. pose proof (pow2_pos (e1 - K)). nia. }
  assert (Hb : m2 * 2 ^ (e2 - K) < 2 ^ (Zdigits2 m2 + (e2 - K))).
  { rewrite pow2_split by lia. pose proof (pow2_pos (e2 - K)). nia. }
  assert (Hlt : 2 ^ (Zdigits2 m1 - 1 + (e1 - K)) < 2 ^ (Zdigits2 m2 + (e2 - K))) by lia.
  apply Z.pow_lt_mono_r_iff in Hlt; lia.
Qed.

(** ** Shifting right

    [shr] divides the mantissa by a power of two and remembers in two bits
    whether anything was lost. *)

Lemma div_mod_double (m B : Z) :
  0 < B ->
  m / (2 * B) = m / B / 2 /\ m mod (2 * B) = (m / B) mod 2 * B + m mod B.
Proof.
  intros HB. split.
  - rewrite Z.mul_comm. now rewrite Z.div_div by lia.
  - rewrite Z.mul_comm, Z.rem_mul_r by lia. lia.
Qed.

Lemma shr_1_halves (q : Z) (r s : bool) :
  0 <= q ->
  shr_m (shr_1 (Build_shr_record q r s)) = q / 2
  /\ (inexact (shr_1 (Build_shr_record q r s)) = false <-> q mod 2 = 0 /\ r || s = false).
Proof.
  intros Hq. unfold inexact. destruct q as [| [p | p |] | p]; try lia; cbn [shr_1 shr_m shr_r shr_s].
  - cbn. tauto.
  - rewrite Pos2Z.inj_xI. split.
    + apply Z.div_unique with 1; lia.
    + replace ((2 * Z.pos p + 1) mod 2) with 1
        by (apply Z.mod_unique with (Z.pos p); lia).
      cbn. split; [discriminate | lia].
  - rewrite Pos2Z.inj_xO. split.
    + apply Z.div_unique with 0; lia.
    + replace ((2 * Z.pos p) mod 2) with 0
        by (apply Z.mod_unique with (Z.pos p); lia).
      cbn. tauto.
  - split; [reflexivity |]. split; [discriminate | intros [H _]; discriminate H].
Qed.

Lemma shr_1_shifted (m k : Z) (mrs : shr_record) :
  0 <= m -> 0 <= k -> shifted m k mrs -> shifted m (k + 1) (shr_1 mrs).
Proof.
  intros Hm Hk [Hq Hx]. destruct mrs as [q r s]. cbn [shr_m] in Hq. unfold inexact in Hx.
  cbn [shr_r shr_s] in Hx. assert (HB : 0 < 2 ^ k) by now apply pow2_pos.
  assert (Hq0 : 0 <= q) by (subst q; apply Z.div_pos; lia).
  destruct (shr_1_halves q r s Hq0) as [Hm' Hx'].
  destruct (div_mod_double m (2 ^ k) HB) as [Hd Hmod].
  unfold shifted, inexact.
  replace (2 ^ (k + 1)) with (2 * 2 ^ k) by (rewrite Z.pow_add_r by lia; lia).
  fold (inexact (shr_1 {| shr_m := q; shr_r := r; shr_s := s |})).
  split.
  - rewrite Hm', Hd. now subst q.
  - rewrite Hx', Hx, Hmod, <- Hq.
    pose proof (Z.mod_pos_bound q 2 ltac:(lia)).
    pose proof (Z.mod_pos_bound m (2 ^ k) HB). split; [| nia].
    intros [Hz Hrs]. rewrite Hz. tauto.
Qed.

Lemma iter_shr_shifted (m : Z) (p : positive) :
  0 <= m ->
  forall (k : Z) (mrs : shr_record),
    0 <= k -> shifted m k mrs -> shifted m (k + Zpos p) (SpecFloat.iter_pos shr_1 p mrs).
Proof.
  intros Hm. induction p as [p IH | p IH |]; intros k mrs Hk Hs; cbn [SpecFloat.iter_pos].
  - replace (k + Z.pos p~1) with (k + 1 + Z.pos p + Z.pos p) by lia.
    apply IH; [lia |]. apply IH; [lia |]. now apply shr_1_shifted.
  - replace (k + Z.pos p~0) with (k + Z.pos p + Z.pos p) by lia.
    apply IH; [lia |]. now apply IH.
  - now apply shr_1_shifted.
Qed.

Lemma loc_exact_iff (mrs : shr_record) :
  loc_of_shr_record mrs = loc_Exact <-> inexact mrs = false.
Proof. destruct mrs as [q [] []]; cbn; split; congruence. Qed.

(** The shift of an exact mantissa by [n] places, or by none when [n] is
    not positive. *)
Lemma shr_spec (m e n : Z) :
  0 <= m ->
  let j := Z.max 0 n in
  let mrs := fst (shr (Build_shr_record m false false) e n) in
  snd (shr (Build_shr_record m false false) e n) = e + j
  /\ shr_m mrs = m / 2 ^ j
  /\ (loc_of_shr_record mrs = loc_Exact <-> m mod 2 ^ j = 0).
Proof.
  intros Hm. cbv zeta.
  assert (H0 : shifted m 0 (Build_shr_record m false false)).
  { split; cbn; [now rewrite Z.div_1_r | now rewrite Z.mod_1_r]. }
  destruct n as [| p | p]; cbn [shr fst snd].
  - replace (Z.max 0 0) with 0 by lia. rewrite loc_exact_iff. split; [lia | exact H0].
  - replace (Z.max 0 (Z.pos p)) with (0 + Z.pos p) by lia.
    rewrite loc_exact_iff. split; [lia |]. now apply iter_shr_shifted.
  - replace (Z.max 0 (Z.neg p)) with 0 by lia. rewrite loc_exact_iff. split; [lia | exact H0].
Qed.

Lemma round_nearest_even_bounds (m : Z) (l : location) :
  m <= round_nearest_even m l <= m + 1 /\ (l = loc_Exact -> round_nearest_even m l = m).
Proof.
  destruct l as [| []]; cbn; try (split; [lia | congruence]).
  destruct (Z.even m); split; try lia; discriminate.
Qed.

(** ** Rounding an exact value

    [fexp] is the exponent a number of a given magnitude is stored with. *)

Lemma fexp_mono (a b : Z) : a <= b -> fexp JS.prec JS.emax a <= fexp JS.prec JS.emax b.
Proof. unfold fexp, emin, JS.prec, JS.emax. lia. Qed.

Lemma fexp_ge (a : Z) : a - 53 <= fexp JS.prec JS.emax a.
Proof. unfold fexp, emin, JS.prec, JS.emax. lia. Qed.

(** One normalising shift of an exact mantissa. *)
Lemma shr_fexp_exact (m e : Z) :
  0 <= m ->
  let j := Z.max 0 (fexp JS.prec JS.emax (Zdigits2 m + e) - e) in
  let mrs := fst (shr_fexp JS.prec JS.emax m e loc_Exact) in
  snd (shr_fexp JS.prec JS.emax m e loc_Exact) = e + j
  /\ shr_m mrs = m / 2 ^ j
  /\ (loc_of_shr_record mrs = loc_Exact <-> m mod 2 ^ j = 0).
Proof. intros Hm. exact (shr_spec m e _ Hm). Qed.

(** A quotient by a power of two stays below a bound of the dividend, and
    strictly so when the division leaves a remainder. *)
Lemma div_pow2_le (M B Xi : Z) :
  0 < B -> M <= Xi * B ->
  M / B <= Xi /\ (M mod B <> 0 -> M / B + 1 <= Xi).
Proof.
  intros HB Hle. pose proof (Z.div_mod M B ltac:(lia)) as Hdm.
  pose proof (Z.mod_pos_bound M B HB) as Hr. split; [nia |]. intros Hne. nia.
Qed.

(** Rounding to nearest is monotone below a double: the exact value
    [M * 2^E], not above [mX * 2^eX], is rounded to a double not above it. *)
Lemma binary_round_aux_below (M E : Z) (mX : positive) (eX : Z) :
  0 < M ->
  E <= fexp JS.prec JS.emax (Zdigits2 M + E) ->
  canonical mX eX ->
  vle M E (Zpos mX) eX ->
  below (binary_round_aux JS.prec JS.emax false M E loc_Exact) (Zpos mX) eX.
Proof.
  intros HM Hal [Hcan Hbnd] Hle. unfold binary_round_aux.
  pose proof (shr_fexp_exact M E ltac:(lia)) as (He' & Hm' & Hl'). cbv zeta in He', Hm', Hl'.
  destruct (shr_fexp JS.prec JS.emax M E loc_Exact) as [mrs' e']. cbn [fst snd] in He', Hm', Hl'.
  set (e1 := fexp JS.prec JS.emax (Zdigits2 M + E)) in *.
  replace (Z.max 0 (e1 - E)) with (e1 - E) in * by lia.
  assert (He1 : e' = e1) by lia. clear He'. subst e'.
  assert (HeX : e1 <= eX).
  { rewrite <- Hcan. apply fexp_mono. apply vle_magnitude; [lia | lia | exact Hle]. }
  set (Xi := Zpos mX * 2 ^ (eX - e1)).
  assert (HB : 0 < 2 ^ (e1 - E)) by (apply pow2_pos; lia).
  assert (HXi : M <= Xi * 2 ^ (e1 - E)).
  { specialize (Hle E ltac:(lia) ltac:(lia)). rewrite Z.sub_diag, Z.mul_1_r in Hle.
    unfold Xi. rewrite <- Z.mul_assoc, <- pow2_split by lia.
    now replace (eX - e1 + (e1 - E)) with (eX - E) by lia. }
  destruct (div_pow2_le M _ Xi HB HXi) as [Hq Hq1].
  set (r := round_nearest_even (shr_m mrs') (loc_of_shr_record mrs')).
  assert (Hr : 0 <= r <= Xi).
  { pose proof (round_nearest_even_bounds (shr_m mrs') (loc_of_shr_record mrs')) as [Hb Hex].
    fold r in Hb, Hex. rewrite Hm' in Hb, Hex.
    assert (0 <= M / 2 ^ (e1 - E)) by (apply Z.div_pos; lia).
    destruct (Z.eq_dec (M mod 2 ^ (e1 - E)) 0) as [Hz | Hnz].
    - rewrite (Hex (proj2 Hl' Hz)). lia.
    - specialize (Hq1 Hnz). lia. }
  clearbody r.
  pose proof (shr_fexp_exact r e1 ltac:(lia)) as (He'' & Hm'' & _). cbv zeta in He'', Hm''.
  destruct (shr_fexp JS.prec JS.emax r e1 loc_Exact) as [mrs'' e'']. cbn [fst snd] in He'', Hm''.
  set (j := Z.max 0 (fexp JS.prec JS.emax (Zdigits2 r + e1) - e1)) in *.
  assert (Hj : 0 < 2 ^ j) by (apply pow2_pos; lia).
  assert (Hm0 : 0 <= shr_m mrs'') by (rewrite Hm''; apply Z.div_pos; lia).
  destruct (shr_m mrs'') as [| p | p] eqn:Hp; [exact I | | lia].
  assert (Hr0 : 0 < r).
  { destruct (Z.eq_dec r 0) as [-> |]; [| lia]. now rewrite Z.div_0_l in Hm'' by lia. }
  assert (Hvr : vle r e1 (Zpos mX) eX).
  { apply (vle_intro e1); try lia. rewrite Z.sub_diag, Z.mul_1_r. exact (proj2 Hr). }
  assert (He2 : e'' <= eX).
  { assert (fexp JS.prec JS.emax (Zdigits2 r + e1) <= eX).
    { rewrite <- Hcan. apply fexp_mono. apply vle_magnitude; [lia | lia | exact Hvr]. }
    lia. }
  replace (e'' <=? JS.emax - JS.prec) with true by (symmetry; apply Z.leb_le; lia).
  cbn [below]. apply (vle_intro e1); try lia.
  replace (e'' - e1) with j by lia. fold Xi.
  pose proof (Z.mul_div_le r (2 ^ j) Hj). lia.
Qed.

(** ** Alignment *)

Lemma iter_xO (m d : positive) : Zpos (Pos.iter xO m d) = Zpos m * 2 ^ Zpos d.
Proof.
  induction d as [| d IH] using Pos.peano_ind.
  - cbn. lia.
  - rewrite Pos.iter_succ, Pos2Z.inj_xO, IH, Pos2Z.inj_succ, Z.pow_succ_r by lia. lia.
Qed.

(** [shl_align] rescales a mantissa to the smaller of two exponents. *)
Lemma shl_align_spec (m : positive) (e e' : Z) :
  snd (shl_align m e e') = Z.min e e'
  /\ Zpos (fst (shl_align m e e')) = Zpos m * 2 ^ (e - Z.min e e').
Proof.
  unfold shl_align. destruct (e' - e) as [| d | d] eqn:Hd; cbn [fst snd].
  - replace (Z.min e e') with e by lia. rewrite Z.sub_diag. lia.
  - replace (Z.min e e') with e by lia. rewrite Z.sub_diag. lia.
  - replace (Z.min e e') with e' by lia. split; [reflexivity |].
    change (PosDef.Pos.iter xO m d) with (Pos.iter xO m d).
    rewrite iter_xO. f_equal. f_equal. lia.
Qed.

Lemma Zdigits2_shift (m k : Z) :
  0 < m -> 0 <= k -> Zdigits2 (m * 2 ^ k) = Zdigits2 m + k.
Proof.
  intros Hm Hk. pose proof (Zdigits2_bounds m Hm) as [Hlo Hhi].
  pose proof (Zdigits2_pos m Hm) as Hd. pose proof (pow2_pos k Hk) as Hp.
  assert (Hmk : 0 < m * 2 ^ k) by nia.
  assert (Zdigits2 (m * 2 ^ k) <= Zdigits2 m + k).
  { apply Zdigits2_le; [assumption | lia |]. rewrite pow2_split by lia. nia. }
  assert (Zdigits2 m - 1 + k < Zdigits2 (m * 2 ^ k)).
  { apply Zdigits2_ge; [assumption | lia |]. rewrite pow2_split by lia. nia. }
  lia.
Qed.

(** The aligned mantissa denotes the same value. *)
Lemma vle_aligned (m : positive) (e e' : Z) :
  vle (Zpos (fst (shl_align m e e'))) (Z.min e e') (Zpos m) e.
Proof.
  destruct (shl_align_spec m e e') as [_ Hm].
  apply (vle_intro (Z.min e e')); try lia. rewrite Hm, Z.sub_diag. lia.
Qed.

Lemma binary_round_below (m : positive) (e : Z) (mX : positive) (eX : Z) :
  canonical mX eX ->
  vle (Zpos m) e (Zpos mX) eX ->
  below (binary_round JS.prec JS.emax false m e) (Zpos mX) eX.
Proof.
  intros Hcan Hle. unfold binary_round.
  set (e' := fexp JS.prec JS.emax (Zpos (digits2_pos m) + e)).
  destruct (shl_align_spec m e e') as [He Hm].
  pose proof (vle_aligned m e e') as Hv.
  destruct (shl_align m e e') as [mz ez]. cbn [fst snd] in He, Hm, Hv. subst ez.
  apply binary_round_aux_below; [lia | | exact Hcan | exact (vle_trans _ _ _ _ _ _ Hv Hle)].
  rewrite Hm, Zdigits2_shift by lia.
  replace (Zdigits2 (Z.pos m) + (e - Z.min e e') + Z.min e e')
    with (Zpos (digits2_pos m) + e) by (cbn [Zdigits2]; lia).
  fold e'. lia.
Qed.

Lemma binary_normalize_below (z e : Z) (mX : positive) (eX : Z) :
  canonical mX eX -> 0 <= z ->
  vle z e (Zpos mX) eX ->
  below (binary_normalize JS.prec JS.emax z e false) (Zpos mX) eX.
Proof.
  intros Hcan Hz Hle. destruct z as [| p | p]; cbn [binary_normalize]; [exact I | | lia].
  now apply binary_round_below.
Qed.

(** ** Rounding never yields NaN *)

Lemma binary_round_aux_not_nan (s : bool) (M E : Z) :
  0 <= M -> JS.isNaN (binary_round_aux JS.prec JS.emax s M E loc_Exact) = false.
Proof.
  intros HM. unfold binary_round_aux.
  pose proof (shr_fexp_exact M E HM) as (_ & Hm' & _). cbv zeta in Hm'.
  destruct (shr_fexp JS.prec JS.emax M E loc_Exact) as [mrs' e']. cbn [fst] in Hm'.
  pose proof (round_nearest_even_bounds (shr_m mrs') (loc_of_shr_record mrs')) as [Hb _].
  assert (0 <= shr_m mrs') by (rewrite Hm'; apply Z.div_pos; [lia | apply pow2_pos; lia]).
  set (r := round_nearest_even _ _) in *.
  pose proof (shr_fexp_exact r e' ltac:(lia)) as (_ & Hm'' & _). cbv zeta in Hm''.
  destruct (shr_fexp JS.prec JS.emax r e' loc_Exact) as [mrs'' e'']. cbn [fst] in Hm''.
  assert (0 <= shr_m mrs'') by (rewrite Hm''; apply Z.div_pos; [lia | apply pow2_pos; lia]).
  destruct (shr_m mrs''); try reflexivity; try lia.
  now destruct (e'' <=? _).
Qed.

Lemma binary_round_not_nan (s : bool) (m : positive) (e : Z) :
  JS.isNaN (binary_round JS.prec JS.emax s m e) = false.
Proof.
  unfold binary_round. destruct (shl_align m e _) as [mz ez].
  apply binary_round_aux_not_nan. lia.
Qed.

Lemma binary_normalize_not_nan (z e : Z) (s : bool) :
  JS.isNaN (binary_normalize JS.prec JS.emax z e s) = false.
Proof. destruct z; cbn [binary_normalize]; [reflexivity | |]; apply binary_round_not_nan. Qed.

Lemma sub_not_nan (x y : number) :
  JS.isFinite x = true -> JS.isNaN y = false -> JS.isNaN (x - y) = false.
Proof.
  unfold JS.sub, SFsub. intros Hx Hy.
  destruct x as [[] | | | sx mx ex]; try discriminate;
    destruct y as [[] | sy | | sy my ey]; try discriminate; try reflexivity.
  apply binary_normalize_not_nan.
Qed.

Lemma mul_not_nan (x : number) (s : bool) (m : positive) (e : Z) :
  JS.isNaN x = false -> JS.isNaN (x * S754_finite s m e) = false.
Proof.
  unfold JS.mul, SFmul. intros Hx. destruct x as [sx | sx | | sx mx ex];
    try discriminate; try reflexivity.
  apply binary_round_aux_not_nan. lia.
Qed.

Lemma floor_not_nan (x : number) : JS.isNaN x = false -> JS.isNaN (JS.floor x) = false.
Proof.
  unfold JS.floor. intros Hx. destruct x as [s | s | | s m [| p | p]]; try exact Hx.
  apply binary_normalize_not_nan.
Qed.

(** ** The operations of the hook on a health below its maximum *)

Lemma floor_below (x : number) (mX : positive) (eX : Z) :
  canonical mX eX -> below x (Zpos mX) eX -> below (JS.floor x) (Zpos mX) eX.
Proof.
  intros Hcan Hx. unfold JS.floor.
  destruct x as [s | s | | [] m [| p | p]]; try exact Hx; cbn [below] in Hx;
    [contradiction |]. cbn [cond_Zopp].
  assert (Hp : 0 < 2 ^ Zpos p) by (apply pow2_pos; lia).
  apply binary_normalize_below; [exact Hcan | apply Z.div_pos; lia |].
  refine (vle_trans _ _ _ _ _ _ _ Hx).
  apply (vle_intro (Zneg p)); try lia. rewrite Z.sub_diag, Z.mul_1_r.
  replace (0 - Zneg p) with (Zpos p) by lia.
  pose proof (Z.mul_div_le (Zpos m) (2 ^ Zpos p) Hp). lia.
Qed.

Lemma mul_below (x : number) (mc : positive) (ec : Z) (mX : positive) (eX : Z) :
  canonical mX eX -> fraction mc ec ->
  below x (Zpos mX) eX -> below (x * S754_finite false mc ec) (Zpos mX) eX.
Proof.
  intros Hcan (Hfull & Hec & Hc) Hx. unfold JS.mul, SFmul.
  destruct x as [[] | s | | [] m e]; cbn [below xorb] in Hx |- *; try contradiction;
    [exact I |].
  rewrite Pos2Z.inj_mul.
  apply binary_round_aux_below; [lia | | exact Hcan |].
  - assert (52 < Zdigits2 (Zpos m * Zpos mc)) by (apply Zdigits2_ge; nia).
    pose proof (fexp_ge (Zdigits2 (Zpos m * Zpos mc) + (e + ec))). lia.
  - refine (vle_trans _ _ _ _ _ _ _ Hx).
    apply (vle_intro (e + ec)); try lia. rewrite Z.sub_diag, Z.mul_1_r.
    replace (e - (e + ec)) with (- ec) by lia. nia.
Qed.

(** [Math.max(0, x - y)] *)
Lemma max_sub_below (x y : number) (mX : positive) (eX : Z) :
  canonical mX eX -> below x (Zpos mX) eX -> positive_or_zero y ->
  below (JS.max (JS.of_Z 0) (x - y)) (Zpos mX) eX.
Proof.
  intros Hcan Hx Hy. change (JS.of_Z 0) with (S754_zero false).
  assert (Hmax : forall z, below z (Zpos mX) eX \/ signed true z /\ z <> S754_nan ->
                           below (JS.max (S754_zero false) z) (Zpos mX) eX).
  { intros z [Hz | [Hz Hn]].
    - destruct z as [[] | s | | [] m e]; try contradiction; exact Hz || exact I.
    - destruct z as [s | s | | s m e]; cbn in Hz; try subst s; try exact I. congruence. }
  unfold JS.sub, SFsub.
  destruct x as [[] | s | | [] m e]; try contradiction;
    destruct y as [sy | [] | | [] my ey]; try contradiction;
    try (apply Hmax; right; split; [reflexivity | discriminate]);
    try (apply Hmax; left; exact Hx).
  - destruct sy; exact I.
  - cbn [cond_Zopp]. set (ez := Z.min e ey).
    set (z := Zpos (fst (shl_align m e ez)) - Zpos (fst (shl_align my ey ez))).
    apply Hmax. destruct (Z_le_gt_dec 0 z) as [Hz | Hz].
    + left. apply binary_normalize_below; [exact Hcan | exact Hz |].
      refine (vle_trans _ _ _ _ _ _ _ Hx).
      destruct (shl_align_spec m e ez) as [_ Hm].
      replace (Z.min e ez) with ez in Hm by lia.
      apply (vle_intro ez); try lia. rewrite Z.sub_diag, <- Hm. lia.
    + right. destruct z as [| p | p]; try lia. cbn [binary_normalize].
      split; [apply SignFacts.binary_round_signed |].
      pose proof (binary_round_not_nan true p ez) as Hn. intros Heq. now rewrite Heq in Hn.
Qed.

(** A health below the maximum compares below it. *)
Lemma below_leb (x : number) (mX : positive) (eX : Z) :
  below x (Zpos mX) eX -> JS.leb x (S754_finite false mX eX) = true.
Proof.
  unfold JS.leb, JS.compare. destruct x as [[] | s | | [] m e]; try contradiction;
    [reflexivity |]. cbn [below]. intros Hle. unfold JS.aligned. cbn [cond_Zopp].
  destruct (shl_align_spec m e (Z.min e eX)) as [_ Hm].
  destruct (shl_align_spec mX eX (Z.min e eX)) as [_ HX]. rewrite Hm, HX.
  replace (Z.min e (Z.min e eX)) with (Z.min e eX) by lia.
  replace (Z.min eX (Z.min e eX)) with (Z.min e eX) by lia.
  specialize (Hle (Z.min e eX) ltac:(lia) ltac:(lia)).
  destruct (_ ?= _) eqn:Hc; try reflexivity. apply Z.compare_gt_iff in Hc. lia.
Qed.

(** ** The damage of a blow *)

Lemma signed_positive_or_zero (x : number) :
  signed false x -> JS.isNaN x = false -> positive_or_zero x.
Proof. destruct x as [s | s | | s m e]; cbn; intros Hs Hn; subst; trivial; discriminate. Qed.

(** [Math.max(1, a)] *)
Lemma max_one_positive (a : number) :
  JS.isNaN a = false -> positive_or_zero (JS.max (JS.of_Z 1) a).
Proof.
  intros Ha. replace (JS.of_Z 1) with (S754_finite false 4503599627370496 (-52)) by reflexivity.
  unfold JS.max, JS.compare. destruct a as [s | [] | | [] m e]; try discriminate; try exact I.
  unfold JS.aligned. cbn [cond_Zopp]. now destruct (_ ?= _).
Qed.

Lemma mul_positive (d : number) (m : positive) (e : Z) :
  positive_or_zero d -> positive_or_zero (d * S754_finite false m e).
Proof.
  unfold JS.mul, SFmul. intros Hd. destruct d as [s | [] | | [] md ed]; try contradiction;
    try exact I.
  apply signed_positive_or_zero; [apply SignFacts.binary_round_aux_signed |].
  apply binary_round_aux_not_nan. lia.
Qed.

Lemma floor_positive (d : number) : positive_or_zero d -> positive_or_zero (JS.floor d).
Proof.
  unfold JS.floor. intros Hd. destruct d as [s | [] | | [] m [| p | p]]; try contradiction;
    try exact I.
  apply signed_positive_or_zero; [| apply binary_normalize_not_nan].
  apply SignFacts.binary_normalize_nonneg. cbn [cond_Zopp]. apply Z.div_pos; lia.
Qed.

End RoundFacts.


(** * Inventory: what guards the equipped items *)

Lemma removeItem_In (id : string) (items : list Item.t) (x : Item.t) :
  In x (removeItem id items) <-> In x items /\ Item.id x <> id.
Proof.
  unfold removeItem. rewrite filter_In, negb_true_iff.
  split; intros [Hin Hid]; split; trivial.
  - intros E. apply String.eqb_neq in Hid. contradiction.
  - now apply String.eqb_neq.
Qed.

Lemma removeRelic_In (id : string) (rs : list Relic.t) (r : Relic.t) :
  In r (removeRelic id rs) <-> In r rs /\ Relic.id r <> id.
Proof.
  unfold removeRelic. rewrite filter_In, negb_true_iff.
  split; intros [Hin Hid]; split; trivial.
  - intros E. apply String.eqb_neq in Hid. contradiction.
  - now apply String.eqb_neq.
Qed.

Lemma hasId_own (w : Item.t) : hasId (Some w) (Item.id w) = true.
Proof. apply String.eqb_refl. Qed.

Lemma findItem_removeItem (id : string) (items : list Item.t) :
  findItem id (removeItem id items) = None.
Proof.
  unfold findItem. destruct (List.find _ _) as [w |] eqn:Hfind; [| reflexivity].
  apply find_some in Hfind as [Hin Hid]. apply removeItem_In in Hin as [_ Hne].
  now apply String.eqb_eq in Hid.
Qed.

(** C10.  [discardItem] and [sellRelic] have no equipped-item guard.  In
    every state and for every id, [discardItem] keeps exactly the items of
    the list whose id differs and touches nothing else of the inventory;
    so discarding the id of the equipped weapon (armor) removes it from
    the owned list, where it can no longer be found, and leaves
    [currentWeapon] ([currentArmor]) pointing at the removed item.
    [sellRelic] keeps exactly the relics whose id differs, in [relics] and
    in [equippedRelics] alike, so an equipped relic is sold and taken off.
    The guard exists in [sellWeapon], [sellArmor] (the state is returned
    unchanged) and [bulkSell] (the equipped item stays). *)
Theorem discardItem_sellRelic_unguarded
    (state : GameState) (itemId : string) (w a : Item.t) (relicId : string)
    (ids : list string) :
  let inv := inventory state in
  let discarded kind := inventory (discardItem itemId kind state) in
  let dw := inventory (discardItem (Item.id w) KWeapon state) in
  let da := inventory (discardItem (Item.id a) KArmor state) in
  let sr := inventory (sellRelic relicId state) in
  (* discardItem, whatever the id and whatever is equipped *)
  ((forall x, In x (Inventory.weapons (discarded KWeapon))
              <-> In x (Inventory.weapons inv) /\ Item.id x <> itemId)
   /\ Inventory.weapons (discarded KWeapon) = removeItem itemId (Inventory.weapons inv)
   /\ Inventory.currentWeapon (discarded KWeapon) = Inventory.currentWeapon inv
   /\ Inventory.armor (discarded KWeapon) = Inventory.armor inv
   /\ Inventory.currentArmor (discarded KWeapon) = Inventory.currentArmor inv)
  /\ ((forall x, In x (Inventory.armor (discarded KArmor))
                 <-> In x (Inventory.armor inv) /\ Item.id x <> itemId)
      /\ Inventory.armor (discarded KArmor) = removeItem itemId (Inventory.armor inv)
      /\ Inventory.currentArmor (discarded KArmor) = Inventory.currentArmor inv
      /\ Inventory.weapons (discarded KArmor) = Inventory.weapons inv
      /\ Inventory.currentWeapon (discarded KArmor) = Inventory.currentWeapon inv)
  (* discardItem on the equipped weapon *)
  /\ (Inventory.currentWeapon inv = Some w ->
      Inventory.currentWeapon dw = Some w
      /\ findItem (Item.id w) (Inventory.weapons dw) = None
      /\ (forall x, In x (Inventory.weapons dw) -> Item.id x <> Item.id w))
  (* discardItem on the equipped armor *)
  /\ (Inventory.currentArmor inv = Some a ->
      Inventory.currentArmor da = Some a
      /\ findItem (Item.id a) (Inventory.armor da) = None
      /\ (forall x, In x (Inventory.armor da) -> Item.id x <> Item.id a))
  (* sellRelic, equipped or not *)
  /\ ((forall r, In r (Inventory.relics sr)
                 <-> In r (Inventory.relics inv) /\ Relic.id r <> relicId)
      /\ (forall r, In r (Inventory.equippedRelics sr)
                    <-> In r (Inventory.equippedRelics inv) /\ Relic.id r <> relicId)
      /\ Inventory.relics sr = removeRelic relicId (Inventory.relics inv)
      /\ Inventory.equippedRelics sr = removeRelic relicId (Inventory.equippedRelics inv)
      /\ findRelic relicId (Inventory.relics sr) = None
      /\ findRelic relicId (Inventory.equippedRelics sr) = None)
  (* the guarded paths *)
  /\ (Inventory.currentWeapon inv = Some w -> sellWeapon (Item.id w) state = state)
  /\ (Inventory.currentArmor inv = Some a -> sellArmor (Item.id a) state = state)
  /\ (Inventory.currentWeapon inv = Some w ->
      forall x, In x (Inventory.weapons inv) -> Item.id x = Item.id w ->
                In x (Inventory.weapons (inventory (bulkSell ids KWeapon state))))
  /\ (Inventory.currentArmor inv = Some a ->
      forall x, In x (Inventory.armor inv) -> Item.id x = Item.id a ->
                In x (Inventory.armor (inventory (bulkSell ids KArmor state)))).
Proof.
  cbv zeta.
  assert (Hrelic : forall rs, findRelic relicId (removeRelic relicId rs) = None).
  { intros rs. unfold findRelic. destruct (List.find _ _) as [r |] eqn:Hfind; [| reflexivity].
    apply find_some in Hfind as [Hin Hid]. apply removeRelic_In in Hin as [_ Hne].
    now apply String.eqb_eq in Hid. }
  split; [| split; [| split; [| split; [| split; [| split; [| split; [| split]]]]]]].
  - split; [intros x; apply removeItem_In | now repeat split].
  - split; [intros x; apply removeItem_In | now repeat split].
  - intros Hw. split; [exact Hw |]. split; [apply findItem_removeItem |].
    intros x Hx. apply removeItem_In in Hx. tauto.
  - intros Ha. split; [exact Ha |]. split; [apply findItem_removeItem |].
    intros x Hx. apply removeItem_In in Hx. tauto.
  - split; [intros r; apply removeRelic_In |].
    split; [intros r; apply removeRelic_In |].
    split; [reflexivity |]. split; [reflexivity |]. split; apply Hrelic.
  - intros Hw. unfold sellWeapon. rewrite Hw, hasId_own. now destruct (findItem _ _).
  - intros Ha. unfold sellArmor. rewrite Ha, hasId_own. now destruct (findItem _ _).
  - intros Hw x Hx Hid. cbn. apply filter_In. split; [exact Hx |].
    rewrite Hw, Hid, hasId_own. apply orb_true_r.
  - intros Ha x Hx Hid. cbn. apply filter_In. split; [exact Hx |].
    rewrite Ha, Hid, hasId_own. apply orb_true_r.
Qed.

Lemma discardItem_sellRelic_unguarded_witness :
  Inventory.currentWeapon (inventory Sample.armed) = Some Sample.sword
  /\ Inventory.weapons (inventory (discardItem "w1" KWeapon Sample.armed)) = []
  /\ Inventory.currentWeapon (inventory (discardItem "w1" KWeapon Sample.armed))
     = Some Sample.sword
  /\ Inventory.equippedRelics (inventory (sellRelic "r1" Sample.armed)) = []
  /\ sellWeapon "w1" Sample.armed = Sample.armed.
Proof.
  assert (Hw : Inventory.currentWeapon (inventory Sample.armed) = Some Sample.sword)
    by reflexivity.
  destruct (discardItem_sellRelic_unguarded Sample.armed "w1" Sample.sword Sample.plate
              "r1" ["w1"]%string)
    as ((_ & Hdw & _) & _ & Hequipped & _ & (_ & _ & _ & Her & _) & Hsell & _).
  destruct (Hequipped Hw) as (Hcw & _).
  split; [exact Hw |]. split; [exact Hdw |]. split; [exact Hcw |].
  split; [exact Her | exact (Hsell Hw)].
Defined.

(** * Upgrade costs *)

Lemma findItem_id (id : string) (items : list Item.t) (w : Item.t) :
  findItem id items = Some w -> Item.id w = id.
Proof.
  unfold findItem. intros H. apply find_some in H. now apply String.eqb_eq.
Qed.

Lemma findRelic_id (id : string) (rs : list Relic.t) (r : Relic.t) :
  findRelic id rs = Some r -> Relic.id r = id.
Proof.
  unfold findRelic. intros H. apply find_some in H. now apply String.eqb_eq.
Qed.

(** Mapping an id-preserving update over the items with a given id updates
    the item [find] returns for that id. *)
Lemma findItem_map (id : string) (f : Item.t -> Item.t) (items : list Item.t) :
  (forall w, Item.id (f w) = Item.id w) ->
  findItem id (List.map (fun w => if String.eqb (Item.id w) id then f w else w) items)
  = f <$> findItem id items.
Proof.
  intros Hf. unfold findItem. induction items as [| x items IH]; [reflexivity |].
  cbn [List.map List.find]. destruct (String.eqb (Item.id x) id) eqn:E.
  - now rewrite Hf, E.
  - rewrite E. exact IH.
Qed.

Lemma findRelic_map (id : string) (f : Relic.t -> Relic.t) (rs : list Relic.t) :
  (forall r, Relic.id (f r) = Relic.id r) ->
  findRelic id (List.map (fun r => if String.eqb (Relic.id r) id then f r else r) rs)
  = f <$> findRelic id rs.
Proof.
  intros Hf. unfold findRelic. induction rs as [| x rs IH]; [reflexivity |].
  cbn [List.map List.find]. destruct (String.eqb (Relic.id x) id) eqn:E.
  - now rewrite Hf, E.
  - rewrite E. exact IH.
Qed.

(** One successful upgrade, on each of the three paths. *)
Lemma upgradeWeapon_success (id : string) (state : GameState) (w : Item.t) :
  findItem id (Inventory.weapons (inventory state)) = Some w ->
  canUpgradeWeapon id state = true ->
  findItem id (Inventory.weapons (inventory (upgradeWeapon id state))) = Some (levelUp w).
Proof.
  unfold canUpgradeWeapon, upgradeWeapon. intros Hw Hcan. rewrite Hw in *.
  apply negb_true_iff in Hcan. rewrite Hcan. cbn.
  exact (eq_trans (findItem_map id levelUp _ (fun _ => eq_refl))
           (f_equal (fmap levelUp) Hw)).
Qed.

Lemma upgradeArmor_success (id : string) (state : GameState) (a : Item.t) :
  findItem id (Inventory.armor (inventory state)) = Some a ->
  canUpgradeArmor id state = true ->
  findItem id (Inventory.armor (inventory (upgradeArmor id state))) = Some (levelUp a).
Proof.
  unfold canUpgradeArmor, upgradeArmor. intros Ha Hcan. rewrite Ha in *.
  apply negb_true_iff in Hcan. rewrite Hcan. cbn.
  exact (eq_trans (findItem_map id levelUp _ (fun _ => eq_refl))
           (f_equal (fmap levelUp) Ha)).
Qed.

Lemma upgradeRelic_success (id : string) (state : GameState) (r : Relic.t) :
  findRelic id (Inventory.relics (inventory state)) = Some r ->
  canUpgradeRelic id state = true ->
  findRelic id (Inventory.relics (inventory (upgradeRelic id state)))
  = Some (relicLevelUp r).
Proof.
  unfold canUpgradeRelic, upgradeRelic. intros Hr Hcan. rewrite Hr in *.
  apply negb_true_iff in Hcan. rewrite Hcan. cbn.
  exact (eq_trans (findRelic_map id relicLevelUp _ (fun _ => eq_refl))
           (f_equal (fmap relicLevelUp) Hr)).
Qed.

Lemma costAfter_S (k : nat) (C : number) :
  costAfter (S k) C = costAfter k (upgradedCost C).
Proof. unfold costAfter. now rewrite Nat.iter_succ_r. Qed.

Lemma levels_S (k : nat) (l : number) :
  Nat.iter (S k) (fun l => l + #1) l = Nat.iter k (fun l => l + #1) (l + #1).
Proof. now rewrite Nat.iter_succ_r. Qed.

Lemma upgradeWeapon_iterates (id : string) (k : nat) (state : GameState) (w : Item.t) :
  findItem id (Inventory.weapons (inventory state)) = Some w ->
  allSucceed (canUpgradeWeapon id) (upgradeWeapon id) k state ->
  exists w',
    findItem id (Inventory.weapons (inventory (repeatOp (upgradeWeapon id) k state)))
    = Some w'
    /\ Item.upgradeCost w' = costAfter k (Item.upgradeCost w)
    /\ Item.level w' = Nat.iter k (fun l => l + #1) (Item.level w).
Proof.
  revert state w. induction k as [| k IH]; intros state w Hw Hall.
  - exists w. now repeat split.
  - destruct Hall as [Hcan Hall].
    pose proof (upgradeWeapon_success id state w Hw Hcan) as Hw'.
    destruct (IH _ _ Hw' Hall) as (w' & Hfind & Hcost & Hlevel).
    exists w'. cbn [repeatOp]. rewrite costAfter_S, levels_S. now repeat split.
Qed.

Lemma upgradeArmor_iterates (id : string) (k : nat) (state : GameState) (a : Item.t) :
  findItem id (Inventory.armor (inventory state)) = Some a ->
  allSucceed (canUpgradeArmor id) (upgradeArmor id) k state ->
  exists a',
    findItem id (Inventory.armor (inventory (repeatOp (upgradeArmor id) k state)))
    = Some a'
    /\ Item.upgradeCost a' = costAfter k (Item.upgradeCost a)
    /\ Item.level a' = Nat.iter k (fun l => l + #1) (Item.level a).
Proof.
  revert state a. induction k as [| k IH]; intros state a Ha Hall.
  - exists a. now repeat split.
  - destruct Hall as [Hcan Hall].
    pose proof (upgradeArmor_success id state a Ha Hcan) as Ha'.
    destruct (IH _ _ Ha' Hall) as (a' & Hfind & Hcost & Hlevel).
    exists a'. cbn [repeatOp]. rewrite costAfter_S, levels_S. now repeat split.
Qed.

Lemma upgradeRelic_iterates (id : string) (k : nat) (state : GameState) (r : Relic.t) :
  findRelic id (Inventory.relics (inventory state)) = Some r ->
  allSucceed (canUpgradeRelic id) (upgradeRelic id) k state ->
  exists r',
    findRelic id (Inventory.relics (inventory (repeatOp (upgradeRelic id) k state)))
    = Some r'
    /\ Relic.upgradeCost r' = costAfter k (Relic.upgradeCost r)
    /\ Relic.level r' = Nat.iter k (fun l => l + #1) (Relic.level r).
Proof.
  revert state r. induction k as [| k IH]; intros state r Hr Hall.
  - exists r. now repeat split.
  - destruct Hall as [Hcan Hall].
    pose proof (upgradeRelic_success id state r Hr Hcan) as Hr'.
    destruct (IH _ _ Hr' Hall) as (r' & Hfind & Hcost & Hlevel).
    exists r'. cbn [repeatOp]. rewrite costAfter_S, levels_S. now repeat split.
Qed.

(** C7.  On the three upgrade paths alike, a successful upgrade replaces
    [upgradeCost] by [Math.floor(upgradeCost * 1.5)] and adds one to
    [level]; after [k] successful upgrades of the item with a given id its
    cost is the [k]-fold iterate of that map on the initial cost, which
    floors at every step: from a cost of 5, two upgrades give 10, where
    flooring [5 * 1.5 * 1.5] once would give 11. *)
Theorem upgrade_cost_iterates
    (state : GameState) (weaponId armorId relicId : string) (k : nat)
    (w a : Item.t) (r : Relic.t) :
  (* one level-up *)
  (Item.upgradeCost (levelUp w) = JS.floor (Item.upgradeCost w * JS.dec 15 1)
   /\ Item.level (levelUp w) = Item.level w + #1
   /\ Relic.upgradeCost (relicLevelUp r) = JS.floor (Relic.upgradeCost r * JS.dec 15 1)
   /\ Relic.level (relicLevelUp r) = Relic.level r + #1)
  (* one successful upgrade levels the item up *)
  /\ (findItem weaponId (Inventory.weapons (inventory state)) = Some w ->
      canUpgradeWeapon weaponId state = true ->
      findItem weaponId (Inventory.weapons (inventory (upgradeWeapon weaponId state)))
      = Some (levelUp w))
  /\ (findItem armorId (Inventory.armor (inventory state)) = Some a ->
      canUpgradeArmor armorId state = true ->
      findItem armorId (Inventory.armor (inventory (upgradeArmor armorId state)))
      = Some (levelUp a))
  /\ (findRelic relicId (Inventory.relics (inventory state)) = Some r ->
      canUpgradeRelic relicId state = true ->
      findRelic relicId (Inventory.relics (inventory (upgradeRelic relicId state)))
      = Some (relicLevelUp r))
  (* k successful upgrades of a weapon *)
  /\ (findItem weaponId (Inventory.weapons (inventory state)) = Some w ->
      allSucceed (canUpgradeWeapon weaponId) (upgradeWeapon weaponId) k state ->
      exists w',
        findItem weaponId
          (Inventory.weapons (inventory (repeatOp (upgradeWeapon weaponId) k state)))
        = Some w'
        /\ Item.upgradeCost w' = costAfter k (Item.upgradeCost w)
        /\ Item.level w' = Nat.iter k (fun l => l + #1) (Item.level w))
  (* of an armor *)
  /\ (findItem armorId (Inventory.armor (inventory state)) = Some a ->
      allSucceed (canUpgradeArmor armorId) (upgradeArmor armorId) k state ->
      exists a',
        findItem armorId
          (Inventory.armor (inventory (repeatOp (upgradeArmor armorId) k state)))
        = Some a'
        /\ Item.upgradeCost a' = costAfter k (Item.upgradeCost a)
        /\ Item.level a' = Nat.iter k (fun l => l + #1) (Item.level a))
  (* of a relic *)
  /\ (findRelic relicId (Inventory.relics (inventory state)) = Some r ->
      allSucceed (canUpgradeRelic relicId) (upgradeRelic relicId) k state ->
      exists r',
        findRelic relicId
          (Inventory.relics (inventory (repeatOp (upgradeRelic relicId) k state)))
        = Some r'
        /\ Relic.upgradeCost r' = costAfter k (Relic.upgradeCost r)
        /\ Relic.level r' = Nat.iter k (fun l => l + #1) (Relic.level r))
  (* stepwise flooring differs from flooring once *)
  /\ costAfter 2 #5 = #10
  /\ JS.floor (#5 * (JS.dec 15 1 * JS.dec 15 1)) = #11.
Proof.
  split; [repeat split |].
  split; [intros Hw; now apply upgradeWeapon_success |].
  split; [intros Ha; now apply upgradeArmor_success |].
  split; [intros Hr; now apply upgradeRelic_success |].
  split; [intros Hw; now apply upgradeWeapon_iterates |].
  split; [intros Ha; now apply upgradeArmor_iterates |].
  split; [intros Hr; now apply upgradeRelic_iterates |].
  split; vm_compute; reflexivity.
Qed.

(** A player who owns a weapon and nothing else upgrades it twice. *)
Lemma upgrade_cost_iterates_witness :
  findItem "w1" (Inventory.weapons (inventory Sample.swordsman)) = Some Sample.sword
  /\ Inventory.relics (inventory Sample.swordsman) = []
  /\ Inventory.armor (inventory Sample.swordsman) = []
  /\ allSucceed (canUpgradeWeapon "w1") (upgradeWeapon "w1") 2 Sample.swordsman
  /\ exists w',
       findItem "w1"
         (Inventory.weapons
            (inventory (repeatOp (upgradeWeapon "w1") 2 Sample.swordsman)))
       = Some w'
       /\ Item.upgradeCost w' = costAfter 2 (Item.upgradeCost Sample.sword)
       /\ Item.level w' = Nat.iter 2 (fun l => l + #1) (Item.level Sample.sword).
Proof.
  assert (Hfind : findItem "w1" (Inventory.weapons (inventory Sample.swordsman))
                  = Some Sample.sword) by reflexivity.
  assert (Hall : allSucceed (canUpgradeWeapon "w1") (upgradeWeapon "w1") 2
                   Sample.swordsman)
    by (vm_compute; repeat split).
  split; [exact Hfind |]. split; [reflexivity |]. split; [reflexivity |].
  split; [exact Hall |].
  destruct (upgrade_cost_iterates Sample.swordsman "w1" "a1" "r1" 2
              Sample.sword Sample.plate Sample.charm)
    as (_ & _ & _ & _ & Hk & _).
  exact (Hk Hfind Hall).
Defined.

(** * The rarity of a chest *)

(** The loop started at index [i] with running total [acc] stops at the
    first later total the draw does not exceed. *)
Lemma rarityLoop_first (random : number) (selected : option Rarity)
    (weights : list number) (acc : number) (i k : nat) (c : number) :
  runningTotals acc weights !! k = Some c ->
  (random <=? c) = true ->
  (forall j c', (j < k)%nat -> runningTotals acc weights !! j = Some c' ->
                (random <=? c') = false) ->
  rarityLoop random acc i weights selected = rarities !! (i + k)%nat.
Proof.
  revert acc i k. induction weights as [| w rest IH]; intros acc i k Hk Hle Hbefore.
  - discriminate.
  - cbn [rarityLoop runningTotals] in *. destruct k as [| k].
    + injection Hk as <-. rewrite Hle. now rewrite Nat.add_0_r.
    + rewrite (Hbefore 0%nat (acc + w)) by (reflexivity || lia).
      rewrite (IH (acc + w) (S i) k Hk Hle).
      * f_equal. lia.
      * intros j c' Hj Hc'. apply (Hbefore (S j) c'); [lia | exact Hc'].
Qed.

(** When the draw exceeds every running total, the loop leaves the
    variable as it was. *)
Lemma rarityLoop_none (random : number) (selected : option Rarity)
    (weights : list number) (acc : number) (i : nat) :
  (forall j c', runningTotals acc weights !! j = Some c' -> (random <=? c') = false) ->
  rarityLoop random acc i weights selected = selected.
Proof.
  revert acc i. induction weights as [| w rest IH]; intros acc i Hall; [reflexivity |].
  cbn [rarityLoop runningTotals] in *.
  rewrite (Hall 0%nat (acc + w) eq_refl). apply IH.
  intros j c' Hc'. exact (Hall (S j) c' Hc').
Qed.

(** C8.  [openChest] picks the rarity by a scan of the running totals of
    the weights over [common, rare, epic, legendary, mythical]: the rarity
    at the first index whose running total is at least the draw.  With the
    weights [70, 20, 7, 2, 1] and the draw 71 that is [rare], since
    70 < 71 <= 90; the item of the chest is generated for that rarity. *)
Theorem chest_rarity_is_first_covering_total
    (getChestRarityWeights : number -> list number)
    (weights : list number) (random : number) (i : nat) (total : number)
    (state : GameState) (cost r1 r2 r3 : number)
    (generateWeapon generateArmor : option Rarity -> Item.t) :
  runningTotals #0 weights !! i = Some total ->
  (random <=? total) = true ->
  (forall j c, (j < i)%nat -> runningTotals #0 weights !! j = Some c ->
               (random <=? c) = false) ->
  (coins state <? cost) = false ->
  selectRarity weights random = rarities !! i
  /\ rarities = [Common; Rare; Epic; Legendary; Mythical]
  /\ runningTotals #0 [ #70; #20; #7; #2; #1 ] = [ #70; #90; #97; #99; #100 ]
  /\ (#71 <=? #70) = false /\ (#71 <=? #90) = true
  /\ selectRarity [ #70; #20; #7; #2; #1 ] #71 = Some Rare
  /\ (let rarity := selectRarity (getChestRarityWeights cost) (r1 * #100) in
      snd (openChest getChestRarityWeights cost r1 r2 r3 generateWeapon generateArmor state)
      = Some (if r2 <? JS.dec 7 1
              then mkChestReward KWeapon [generateWeapon rarity]
              else mkChestReward KArmor [generateArmor rarity])).
Proof.
  intros Hi Hle Hbefore Hcoins.
  split; [exact (rarityLoop_first random _ weights #0 0 i total Hi Hle Hbefore) |].
  split; [reflexivity |].
  split; [vm_compute; reflexivity |].
  split; [vm_compute; reflexivity |].
  split; [vm_compute; reflexivity |].
  split; [vm_compute; reflexivity |].
  unfold openChest. rewrite Hcoins. cbn [snd]. now destruct (r2 <? JS.dec 7 1).
Qed.

Lemma chest_rarity_is_first_covering_total_witness :
  runningTotals #0 Sample.weights !! 1%nat = Some #90
  /\ (#71 <=? #90) = true
  /\ (coins Sample.fresh <? #50) = false
  /\ selectRarity Sample.weights #71 = Some Rare.
Proof.
  assert (Hbefore : forall j c, (j < 1)%nat ->
            runningTotals #0 Sample.weights !! j = Some c -> (#71 <=? c) = false).
  { intros j c Hj Hc. destruct j as [| j]; [| lia].
    injection Hc as <-. vm_compute. reflexivity. }
  split; [vm_compute; reflexivity |]. split; [vm_compute; reflexivity |].
  split; [vm_compute; reflexivity |].
  exact (proj1 (chest_rarity_is_first_covering_total Sample.chestWeights
                  Sample.weights #71 1 #90 Sample.fresh #50 #0 #0 #0
                  (fun _ => Sample.sword) (fun _ => Sample.plate)
                  eq_refl eq_refl Hbefore eq_refl)).
Defined.


(** * Hydration *)

Section Hydration.

Variable initializeAchievements : list Achievement.
Variable initializePlayerTags : list PlayerTag.

Local Abbreviation initialObject := (initialObject initializeAchievements initializePlayerTags).
Local Abbreviation loadGameState := (loadGameState initializeAchievements initializePlayerTags).

Lemma initialObject_skills (now : Date) :
  initialObject now !! "skills"%string = Some (initialSkills now).
Proof. reflexivity. Qed.

Lemma initialObject_adventureSkills (now : Date) :
  initialObject now !! "adventureSkills"%string = Some initialAdventureSkills.
Proof. reflexivity. Qed.


(** The state committed for a snapshot that is an object. *)
Lemma loadGameState_object (now0 now1 now2 : Date) (snapshot : gmap string value) :
  loadGameState now0 now1 now2 (Parsed (VObj snapshot))
  = <["adventureSkills"%string :=
        VObj (mergeObjects initialAdventureSkills
                (default VUndefined (snapshot !! "adventureSkills"%string)))]>
      (<["skills"%string :=
           VObj (mergeObjects (initialSkills now1)
                   (default VUndefined (snapshot !! "skills"%string)))]>
         (mergeObjects (VObj (initialObject now0)) (VObj snapshot))).
Proof.
  unfold loadGameState. cbn [property].
  now rewrite initialObject_skills, initialObject_adventureSkills.
Qed.


End Hydration.



(** * Combat *)

(** ** The exchange of blows *)

(** [recordAnswer] only touches [accuracyByCategory]. *)
Ltac answer_frame :=
  intros; unfold recordAnswer;
  repeat match goal with
         | |- context [match ?c with Some _ => _ | None => _ end] => destruct c
         | |- context [if ?b then _ else _] => destruct b
         end; reflexivity.

Lemma recordAnswer_totalVictories correct category st :
  Statistics.totalVictories (recordAnswer correct category st) = Statistics.totalVictories st.
Proof. answer_frame. Qed.
Lemma recordAnswer_coinsEarned correct category st :
  Statistics.coinsEarned (recordAnswer correct category st) = Statistics.coinsEarned st.
Proof. answer_frame. Qed.
Lemma recordAnswer_gemsEarned correct category st :
  Statistics.gemsEarned (recordAnswer correct category st) = Statistics.gemsEarned st.
Proof. answer_frame. Qed.
Lemma recordAnswer_zonesReached correct category st :
  Statistics.zonesReached (recordAnswer correct category st) = Statistics.zonesReached st.
Proof. answer_frame. Qed.
Lemma recordAnswer_totalDeaths correct category st :
  Statistics.totalDeaths (recordAnswer correct category st) = Statistics.totalDeaths st.
Proof. answer_frame. Qed.
Lemma recordAnswer_revivals correct category st :
  Statistics.revivals (recordAnswer correct category st) = Statistics.revivals st.
Proof. answer_frame. Qed.

Ltac answer_rewrite :=
  rewrite ?recordAnswer_totalVictories, ?recordAnswer_coinsEarned,
    ?recordAnswer_gemsEarned, ?recordAnswer_zonesReached,
    ?recordAnswer_totalDeaths, ?recordAnswer_revivals.

(** What [exchange] changes and what it leaves alone. *)
Lemma exchange_spec (hit : bool) (category : option string) (enemy : Enemy.t)
    (state : GameState) :
  let fought := exchange hit category enemy state in
  (currentEnemy state = Some enemy ->
   currentEnemy fought = Some (Enemy.set_hp (enemyHpAfter hit enemy state) enemy))
  /\ PlayerStats.hp (playerStats fought) = playerHpAfter hit enemy state
  /\ PlayerStats.atk (playerStats fought) = PlayerStats.atk (playerStats state)
  /\ PlayerStats.maxHp (playerStats fought) = PlayerStats.maxHp (playerStats state)
  /\ KnowledgeStreak.multiplier (knowledgeStreak fought) = multiplierAfter hit state
  /\ coins fought = coins state /\ gems fought = gems state /\ zone fought = zone state
  /\ inCombat fought = inCombat state
  /\ isPremium fought = isPremium state
  /\ hasUsedRevival fought = hasUsedRevival state
  /\ AdventureSkills.selectedSkill (adventureSkills fought)
     = AdventureSkills.selectedSkill (adventureSkills state)
  /\ SkillEffects.metalShieldUsed (AdventureSkills.skillEffects (adventureSkills fought))
     = SkillEffects.metalShieldUsed (AdventureSkills.skillEffects (adventureSkills state))
  /\ SkillEffects.lightningChainActive (AdventureSkills.skillEffects (adventureSkills fought))
     = SkillEffects.lightningChainActive (AdventureSkills.skillEffects (adventureSkills state))
  /\ SkillEffects.dodgeUsed (AdventureSkills.skillEffects (adventureSkills fought))
     = (if hit then SkillEffects.dodgeUsed (AdventureSkills.skillEffects (adventureSkills state))
        else dodges state
             || SkillEffects.dodgeUsed (AdventureSkills.skillEffects (adventureSkills state)))
  /\ Statistics.totalVictories (statistics fought) = Statistics.totalVictories (statistics state)
  /\ Statistics.coinsEarned (statistics fought) = Statistics.coinsEarned (statistics state)
  /\ Statistics.gemsEarned (statistics fought) = Statistics.gemsEarned (statistics state)
  /\ Statistics.zonesReached (statistics fought) = Statistics.zonesReached (statistics state)
  /\ Statistics.totalDeaths (statistics fought) = Statistics.totalDeaths (statistics state)
  /\ Statistics.revivals (statistics fought) = Statistics.revivals (statistics state).
Proof.
  unfold exchange, enemyHpAfter, playerHpAfter, multiplierAfter.
  destruct hit.
  - unfold playerAttacks. cbn.
    repeat match goal with |- _ /\ _ => split end;
      answer_rewrite; reflexivity.
  - unfold enemyAttacks, dodges.
    destruct (SkillEffects.dodgeUsed _) eqn:Hu;
      destruct (hasSkill dodge _) eqn:Hs; cbn; rewrite ?Hu;
      repeat match goal with |- _ /\ _ => split end;
      answer_rewrite; try reflexivity; intros He; rewrite He; now destruct enemy.
Qed.

(** ** Victory *)

Ltac split_all := repeat match goal with |- _ /\ _ => split end.

(** What an [attack] that wins the fight commits. *)
Lemma attack_victory (state : GameState) (hit : bool) (category : option string)
    (enemy : Enemy.t) :
  currentEnemy state = Some enemy ->
  (enemyHpAfter hit enemy state <=? #0) = true ->
  let reward := coinReward (zone state) (multiplierAfter hit state) in
  let gemsWon := gemReward (zone state) (multiplierAfter hit state) in
  let after := attack hit category state in
  coins after = coins state + reward
  /\ gems after = gems state + gemsWon
  /\ zone after = zone state + #1
  /\ inCombat after = false
  /\ currentEnemy after = None
  /\ adventureSkills after = emptyAdventureSkills
  /\ isPremium after = (if zone state + #1 >=? #50 then true else isPremium state)
  /\ Statistics.totalVictories (statistics after)
     = Statistics.totalVictories (statistics state) + #1
  /\ Statistics.coinsEarned (statistics after)
     = Statistics.coinsEarned (statistics state) + reward
  /\ Statistics.gemsEarned (statistics after)
     = Statistics.gemsEarned (statistics state) + gemsWon
  /\ Statistics.zonesReached (statistics after)
     = JS.max (Statistics.zonesReached (statistics state)) (zone state + #1).
Proof.
  intros Hcur Hdead. cbv zeta. unfold attack. rewrite Hcur.
  destruct (exchange_spec hit category enemy state)
    as (He & _ & _ & _ & Hm & Hc & Hg & Hz & _ & Hp & _ & _ & _ & _ & _
        & Hv & Hce & Hge & Hzr & _ & _).
  specialize (He Hcur). revert He Hm Hc Hg Hz Hp Hv Hce Hge Hzr.
  generalize (exchange hit category enemy state). intros fought He Hm Hc Hg Hz Hp Hv Hce Hge Hzr.
  unfold victoryCheck. rewrite He. cbn [Enemy.hp Enemy.set_hp]. rewrite Hdead.
  unfold defeatCheck, defeatBranch. cbn.
  destruct (PlayerStats.hp (playerStats fought) <=? #0);
    [destruct (hasUsedRevival fought) |];
    cbn; rewrite ?Hm, ?Hc, ?Hg, ?Hz, ?Hp, ?Hv, ?Hce, ?Hge, ?Hzr;
    split_all; reflexivity.
Qed.

(** ** The two checks that close an [attack], field by field *)

Lemma victoryCheck_frame (state : GameState) :
  playerStats (victoryCheck state) = playerStats state
  /\ hasUsedRevival (victoryCheck state) = hasUsedRevival state
  /\ Statistics.totalDeaths (statistics (victoryCheck state))
     = Statistics.totalDeaths (statistics state)
  /\ Statistics.revivals (statistics (victoryCheck state))
     = Statistics.revivals (statistics state)
  /\ (isPremium state = true -> isPremium (victoryCheck state) = true)
  /\ (shieldReady state = false -> shieldReady (victoryCheck state) = false).
Proof.
  unfold victoryCheck, shieldReady. destruct (currentEnemy state) as [e |]; [| tauto].
  destruct (Enemy.hp e <=? #0); [| tauto]. cbn. split_all; try reflexivity.
  intros ->. now destruct (_ >=? _).
Qed.

(** The victory check does nothing to a fight that goes on, and clears the
    combat when the enemy is down. *)
Lemma victoryCheck_cases (state : GameState) (enemy : Enemy.t) :
  currentEnemy state = Some enemy ->
  (if Enemy.hp enemy <=? #0
   then adventureSkills (victoryCheck state) = emptyAdventureSkills
        /\ inCombat (victoryCheck state) = false
        /\ currentEnemy (victoryCheck state) = None
   else victoryCheck state = state).
Proof.
  intros He. unfold victoryCheck. rewrite He.
  now destruct (Enemy.hp enemy <=? #0).
Qed.

(** The three branches of the defeat check. *)
Lemma defeatCheck_cases (checked : GameState) :
  (PlayerStats.hp (playerStats checked) <=? #0) = true ->
  let after := defeatCheck checked in
  match defeatBranch checked with
  | ShieldBranch =>
      PlayerStats.hp (playerStats after) = #1
      /\ PlayerStats.atk (playerStats after)
         = JS.floor (PlayerStats.atk (playerStats checked) * JS.dec 7 1)
      /\ PlayerStats.maxHp (playerStats after) = PlayerStats.maxHp (playerStats checked)
      /\ SkillEffects.metalShieldUsed (AdventureSkills.skillEffects (adventureSkills after))
         = true
      /\ AdventureSkills.selectedSkill (adventureSkills after)
         = AdventureSkills.selectedSkill (adventureSkills checked)
      /\ inCombat after = inCombat checked
      /\ currentEnemy after = currentEnemy checked
      /\ hasUsedRevival after = hasUsedRevival checked
      /\ Statistics.revivals (statistics after) = Statistics.revivals (statistics checked)
      /\ Statistics.totalDeaths (statistics after)
         = Statistics.totalDeaths (statistics checked)
  | RevivalBranch =>
      PlayerStats.hp (playerStats after) = PlayerStats.maxHp (playerStats checked)
      /\ PlayerStats.atk (playerStats after) = PlayerStats.atk (playerStats checked)
      /\ PlayerStats.maxHp (playerStats after) = PlayerStats.maxHp (playerStats checked)
      /\ hasUsedRevival checked = false
      /\ hasUsedRevival after = true
      /\ adventureSkills after = adventureSkills checked
      /\ inCombat after = inCombat checked
      /\ currentEnemy after = currentEnemy checked
      /\ Statistics.revivals (statistics after)
         = Statistics.revivals (statistics checked) + #1
      /\ Statistics.totalDeaths (statistics after)
         = Statistics.totalDeaths (statistics checked)
  | GameOverBranch =>
      inCombat after = false
      /\ currentEnemy after = None
      /\ adventureSkills after = emptyAdventureSkills
      /\ Statistics.totalDeaths (statistics after)
         = Statistics.totalDeaths (statistics checked) + #1
      /\ playerStats after = playerStats checked
      /\ hasUsedRevival checked = true
      /\ hasUsedRevival after = true
      /\ Statistics.revivals (statistics after) = Statistics.revivals (statistics checked)
  end.
Proof.
  intros Hle. cbv zeta. unfold defeatCheck. rewrite Hle.
  unfold defeatBranch.
  destruct (hasSkill metal_shield _ && negb _).
  - cbn. split_all; reflexivity.
  - destruct (hasUsedRevival checked) eqn:Hr; cbn; rewrite ?Hr; split_all; reflexivity.
Qed.

Lemma defeatCheck_idle (checked : GameState) :
  (PlayerStats.hp (playerStats checked) <=? #0) = false ->
  defeatCheck checked = checked.
Proof. intros Hle. unfold defeatCheck. now rewrite Hle. Qed.

Lemma defeatBranch_shield (checked : GameState) :
  defeatBranch checked = ShieldBranch <-> shieldReady checked = true.
Proof.
  unfold defeatBranch, shieldReady.
  destruct (hasSkill metal_shield _ && negb _); [tauto |].
  destruct (negb (hasUsedRevival checked)); split; discriminate.
Qed.

Lemma defeatBranch_revival (checked : GameState) :
  defeatBranch checked = RevivalBranch ->
  shieldReady checked = false /\ hasUsedRevival checked = false.
Proof.
  unfold defeatBranch, shieldReady.
  destruct (hasSkill metal_shield _ && negb _); [discriminate |].
  destruct (hasUsedRevival checked); [discriminate | tauto].
Qed.

Lemma defeatBranch_gameOver (checked : GameState) :
  defeatBranch checked = GameOverBranch ->
  shieldReady checked = false /\ hasUsedRevival checked = true.
Proof.
  unfold defeatBranch, shieldReady.
  destruct (hasSkill metal_shield _ && negb _); [discriminate |].
  destruct (hasUsedRevival checked); [tauto | discriminate].
Qed.

(** ** What an [attack] preserves *)

Lemma attack_frame (hit : bool) (category : option string) (state : GameState) :
  (isPremium state = true -> isPremium (attack hit category state) = true)
  /\ (hasUsedRevival state = true -> hasUsedRevival (attack hit category state) = true)
  /\ (shieldReady state = false -> shieldReady (attack hit category state) = false)
  /\ PlayerStats.maxHp (playerStats (attack hit category state))
     = PlayerStats.maxHp (playerStats state).
Proof.
  unfold attack. destruct (currentEnemy state) as [enemy |] eqn:Hcur; [| tauto].
  destruct (exchange_spec hit category enemy state)
    as (_ & _ & _ & Hmax & _ & _ & _ & _ & _ & Hp & Hr & Hsel & Hused & _).
  assert (Hready : shieldReady (exchange hit category enemy state) = shieldReady state)
    by (unfold shieldReady; now rewrite Hsel, Hused).
  clear Hsel Hused. revert Hmax Hp Hr Hready.
  generalize (exchange hit category enemy state).
  intros fought Hmax Hp Hr Hready.
  destruct (victoryCheck_frame fought) as (Hstats & Hr' & _ & _ & Hp' & Hready').
  rewrite <- Hmax, <- Hp, <- Hr, <- Hready, <- Hstats, <- Hr'.
  clear Hmax Hp Hr Hready Hstats Hr'. revert Hp' Hready'.
  generalize (victoryCheck fought). intros checked Hp' Hready'.
  destruct (PlayerStats.hp (playerStats checked) <=? #0) eqn:Hle;
    [| rewrite (defeatCheck_idle checked Hle); tauto].
  pose proof (defeatCheck_cases checked Hle) as Hcases. cbv zeta in Hcases.
  assert (Hprem : isPremium (defeatCheck checked) = isPremium checked).
  { unfold defeatCheck. rewrite Hle. now destruct (defeatBranch checked). }
  rewrite Hprem.
  destruct (defeatBranch checked) eqn:Hb.
  - apply defeatBranch_shield in Hb.
    destruct Hcases as (_ & _ & Hm & Hu & _ & _ & _ & Hrv & _).
    rewrite Hrv, Hm. split_all; auto.
    intros Hf. apply Hready' in Hf. congruence.
  - destruct Hcases as (_ & _ & Hm & _ & Hrv & Hadv & _).
    rewrite Hrv, Hm. split_all; auto.
    intros Hf. unfold shieldReady. rewrite Hadv. now apply Hready'.
  - destruct Hcases as (_ & _ & Hadv & _ & Hps & _ & Hrv & _).
    rewrite Hrv, Hps. split_all; auto.
    intros _. unfold shieldReady. now rewrite Hadv.
Qed.

(** ** Defeat *)

(** The state the defeat check of an [attack] reads, in terms of the state
    the attack started from.  [survived] tells whether the enemy is still
    standing after the exchange, that is, whether the victory check passed
    the state on unchanged. *)
Lemma attack_checked (state : GameState) (hit : bool) (category : option string)
    (enemy : Enemy.t) :
  currentEnemy state = Some enemy ->
  let survived := negb (enemyHpAfter hit enemy state <=? #0) in
  let checked := victoryCheck (exchange hit category enemy state) in
  PlayerStats.hp (playerStats checked) = playerHpAfter hit enemy state
  /\ PlayerStats.atk (playerStats checked) = PlayerStats.atk (playerStats state)
  /\ PlayerStats.maxHp (playerStats checked) = PlayerStats.maxHp (playerStats state)
  /\ hasUsedRevival checked = hasUsedRevival state
  /\ Statistics.totalDeaths (statistics checked)
     = Statistics.totalDeaths (statistics state)
  /\ Statistics.revivals (statistics checked) = Statistics.revivals (statistics state)
  /\ shieldReady checked = survived && shieldReady state
  /\ (if survived
      then inCombat checked = inCombat state
           /\ currentEnemy checked
              = Some (Enemy.set_hp (enemyHpAfter hit enemy state) enemy)
           /\ AdventureSkills.selectedSkill (adventureSkills checked)
              = AdventureSkills.selectedSkill (adventureSkills state)
      else inCombat checked = false
           /\ currentEnemy checked = None
           /\ adventureSkills checked = emptyAdventureSkills).
Proof.
  intros Hcur. cbv zeta.
  destruct (exchange_spec hit category enemy state)
    as (He & Hhp & Hatk & Hmax & _ & _ & _ & _ & Hin & _ & Hr & Hsel & Hused & _ & _
        & _ & _ & _ & _ & Hd & Hrv).
  specialize (He Hcur).
  assert (Hready : shieldReady (exchange hit category enemy state) = shieldReady state)
    by (unfold shieldReady; now rewrite Hsel, Hused).
  clear Hused. revert He Hhp Hatk Hmax Hin Hr Hsel Hd Hrv Hready.
  generalize (exchange hit category enemy state).
  intros fought He Hhp Hatk Hmax Hin Hr Hsel Hd Hrv Hready.
  destruct (victoryCheck_frame fought) as (Hstats & Hr' & Hd' & Hrv' & _ & _).
  rewrite Hstats, Hr', Hd', Hrv'. split_all; try assumption.
  - pose proof (victoryCheck_cases fought _ He) as Hv. cbn [Enemy.hp Enemy.set_hp] in Hv.
    destruct (enemyHpAfter hit enemy state <=? #0); cbn [negb andb].
    + destruct Hv as (Hadv & _). unfold shieldReady. now rewrite Hadv.
    + now rewrite Hv.
  - pose proof (victoryCheck_cases fought _ He) as Hv. cbn [Enemy.hp Enemy.set_hp] in Hv.
    destruct (enemyHpAfter hit enemy state <=? #0); cbn [negb].
    + tauto.
    + rewrite Hv. now split_all.
Qed.

(** The precedence chain of the defeat check, in terms of the state the
    attack started from. *)
Lemma attack_defeated (state : GameState) (hit : bool) (category : option string)
    (enemy : Enemy.t) :
  currentEnemy state = Some enemy ->
  (playerHpAfter hit enemy state <=? #0) = true ->
  let survived := negb (enemyHpAfter hit enemy state <=? #0) in
  let foe := Some (Enemy.set_hp (enemyHpAfter hit enemy state) enemy) in
  let after := attack hit category state in
  if survived && shieldReady state then
    defeatBranchOf hit category state = Some ShieldBranch
    /\ PlayerStats.hp (playerStats after) = #1
    /\ PlayerStats.atk (playerStats after)
       = JS.floor (PlayerStats.atk (playerStats state) * JS.dec 7 1)
    /\ SkillEffects.metalShieldUsed (AdventureSkills.skillEffects (adventureSkills after))
       = true
    /\ AdventureSkills.selectedSkill (adventureSkills after)
       = AdventureSkills.selectedSkill (adventureSkills state)
    /\ inCombat after = inCombat state
    /\ currentEnemy after = foe
    /\ hasUsedRevival after = hasUsedRevival state
    /\ Statistics.revivals (statistics after) = Statistics.revivals (statistics state)
  else if negb (hasUsedRevival state) then
    defeatBranchOf hit category state = Some RevivalBranch
    /\ PlayerStats.hp (playerStats after) = PlayerStats.maxHp (playerStats state)
    /\ hasUsedRevival after = true
    /\ Statistics.revivals (statistics after)
       = Statistics.revivals (statistics state) + #1
    /\ (survived = true -> inCombat after = inCombat state /\ currentEnemy after = foe)
  else
    defeatBranchOf hit category state = Some GameOverBranch
    /\ inCombat after = false
    /\ currentEnemy after = None
    /\ adventureSkills after = emptyAdventureSkills
    /\ Statistics.totalDeaths (statistics after)
       = Statistics.totalDeaths (statistics state) + #1
    /\ hasUsedRevival after = true
    /\ Statistics.revivals (statistics after) = Statistics.revivals (statistics state).
Proof.
  intros Hcur Hle. cbv zeta.
  destruct (attack_checked state hit category enemy Hcur)
    as (Hhp & Hatk & Hmax & Hr & Hd & Hrv & Hready & Hrest).
  unfold defeatBranchOf, attack. rewrite Hcur.
  revert Hhp Hatk Hmax Hr Hd Hrv Hready Hrest.
  generalize (victoryCheck (exchange hit category enemy state)).
  intros checked Hhp Hatk Hmax Hr Hd Hrv Hready Hrest.
  rewrite <- Hhp in Hle. rewrite Hle.
  pose proof (defeatCheck_cases checked Hle) as Hcases. cbv zeta in Hcases.
  rewrite <- Hready, <- Hr, <- Hatk, <- Hmax, <- Hd, <- Hrv.
  destruct (defeatBranch checked) eqn:Hb.
  - apply defeatBranch_shield in Hb. rewrite Hb.
    rewrite Hb in Hready. symmetry in Hready. apply andb_true_iff in Hready.
    destruct Hready as [Hs _]. rewrite Hs in Hrest.
    destruct Hrest as (Hin & Hcur' & Hsel).
    destruct Hcases as (? & ? & _ & ? & Hsel' & Hin' & Hcur'' & ? & ? & _).
    rewrite <- Hin, <- Hcur', <- Hsel. now split_all.
  - apply defeatBranch_revival in Hb. destruct Hb as [Hb Hb']. rewrite Hb, Hb'. cbn.
    destruct Hcases as (? & _ & _ & _ & ? & _ & Hin' & Hcur' & ? & _).
    split_all; try assumption; try reflexivity;
      intros Hs; rewrite Hs in Hrest; destruct Hrest as (Hin & Hc & _); split; congruence.
  - apply defeatBranch_gameOver in Hb. destruct Hb as [Hb Hb']. rewrite Hb, Hb'. cbn.
    destruct Hcases as (? & ? & ? & ? & _ & _ & ? & ?). now split_all.
Qed.

(** Unfolds the updaters other than [attack] and splits their guards. *)
Ltac unfold_updaters :=
  unfold equipWeapon, equipArmor, upgradeWeapon, upgradeArmor, sellWeapon, sellArmor,
    upgradeResearch, openChest, purchaseMythical, startCombat, setGameMode,
    toggleCheat, mineGem, exchangeShinyGems, discardItem, purchaseRelic,
    upgradeRelic, equipRelic, unequipRelic, sellRelic, claimDailyReward,
    claimOfflineRewards, bulkSell, bulkUpgrade, plantSeed, buyWater,
    updateSettings, addCoins, addGems, teleportToZone, setExperience, rollSkill,
    selectAdventureSkill, skipAdventureSkills, useSkipCard, countUpgrade, countSale.

Ltac break_guards :=
  repeat match goal with
         | |- context [match ?x with _ => _ end] => destruct x eqn:?
         end.

Section Frames.

Variable calculateResearchCost : number -> number.
Variable getChestRarityWeights : number -> list number.
Variable initializeAchievements : list Achievement.
Variable initializePlayerTags : list PlayerTag.

Local Abbreviation step :=
  (applyOp calculateResearchCost getChestRarityWeights
     initializeAchievements initializePlayerTags).

(** Once premium, always premium, short of a reset. *)
Lemma applyOp_isPremium (op : Op) (state : GameState) :
  isReset op = false -> isPremium state = true -> isPremium (step op state) = true.
Proof.
  intros Hop Hp. destruct op; try discriminate; cbn [applyOp];
    try exact Hp; try (now apply attack_frame);
    unfold_updaters; break_guards; exact Hp.
Qed.

Lemma applyOp_hasUsedRevival (op : Op) (state : GameState) :
  isReset op = false -> hasUsedRevival state = true ->
  hasUsedRevival (step op state) = true.
Proof.
  intros Hop Hp. destruct op; try discriminate; cbn [applyOp];
    try exact Hp; try (now apply attack_frame);
    unfold_updaters; break_guards; exact Hp.
Qed.

(** A shield that cannot fire stays so until a skill is selected again. *)
Lemma applyOp_shieldReady (op : Op) (state : GameState) :
  isSelect op = false -> shieldReady state = false ->
  shieldReady (step op state) = false.
Proof.
  intros Hop Hp. destruct op; try discriminate; cbn [applyOp];
    try exact Hp; try (now apply attack_frame); try reflexivity;
    unfold_updaters; break_guards; exact Hp.
Qed.

(** The branch an attack reports is the one its defeat check runs. *)
Lemma branchOf_shield (op : Op) (state : GameState) :
  branchOf op state = Some ShieldBranch ->
  shieldReady state = true /\ shieldReady (step op state) = false.
Proof.
  destruct op; try discriminate. cbn [branchOf applyOp]. unfold defeatBranchOf, attack.
  destruct (currentEnemy state) as [enemy |] eqn:Hcur; [| discriminate].
  destruct (attack_checked state hit category enemy Hcur)
    as (_ & _ & _ & _ & _ & _ & Hready & _).
  revert Hready. generalize (victoryCheck (exchange hit category enemy state)).
  intros checked Hready.
  destruct (PlayerStats.hp (playerStats checked) <=? #0) eqn:Hle; [| discriminate].
  intros [= Hb]. pose proof (defeatCheck_cases checked Hle) as Hcases.
  cbv zeta in Hcases. rewrite Hb in Hcases. apply defeatBranch_shield in Hb.
  rewrite Hb in Hready. symmetry in Hready. apply andb_true_iff in Hready.
  split; [tauto |]. destruct Hcases as (_ & _ & _ & Hused & _).
  unfold shieldReady. rewrite Hused. apply andb_false_r.
Qed.

Lemma branchOf_revival (op : Op) (state : GameState) :
  branchOf op state = Some RevivalBranch ->
  hasUsedRevival state = false
  /\ hasUsedRevival (step op state) = true
  /\ PlayerStats.hp (playerStats (step op state)) = PlayerStats.maxHp (playerStats state).
Proof.
  destruct op; try discriminate. cbn [branchOf applyOp]. unfold defeatBranchOf, attack.
  destruct (currentEnemy state) as [enemy |] eqn:Hcur; [| discriminate].
  destruct (attack_checked state hit category enemy Hcur)
    as (_ & _ & Hmax & Hr & _).
  revert Hmax Hr. generalize (victoryCheck (exchange hit category enemy state)).
  intros checked Hmax Hr.
  destruct (PlayerStats.hp (playerStats checked) <=? #0) eqn:Hle; [| discriminate].
  intros [= Hb]. pose proof (defeatCheck_cases checked Hle) as Hcases.
  cbv zeta in Hcases. rewrite Hb in Hcases.
  destruct Hcases as (Hhp & _ & _ & Hwas & Hnow & _).
  rewrite <- Hr, <- Hmax. now split_all.
Qed.

(** After the shield has fired, no operation of the same combat (no new
    selection of a skill) fires it again. *)
Lemma shield_spent (ops : list Op) (state : GameState) :
  none isSelect ops -> shieldReady state = false ->
  forallb (fun b => negb (isShield b)) (branches step ops state) = true.
Proof.
  unfold none. revert state. induction ops as [| op ops IH]; intros state Hops Hspent;
    [reflexivity |].
  cbn [forallb branches] in *. apply andb_true_iff in Hops. destruct Hops as [Hop Hops].
  apply negb_true_iff in Hop. apply andb_true_iff. split.
  - destruct (branchOf op state) as [[] |] eqn:Hb; try reflexivity.
    apply branchOf_shield in Hb. destruct Hb as [Hb _]. congruence.
  - apply IH; [exact Hops | now apply applyOp_shieldReady].
Qed.

(** After the free revival, no operation short of a reset revives again. *)
Lemma revival_spent (ops : list Op) (state : GameState) :
  none isReset ops -> hasUsedRevival state = true ->
  forallb (fun b => negb (isRevival b)) (branches step ops state) = true.
Proof.
  unfold none. revert state. induction ops as [| op ops IH]; intros state Hops Hspent;
    [reflexivity |].
  cbn [forallb branches] in *. apply andb_true_iff in Hops. destruct Hops as [Hop Hops].
  apply negb_true_iff in Hop. apply andb_true_iff. split.
  - destruct (branchOf op state) as [[] |] eqn:Hb; try reflexivity.
    apply branchOf_revival in Hb. destruct Hb as [Hb _]. congruence.
  - apply IH; [exact Hops | now apply applyOp_hasUsedRevival].
Qed.

Lemma revival_count (ops : list Op) (state : GameState) :
  none isReset ops ->
  (length (List.filter isRevival (branches step ops state)) <= 1)%nat.
Proof.
  unfold none. revert state. induction ops as [| op ops IH]; intros state Hops;
    [cbn; lia |].
  cbn [forallb branches List.filter] in *. apply andb_true_iff in Hops.
  destruct Hops as [Hop Hops]. apply negb_true_iff in Hop.
  destruct (isRevival (branchOf op state)) eqn:Hrev.
  - destruct (branchOf op state) as [[] |] eqn:Hb; try discriminate.
    apply branchOf_revival in Hb. destruct Hb as (_ & Hnow & _).
    pose proof (revival_spent ops _ Hops Hnow) as Hnone.
    cbn [length]. enough (List.filter isRevival (branches step ops (step op state)) = [])
      as -> by (cbn; lia).
    revert Hnone. generalize (branches step ops (step op state)). intros bs Hnone.
    induction bs as [| b bs IHbs]; [reflexivity |].
    cbn [forallb List.filter] in *. apply andb_true_iff in Hnone.
    destruct Hnone as [Hb Hbs]. apply negb_true_iff in Hb. rewrite Hb. now apply IHbs.
  - now apply IH.
Qed.

(** ** The properties of combat *)

(** C2.  When the exchange of an [attack] leaves the player at 0 hp or
    below, the defeat check, which runs after the victory check, decides
    in this order.  If [metal_shield] is the selected skill and
    [metalShieldUsed] is false (the skill is read after the victory check,
    which clears it when the same attack wins the fight: [survived]), hp
    becomes 1, atk [Math.floor(atk * 0.7)], the flag true, and the combat
    goes on.  Otherwise, if [hasUsedRevival] is false, hp becomes [maxHp]
    and the flag true, and the combat goes on.  Otherwise the combat ends:
    [inCombat] false, no enemy, [adventureSkills] back to its default,
    [totalDeaths] one higher.  Once the shield has fired it fires in no
    later operation of the same combat (none of [ops] selects a skill), and
    with [metalShieldUsed] set a lethal blow takes the revival or the
    game-over branch. *)
Theorem defeat_check_precedence
    (state : GameState) (hit : bool) (category : option string) (enemy : Enemy.t)
    (ops : list Op) :
  currentEnemy state = Some enemy ->
  (playerHpAfter hit enemy state <=? #0) = true ->
  none isSelect ops ->
  let survived := negb (enemyHpAfter hit enemy state <=? #0) in
  let foe := Some (Enemy.set_hp (enemyHpAfter hit enemy state) enemy) in
  let after := attack hit category state in
  let effects := AdventureSkills.skillEffects (adventureSkills state) in
  (if survived
      && hasSkill metal_shield (AdventureSkills.selectedSkill (adventureSkills state))
      && negb (SkillEffects.metalShieldUsed effects)
   then
     PlayerStats.hp (playerStats after) = #1
     /\ PlayerStats.atk (playerStats after)
        = JS.floor (PlayerStats.atk (playerStats state) * JS.dec 7 1)
     /\ SkillEffects.metalShieldUsed (AdventureSkills.skillEffects (adventureSkills after))
        = true
     /\ inCombat after = inCombat state /\ currentEnemy after = foe
   else if negb (hasUsedRevival state) then
     PlayerStats.hp (playerStats after) = PlayerStats.maxHp (playerStats state)
     /\ hasUsedRevival after = true
     /\ (survived = true -> inCombat after = inCombat state /\ currentEnemy after = foe)
   else
     inCombat after = false /\ currentEnemy after = None
     /\ adventureSkills after = emptyAdventureSkills
     /\ Statistics.totalDeaths (statistics after)
        = Statistics.totalDeaths (statistics state) + #1)
  /\ (defeatBranchOf hit category state = Some ShieldBranch ->
      forallb (fun b => negb (isShield b)) (branches step ops after) = true)
  /\ (SkillEffects.metalShieldUsed effects = true ->
      defeatBranchOf hit category state = Some RevivalBranch
      \/ defeatBranchOf hit category state = Some GameOverBranch).
Proof.
  intros Hcur Hle Hops. cbv zeta.
  pose proof (attack_defeated state hit category enemy Hcur Hle) as H. cbv zeta in H.
  rewrite <- andb_assoc. fold (shieldReady state).
  split; [| split].
  - destruct (negb _ && shieldReady state).
    + destruct H as (_ & ? & ? & ? & _ & ? & ? & _). now split_all.
    + destruct (negb (hasUsedRevival state)).
      * destruct H as (_ & ? & ? & _ & ?). now split_all.
      * destruct H as (_ & ? & ? & ? & ? & _). now split_all.
  - intros Hb. apply shield_spent; [exact Hops |].
    exact (proj2 (branchOf_shield (OpAttack hit category) state Hb)).
  - intros Hused. assert (Hready : shieldReady state = false)
      by (unfold shieldReady; rewrite Hused; apply andb_false_r).
    rewrite Hready, andb_false_r in H.
    destruct (negb (hasUsedRevival state)); [left | right]; apply H.
Qed.

(** C3.  In a game lifetime (no reset among [ops]) the free-revival branch
    of [attack] runs at most once.  Every operation but the reset keeps
    [hasUsedRevival] once it is true; the branch runs only while the flag
    is false, restores hp to [maxHp] and sets the flag; from then on no
    operation takes it, and a lethal blow with no metal shield to fire
    ends the combat in defeat. *)
Theorem free_revival_at_most_once
    (ops : list Op) (op : Op) (state : GameState)
    (hit : bool) (category : option string) (enemy : Enemy.t) :
  none isReset ops ->
  isReset op = false ->
  (length (List.filter isRevival (branches step ops state)) <= 1)%nat
  /\ (hasUsedRevival state = true -> hasUsedRevival (step op state) = true)
  /\ (hasUsedRevival state = true ->
      forallb (fun b => negb (isRevival b)) (branches step ops state) = true)
  /\ (branchOf op state = Some RevivalBranch ->
      hasUsedRevival state = false
      /\ hasUsedRevival (step op state) = true
      /\ PlayerStats.hp (playerStats (step op state))
         = PlayerStats.maxHp (playerStats state))
  /\ (currentEnemy state = Some enemy ->
      (playerHpAfter hit enemy state <=? #0) = true ->
      hasUsedRevival state = true ->
      shieldReady state = false ->
      let after := attack hit category state in
      defeatBranchOf hit category state = Some GameOverBranch
      /\ inCombat after = false /\ currentEnemy after = None
      /\ Statistics.totalDeaths (statistics after)
         = Statistics.totalDeaths (statistics state) + #1
      /\ PlayerStats.hp (playerStats after) = playerHpAfter hit enemy state).
Proof.
  intros Hops Hop. split_all.
  - now apply revival_count.
  - now apply applyOp_hasUsedRevival.
  - now apply revival_spent.
  - apply branchOf_revival.
  - intros Hcur Hle Hused Hready. cbv zeta.
    pose proof (attack_defeated state hit category enemy Hcur Hle) as H. cbv zeta in H.
    rewrite Hready, andb_false_r, Hused in H. cbn [negb] in H.
    destruct H as (? & ? & ? & _ & ? & _). split_all; try assumption.
    unfold attack. rewrite Hcur.
    destruct (attack_checked state hit category enemy Hcur) as (Hhp & _ & _ & Hr & _ & _ & Hsr & _).
    revert Hhp Hr Hsr. generalize (victoryCheck (exchange hit category enemy state)).
    intros checked Hhp Hr Hsr. unfold defeatCheck, defeatBranch.
    fold (shieldReady checked). rewrite Hsr, Hready, andb_false_r, Hr, Hused, Hhp, Hle.
    cbn. exact Hhp.
Qed.

(** C4.  When the exchange of an [attack] leaves the enemy at 0 hp or
    below, the player gains [Math.floor((10 + zone * 2) * multiplier)] coins
    and [Math.floor((1 + Math.floor(zone / 5)) * multiplier)] gems, with the
    zone read before its increment and the multiplier after the streak
    update of this answer; the zone grows by one, the combat ends,
    [adventureSkills] is reset, [isPremium] is set once the new zone is at
    least 50 and no operation but the reset clears it, and the victory
    statistics are updated.  Zone 10 with multiplier 1.5 gives 45 coins and
    4 gems. *)
Theorem victory_rewards
    (state : GameState) (hit : bool) (category : option string) (enemy : Enemy.t)
    (op : Op) :
  currentEnemy state = Some enemy ->
  (enemyHpAfter hit enemy state <=? #0) = true ->
  isReset op = false ->
  let multiplier := multiplierAfter hit state in
  let coinsWon := JS.floor ((#10 + zone state * #2) * multiplier) in
  let gemsWon := JS.floor ((#1 + JS.floor (zone state / #5)) * multiplier) in
  let after := attack hit category state in
  coins after = coins state + coinsWon
  /\ gems after = gems state + gemsWon
  /\ multiplier
     = (if hit
        then #1 + (KnowledgeStreak.current (knowledgeStreak state) + #1) * JS.dec 1 1
        else #1)
  /\ zone after = zone state + #1
  /\ inCombat after = false
  /\ currentEnemy after = None
  /\ adventureSkills after = emptyAdventureSkills
  /\ isPremium after = (if zone state + #1 >=? #50 then true else isPremium state)
  /\ (isPremium state = true -> isPremium (step op state) = true)
  /\ Statistics.totalVictories (statistics after)
     = Statistics.totalVictories (statistics state) + #1
  /\ Statistics.coinsEarned (statistics after)
     = Statistics.coinsEarned (statistics state) + coinsWon
  /\ Statistics.gemsEarned (statistics after)
     = Statistics.gemsEarned (statistics state) + gemsWon
  /\ Statistics.zonesReached (statistics after)
     = JS.max (Statistics.zonesReached (statistics state)) (zone state + #1)
  /\ JS.floor ((#10 + #10 * #2) * JS.dec 15 1) = #45
  /\ JS.floor ((#1 + JS.floor (#10 / #5)) * JS.dec 15 1) = #4.
Proof.
  intros Hcur Hdead Hop. cbv zeta.
  destruct (attack_victory state hit category enemy Hcur Hdead)
    as (? & ? & ? & ? & ? & ? & ? & ? & ? & ? & ?).
  split_all; try assumption; try reflexivity.
  now apply applyOp_isPremium.
Qed.



End Frames.

(** ** The properties of combat on the sample states *)

Lemma defeat_check_precedence_witness :
  currentEnemy Sample.shielded = Some Sample.ogre
  /\ (playerHpAfter false Sample.ogre Sample.shielded <=? #0) = true
  /\ none isSelect [OpAttack false None]
  /\ PlayerStats.hp (playerStats (attack false None Sample.shielded)) = #1
  /\ PlayerStats.atk (playerStats (attack false None Sample.shielded)) = #14
  /\ inCombat (attack false None Sample.shielded) = true.
Proof.
  assert (Hle : (playerHpAfter false Sample.ogre Sample.shielded <=? #0) = true)
    by (vm_compute; reflexivity).
  destruct (defeat_check_precedence Sample.researchCost Sample.chestWeights [] []
              Sample.shielded false None Sample.ogre [OpAttack false None]
              eq_refl Hle eq_refl)
    as ((Hhp & Hatk & _ & Hin & _) & _).
  split; [reflexivity |]. split; [exact Hle |]. split; [reflexivity |].
  split; [exact Hhp |]. split; [exact Hatk | exact Hin].
Defined.

Lemma free_revival_at_most_once_witness :
  none isReset [OpAttack false None; OpAttack false None]
  /\ isReset (OpAttack false None) = false
  /\ (length (List.filter isRevival
                (branches (applyOp Sample.researchCost Sample.chestWeights [] [])
                   [OpAttack false None; OpAttack false None] Sample.mauled)) <= 1)%nat.
Proof.
  split; [reflexivity |]. split; [reflexivity |].
  exact (proj1 (free_revival_at_most_once Sample.researchCost Sample.chestWeights [] []
                  [OpAttack false None; OpAttack false None] (OpAttack false None)
                  Sample.mauled false None Sample.ogre eq_refl eq_refl)).
Defined.

Lemma victory_rewards_witness :
  currentEnemy Sample.veteran = Some Sample.rat
  /\ (enemyHpAfter true Sample.rat Sample.veteran <=? #0) = true
  /\ isReset (OpAddCoins #1) = false
  /\ coins (attack true None Sample.veteran) = coins Sample.veteran + #45
  /\ gems (attack true None Sample.veteran) = gems Sample.veteran + #4
  /\ zone (attack true None Sample.veteran) = #10 + #1.
Proof.
  assert (Hle : (enemyHpAfter true Sample.rat Sample.veteran <=? #0) = true)
    by (vm_compute; reflexivity).
  destruct (victory_rewards Sample.researchCost Sample.chestWeights [] []
              Sample.veteran true None Sample.rat (OpAddCoins #1) eq_refl Hle eq_refl)
    as (Hcoins & Hgems & _ & Hzone & _).
  split; [reflexivity |]. split; [exact Hle |]. split; [reflexivity |].
  split; [exact Hcoins |]. split; [exact Hgems | exact Hzone].
Defined.




(** * The currency counters *)

Import SignFacts.

Lemma nonneg_0 : JS.nonneg #0. Proof. reflexivity. Qed.
Lemma nonneg_1 : JS.nonneg #1. Proof. reflexivity. Qed.
Lemma nonneg_2 : JS.nonneg #2. Proof. reflexivity. Qed.
Lemma nonneg_5 : JS.nonneg #5. Proof. reflexivity. Qed.
Lemma nonneg_10 : JS.nonneg #10. Proof. reflexivity. Qed.
Lemma nonneg_100 : JS.nonneg #100. Proof. reflexivity. Qed.
Lemma nonneg_tenth : JS.nonneg (JS.dec 1 1). Proof. reflexivity. Qed.

Lemma nonneg_div_5 (x : number) : JS.nonneg x -> JS.nonneg (x / #5).
Proof.
  intros Hx. replace #5 with (S754_finite false 5629499534213120 (-50)) by reflexivity.
  now apply nonneg_div.
Qed.

Create HintDb nonneg.
#[local] Hint Resolve nonneg_0 nonneg_1 nonneg_2 nonneg_5 nonneg_10 nonneg_100
  nonneg_tenth nonneg_add nonneg_mul nonneg_floor nonneg_max nonneg_div_5
  nonneg_sub_guarded : nonneg.

(** ** Sell prices in the inventory *)

Lemma nonnegPrices_find (id : string) (items : list Item.t) (w : Item.t) :
  nonnegPrices items -> findItem id items = Some w -> JS.nonneg (Item.sellPrice w).
Proof.
  unfold nonnegPrices, findItem. intros Hall Hfind. apply find_some in Hfind.
  rewrite List.Forall_forall in Hall. apply Hall. tauto.
Qed.

Lemma nonnegPrices_filter (p : Item.t -> bool) (items : list Item.t) :
  nonnegPrices items -> nonnegPrices (List.filter p items).
Proof.
  unfold nonnegPrices. rewrite !List.Forall_forall. intros Hall w Hw.
  apply filter_In in Hw. apply Hall. tauto.
Qed.

Lemma nonnegPrices_levelUp (p : Item.t -> bool) (items : list Item.t) :
  nonnegPrices items ->
  nonnegPrices (List.map (fun w => if p w then levelUp w else w) items).
Proof.
  unfold nonnegPrices. intros Hall. induction Hall as [| w items Hw Hall IH];
    cbn [List.map]; constructor; [| exact IH].
  now destruct (p w).
Qed.

Lemma nonnegPrices_add (items : list Item.t) (w : Item.t) :
  nonnegPrices items -> JS.nonneg (Item.sellPrice w) -> nonnegPrices (items ++ [w]).
Proof.
  unfold nonnegPrices. intros Hall Hw. apply Forall_app. split; [exact Hall |].
  now constructor.
Qed.

Lemma nonneg_totalValue (p : Item.t -> bool) (items : list Item.t) :
  nonnegPrices items -> JS.nonneg (sumOf Item.sellPrice (List.filter p items)).
Proof. intros Hall. apply nonneg_sumOf. now apply nonnegPrices_filter. Qed.

#[local] Hint Resolve nonnegPrices_filter nonnegPrices_levelUp nonnegPrices_add
  nonneg_totalValue : nonneg.
#[local] Hint Unfold removeItem : nonneg.

(** ** The invariant, operation by operation *)

Lemma exchange_economy (hit : bool) (category : option string) (enemy : Enemy.t)
    (state : GameState) :
  economyInvariant state -> economyInvariant (exchange hit category enemy state).
Proof.
  intros [(Hc & Hg & Hs) Hz Hcur Hm Hw Ha Hr Hoc Hog].
  unfold exchange, countQuestion. destruct hit.
  - unfold playerAttacks. constructor; [unfold countersNonneg; split_all | ..]; cbn; auto with nonneg.
  - unfold enemyAttacks. destruct (dodges state);
      (constructor; [unfold countersNonneg; split_all | ..]); cbn; auto with nonneg.
Qed.

Lemma victoryCheck_economy (state : GameState) :
  economyInvariant state -> economyInvariant (victoryCheck state).
Proof.
  intros Hinv. pose proof Hinv as [(Hc & Hg & Hs) Hz Hcur Hm Hw Ha Hr Hoc Hog].
  unfold victoryCheck. destruct (currentEnemy state) as [enemy |]; [| exact Hinv].
  destruct (Enemy.hp enemy <=? #0); [| exact Hinv].
  unfold coinReward, gemReward.
  constructor; [unfold countersNonneg; split_all | ..]; cbn; auto 10 with nonneg.
Qed.

Lemma defeatCheck_economy (state : GameState) :
  economyInvariant state -> economyInvariant (defeatCheck state).
Proof.
  intros Hinv. pose proof Hinv as [(Hc & Hg & Hs) Hz Hcur Hm Hw Ha Hr Hoc Hog].
  unfold defeatCheck. destruct (_ <=? _); [| exact Hinv].
  destruct (defeatBranch state); (constructor; [unfold countersNonneg; split_all | ..]); cbn; auto with nonneg.
Qed.

Lemma attack_economy (hit : bool) (category : option string) (state : GameState) :
  economyInvariant state -> economyInvariant (attack hit category state).
Proof.
  intros Hinv. unfold attack. destruct (currentEnemy state) as [enemy |]; [| exact Hinv].
  now apply defeatCheck_economy, victoryCheck_economy, exchange_economy.
Qed.

Section Economy.

Variable calculateResearchCost : number -> number.
Variable getChestRarityWeights : number -> list number.
Variable initializeAchievements : list Achievement.
Variable initializePlayerTags : list PlayerTag.

Local Abbreviation step :=
  (applyOp calculateResearchCost getChestRarityWeights
     initializeAchievements initializePlayerTags).
Local Abbreviation initial :=
  (createInitialGameState initializeAchievements initializePlayerTags).

Lemma initial_economy (now : Date) : economyInvariant (initial now).
Proof.
  constructor; try reflexivity;
    try (unfold countersNonneg; split_all; reflexivity); apply List.Forall_nil.
Qed.

Ltac split_guards :=
  repeat match goal with
         | H : (_ || _) = false |- _ => apply orb_false_elim in H; destruct H
         end.

Lemma step_economy (op : Op) (state : GameState) :
  wellBehaved op -> economyInvariant state -> economyInvariant (step op state).
Proof.
  intros Hop Hinv. pose proof Hinv as [(Hc & Hg & Hs) Hz Hcur Hm Hw Ha Hr Hoc Hog].
  destruct op; cbn [applyOp wellBehaved] in *;
    try exact Hinv; try (now apply attack_economy); try apply initial_economy;
    unfold_updaters; unfold addItem; break_guards; split_guards; try exact Hinv;
    try congruence;
    repeat match goal with H : _ /\ _ |- _ => destruct H end;
    (constructor; [unfold countersNonneg; split_all | ..]); cbn;
    eauto 6 using nonnegPrices_find with nonneg.
Qed.

End Economy.

Section Counters.

Variable calculateResearchCost : number -> number.
Variable getChestRarityWeights : number -> list number.
Variable initializeAchievements : list Achievement.
Variable initializePlayerTags : list PlayerTag.

Local Abbreviation step :=
  (applyOp calculateResearchCost getChestRarityWeights
     initializeAchievements initializePlayerTags).
Local Abbreviation initial :=
  (createInitialGameState initializeAchievements initializePlayerTags).
Local Abbreviation states :=
  (trace calculateResearchCost getChestRarityWeights
     initializeAchievements initializePlayerTags).

Lemma trace_economy (ops : list Op) (state : GameState) :
  Forall wellBehaved ops -> economyInvariant state ->
  Forall economyInvariant (states ops state).
Proof.
  intros Hops. revert state. induction Hops as [| op ops Hop Hops IH]; intros state Hinv;
    cbn [trace]; constructor.
  - now apply step_economy.
  - apply IH. now apply step_economy.
Qed.

(** C1, as amended.  From the initial state, along every sequence of
    public operations in which [addCoins], [addGems] and
    [exchangeShinyGems] are given amounts that are not negative (and in
    which [Math.random()] and the sell prices of generated items are not
    negative), [coins], [gems] and [shinyGems] do not compare below zero
    after any operation. *)
Theorem counters_never_negative (now : Date) (ops : list Op) :
  Forall wellBehaved ops ->
  Forall countersNonneg (states ops (initial now)).
Proof.
  intros Hops.
  eapply List.Forall_impl; [| exact (trace_economy ops _ Hops (initial_economy _ _ now))].
  intros state Hinv. apply Hinv.
Qed.

End Counters.

Lemma counters_never_negative_witness :
  Forall wellBehaved Sample.deposits
  /\ Forall countersNonneg
       (trace Sample.researchCost Sample.chestWeights [] [] Sample.deposits Sample.fresh).
Proof.
  assert (Hops : Forall wellBehaved Sample.deposits) by (repeat constructor).
  split; [exact Hops |].
  exact (counters_never_negative Sample.researchCost Sample.chestWeights [] [] #0
           Sample.deposits Hops).
Defined.

(** C1 as stated fails: a negative amount drives a counter below zero.
    From the initial state, [addCoins(-101)] leaves -1 coins,
    [addGems(-1)] leaves -1 gems, and [exchangeShinyGems(-5)] passes its
    guard ([0 < -5] is false) and leaves -50 gems. *)
Lemma negative_amount_breaks_counters :
  ~ countersNonneg (Sample.step (OpAddCoins #(-101)) Sample.fresh)
  /\ coins (Sample.step (OpAddCoins #(-101)) Sample.fresh) = #(-1)
  /\ ~ countersNonneg (Sample.step (OpAddGems #(-1)) Sample.fresh)
  /\ ~ countersNonneg (Sample.step (OpExchangeShinyGems #(-5)) Sample.fresh)
  /\ gems (Sample.step (OpExchangeShinyGems #(-5)) Sample.fresh) = #(-50).
Proof.
  unfold countersNonneg, JS.nonneg. split_all;
    try (vm_compute; reflexivity);
    intros (Hc & Hg & Hs); vm_compute in Hc, Hg; discriminate.
Qed.


(** * The player's health *)

Import RoundFacts.

Lemma maxHp_canonical : canonical maxHpMantissa maxHpExponent.
Proof. split; [reflexivity | unfold JS.emax, JS.prec, maxHpExponent; lia]. Qed.

Lemma below_maxHp : below #100 (Zpos maxHpMantissa) maxHpExponent.
Proof. apply vle_refl. Qed.

Lemma below_one : below #1 (Zpos maxHpMantissa) maxHpExponent.
Proof.
  change (vle 4503599627370496 (-52) (Zpos maxHpMantissa) maxHpExponent).
  apply (vle_intro (-52)); unfold maxHpExponent; try lia.
  apply Z.leb_le. reflexivity.
Qed.

Lemma fraction_085 : fraction 7656119366529843 (-53).
Proof. repeat split; apply Z.leb_le; reflexivity. Qed.

Lemma fraction_06 : fraction 5404319552844595 (-53).
Proof. repeat split; apply Z.leb_le; reflexivity. Qed.

Lemma healthy_within (state : GameState) : healthInvariant state -> hpWithinMax state.
Proof.
  intros [[Hmax Hhp _] _]. unfold hpWithinMax. rewrite Hmax.
  exact (below_leb _ _ _ Hhp).
Qed.

(** ** The blows of the enemy *)

Lemma enemyDamage_positive (enemy : Enemy.t) (state : GameState) :
  JS.isFinite (Enemy.atk enemy) = true ->
  JS.isNaN (PlayerStats.def (playerStats state)) = false ->
  positive_or_zero (enemyDamage enemy state).
Proof.
  intros Hatk Hdef. unfold enemyDamage.
  assert (Hd : positive_or_zero
                 (JS.max #1 (Enemy.atk enemy - PlayerStats.def (playerStats state))))
    by now apply max_one_positive, sub_not_nan.
  destruct (SkillEffects.lightningChainActive _); [| exact Hd].
  apply floor_positive.
  replace (JS.dec 11 1) with (S754_finite false 4953959590107546 (-52)) by reflexivity.
  now apply mul_positive.
Qed.

Lemma exchange_health (hit : bool) (category : option string) (enemy : Enemy.t)
    (state : GameState) :
  currentEnemy state = Some enemy ->
  healthInvariant state -> healthInvariant (exchange hit category enemy state).
Proof.
  intros Hcur [[Hmax Hhp Hdef] Henemy]. specialize (Henemy enemy Hcur).
  unfold exchange, countQuestion. destruct hit.
  - unfold playerAttacks. constructor; cbn; [now constructor |].
    now intros ? [= <-].
  - unfold enemyAttacks. destruct (dodges state); constructor; cbn;
      try (now constructor); try (intros ? Heq; rewrite Hcur in Heq; now injection Heq as <-).
    constructor; cbn; [exact Hmax | | exact Hdef].
    apply max_sub_below; [exact maxHp_canonical | exact Hhp |].
    now apply enemyDamage_positive.
Qed.

Lemma victoryCheck_health (state : GameState) :
  healthInvariant state -> healthInvariant (victoryCheck state).
Proof.
  intros Hinv. pose proof Hinv as [Hstats Henemy]. unfold victoryCheck.
  destruct (currentEnemy state) as [enemy |]; [| exact Hinv].
  destruct (Enemy.hp enemy <=? #0); [| exact Hinv].
  constructor; cbn; [exact Hstats | discriminate].
Qed.

Lemma defeatCheck_health (state : GameState) :
  healthInvariant state -> healthInvariant (defeatCheck state).
Proof.
  intros Hinv. pose proof Hinv as [[Hmax Hhp Hdef] Henemy]. unfold defeatCheck.
  destruct (_ <=? _); [| exact Hinv].
  destruct (defeatBranch state); constructor; cbn; try exact Henemy; try discriminate.
  - constructor; cbn; [exact Hmax | exact below_one | exact Hdef].
  - constructor; cbn; [exact Hmax | rewrite Hmax; exact below_maxHp | exact Hdef].
  - now constructor.
Qed.

Lemma attack_health (hit : bool) (category : option string) (state : GameState) :
  healthInvariant state -> healthInvariant (attack hit category state).
Proof.
  intros Hinv. unfold attack. destruct (currentEnemy state) as [enemy |] eqn:Hcur;
    [| exact Hinv].
  now apply defeatCheck_health, victoryCheck_health, exchange_health.
Qed.

(** ** The adventure skills *)

Lemma reduced_hp_below (p : PlayerStats.t) :
  healthyStats p ->
  below (JS.floor (PlayerStats.hp p * JS.dec 6 1)) (Zpos maxHpMantissa) maxHpExponent
  /\ below (JS.floor (PlayerStats.hp p * JS.dec 85 2)) (Zpos maxHpMantissa) maxHpExponent.
Proof.
  intros [_ Hhp _].
  replace (JS.dec 6 1) with (S754_finite false 5404319552844595 (-53)) by reflexivity.
  replace (JS.dec 85 2) with (S754_finite false 7656119366529843 (-53)) by reflexivity.
  split; apply floor_below, mul_below;
    auto using maxHp_canonical, fraction_06, fraction_085.
Qed.

Lemma scaled_def_number (p : PlayerStats.t) :
  healthyStats p ->
  JS.isNaN (PlayerStats.def p * #2) = false
  /\ JS.isNaN (JS.floor (PlayerStats.def p * JS.dec 6 1)) = false.
Proof.
  intros [_ _ Hdef].
  replace #2 with (S754_finite false 4503599627370496 (-51)) by reflexivity.
  replace (JS.dec 6 1) with (S754_finite false 5404319552844595 (-53)) by reflexivity.
  split; [| apply floor_not_nan]; now apply mul_not_nan.
Qed.

Lemma reduceStat_health (st : Stat) (p : PlayerStats.t) :
  healthyStats p -> healthyStats (reduceStat st p).
Proof.
  intros Hp. pose proof Hp as [Hmax Hhp Hdef].
  destruct (reduced_hp_below p Hp) as [Hred _].
  destruct (scaled_def_number p Hp) as [_ Hsc].
  destruct st; constructor; cbn; assumption.
Qed.

Lemma applySkill_health (ty : SkillType) (r1 r2 r3 : number)
    (stats : PlayerStats.t) (effects : SkillEffects.t) :
  match ty, statToDouble r1 r2 with ramp, StatHp => true | _, _ => false end = false ->
  healthyStats stats -> healthyStats (fst (applySkill ty r1 r2 r3 stats effects)).
Proof.
  intros Hop Hp. pose proof Hp as [Hmax Hhp Hdef].
  destruct (reduced_hp_below stats Hp) as [_ Hrisk].
  destruct (scaled_def_number stats Hp) as [Hdbl _].
  destruct ty; cbn [applySkill fst]; try exact Hp.
  - constructor; cbn; assumption.
  - apply reduceStat_health.
    destruct (statToDouble r1 r2); [| | discriminate]; constructor; cbn; assumption.
Qed.

Lemma selectAdventureSkill_health (skill : AdventureSkill.t)
    (generateEnemy : number -> Enemy.t) (r1 r2 r3 : number) (state : GameState) :
  doublesHp (OpSelectAdventureSkill skill generateEnemy r1 r2 r3) = false ->
  finiteEnemies (OpSelectAdventureSkill skill generateEnemy r1 r2 r3) ->
  healthInvariant state ->
  healthInvariant (selectAdventureSkill skill generateEnemy r1 r2 r3 state).
Proof.
  cbn [doublesHp finiteEnemies]. intros Hop Hgen [Hstats _]. unfold selectAdventureSkill.
  pose proof (applySkill_health (AdventureSkill.type skill) r1 r2 r3 (playerStats state)
                (AdventureSkills.skillEffects (adventureSkills state)) Hop Hstats) as Hs.
  destruct (applySkill _ _ _ _ _ _) as [stats effects]. cbn [fst] in Hs.
  constructor; cbn; [exact Hs |]. intros ? [= <-]. apply Hgen.
Qed.

(** ** Every operation *)

Section Health.

Variable calculateResearchCost : number -> number.
Variable getChestRarityWeights : number -> list number.
Variable initializeAchievements : list Achievement.
Variable initializePlayerTags : list PlayerTag.

Local Abbreviation step :=
  (applyOp calculateResearchCost getChestRarityWeights
     initializeAchievements initializePlayerTags).
Local Abbreviation initial :=
  (createInitialGameState initializeAchievements initializePlayerTags).
Local Abbreviation states :=
  (trace calculateResearchCost getChestRarityWeights
     initializeAchievements initializePlayerTags).

Lemma initial_health (now : Date) : healthInvariant (initial now).
Proof.
  constructor; cbn; [| discriminate].
  constructor; cbn; [reflexivity | exact below_maxHp | reflexivity].
Qed.

Lemma step_health (op : Op) (state : GameState) :
  doublesHp op = false -> finiteEnemies op ->
  healthInvariant state -> healthInvariant (step op state).
Proof.
  intros Hdbl Hgen Hinv. pose proof Hinv as [Hstats Henemy].
  destruct op; cbn [applyOp];
    try exact Hinv; try (now apply attack_health); try apply initial_health;
    try (now apply selectAdventureSkill_health);
    cbn [finiteEnemies] in Hgen;
    unfold_updaters; unfold addItem; break_guards; try exact Hinv;
    constructor; cbn; try exact Hstats; try exact Henemy.
  intros ? [= <-]. apply Hgen.
Qed.

Lemma trace_health (ops : list Op) (state : GameState) :
  none doublesHp ops -> Forall finiteEnemies ops -> healthInvariant state ->
  Forall healthInvariant (states ops state).
Proof.
  unfold none. intros Hdbl Hgen. revert state Hdbl.
  induction Hgen as [| op ops Hop Hgen IH]; intros state Hdbl Hinv;
    cbn [trace]; constructor; cbn [forallb] in Hdbl;
    apply andb_prop in Hdbl as [Hd Hdbl]; apply negb_true_iff in Hd.
  - now apply step_health.
  - apply IH; [exact Hdbl |]. now apply step_health.
Qed.

(** C6, as amended.  From the initial state, along every sequence of
    public operations in which [ramp] never draws the health as the stat it
    doubles (and in which generated enemies have a finite attack),
    [playerStats.hp <= playerStats.maxHp] holds in the initial state and
    after every operation; [risker], the reductions of [ramp], the blows of
    the enemy, the metal shield and the revival all keep the health within
    its maximum. *)
Theorem hp_within_maxHp (now : Date) (ops : list Op) :
  none doublesHp ops -> Forall finiteEnemies ops ->
  hpWithinMax (initial now) /\ Forall hpWithinMax (states ops (initial now)).
Proof.
  intros Hdbl Hgen. split; [apply healthy_within, initial_health |].
  eapply List.Forall_impl; [| exact (trace_health ops _ Hdbl Hgen (initial_health now))].
  exact healthy_within.
Qed.

End Health.

Lemma hp_within_maxHp_witness :
  none doublesHp Sample.venture /\ Forall finiteEnemies Sample.venture
  /\ hpWithinMax Sample.fresh
  /\ Forall hpWithinMax
       (trace Sample.researchCost Sample.chestWeights [] [] Sample.venture Sample.fresh).
Proof.
  assert (Hdbl : none doublesHp Sample.venture) by reflexivity.
  assert (Hgen : Forall finiteEnemies Sample.venture) by (repeat constructor).
  split; [exact Hdbl |]. split; [exact Hgen |].
  exact (hp_within_maxHp Sample.researchCost Sample.chestWeights [] [] #0
           Sample.venture Hdbl Hgen).
Defined.

(** C6 as stated fails: [ramp] doubles the health without touching its
    maximum.  From the initial state (hp 100, maxHp 100), selecting [ramp]
    with draws that pick the health leaves hp 200 and maxHp 100. *)
Lemma ramp_doubles_hp_above_maxHp :
  PlayerStats.hp (playerStats Sample.ramped) = #200
  /\ PlayerStats.maxHp (playerStats Sample.ramped) = #100
  /\ (PlayerStats.hp (playerStats Sample.ramped)
      <=? PlayerStats.maxHp (playerStats Sample.ramped)) = false
  /\ ~ hpWithinMax Sample.ramped.
Proof.
  split_all; try (vm_compute; reflexivity).
  unfold hpWithinMax. intros H. vm_compute in H. discriminate.
Qed.


(** * The inventory: selling and upgrading *)

Lemma hasId_other (current : option Item.t) (id id' : string) :
  hasId current id' = true -> hasId current id = false -> id' <> id.
Proof. intros Hin Hout ->. congruence. Qed.

(** Two filters by complementary tests split a list. *)
Lemma filter_split {A : Type} (keep sell : A -> bool) (xs : list A) :
  (forall x, keep x = negb (sell x)) ->
  Permutation (List.filter keep xs ++ List.filter sell xs) xs.
Proof.
  intros Hc. induction xs as [| x xs IH]; cbn [List.filter]; [constructor |].
  rewrite (Hc x). destruct (sell x); cbn [negb].
  - symmetry. apply Permutation_cons_app. now symmetry.
  - cbn. now constructor.
Qed.

(** X1.  [sellWeapon] on an id that is not in the inventory, or that is the
    id of the equipped weapon, changes nothing.  Otherwise it pays the sell
    price of the first weapon with that id, removes every weapon with that
    id (no weapon with the id can be found afterwards, the others stay),
    counts one sale and touches neither the armor nor the equipped weapon.
    [sellArmor] does the same on the armor. *)
Theorem sellWeapon_sellArmor_effect (state : GameState) (id : string) :
  let inv := inventory state in
  let sold := sellWeapon id state in
  let soldArmor := sellArmor id state in
  match findItem id (Inventory.weapons inv) with
  | None => sold = state
  | Some weapon =>
      if hasId (Inventory.currentWeapon inv) id then sold = state
      else
        coins sold = coins state + Item.sellPrice weapon
        /\ findItem id (Inventory.weapons (inventory sold)) = None
        /\ (forall w, In w (Inventory.weapons (inventory sold))
                      <-> In w (Inventory.weapons inv) /\ Item.id w <> id)
        /\ Inventory.armor (inventory sold) = Inventory.armor inv
        /\ Inventory.currentWeapon (inventory sold) = Inventory.currentWeapon inv
        /\ Statistics.itemsSold (statistics sold)
           = Statistics.itemsSold (statistics state) + #1
  end
  /\ match findItem id (Inventory.armor inv) with
     | None => soldArmor = state
     | Some armor =>
         if hasId (Inventory.currentArmor inv) id then soldArmor = state
         else
           coins soldArmor = coins state + Item.sellPrice armor
           /\ findItem id (Inventory.armor (inventory soldArmor)) = None
           /\ (forall a, In a (Inventory.armor (inventory soldArmor))
                         <-> In a (Inventory.armor inv) /\ Item.id a <> id)
           /\ Inventory.weapons (inventory soldArmor) = Inventory.weapons inv
           /\ Inventory.currentArmor (inventory soldArmor) = Inventory.currentArmor inv
           /\ Statistics.itemsSold (statistics soldArmor)
              = Statistics.itemsSold (statistics state) + #1
     end.
Proof.
  cbv zeta. unfold sellWeapon, sellArmor. split.
  - destruct (findItem id (Inventory.weapons _)) as [weapon |]; [| reflexivity].
    destruct (hasId _ id); [reflexivity |]. cbn. split_all; try reflexivity.
    + apply findItem_removeItem.
    + intros w. apply removeItem_In.
  - destruct (findItem id (Inventory.armor _)) as [armor |]; [| reflexivity].
    destruct (hasId _ id); [reflexivity |]. cbn. split_all; try reflexivity.
    + apply findItem_removeItem.
    + intros a. apply removeItem_In.
Qed.

(** X2.  Selling never takes the equipped item away.  A weapon that bears
    the id of the equipped weapon is still in the inventory after
    [sellWeapon] of any id and after [bulkSell] of any list of ids; an
    armor that bears the id of the equipped armor is still there after
    [sellArmor] and [bulkSell]; and none of the four changes what is
    equipped, in any state. *)
Theorem selling_spares_equipped
    (state : GameState) (id : string) (ids : list string) (w a : Item.t) :
  let inv := inventory state in
  (hasId (Inventory.currentWeapon inv) (Item.id w) = true ->
   In w (Inventory.weapons inv) ->
   In w (Inventory.weapons (inventory (sellWeapon id state)))
   /\ In w (Inventory.weapons (inventory (bulkSell ids KWeapon state))))
  /\ (hasId (Inventory.currentArmor inv) (Item.id a) = true ->
      In a (Inventory.armor inv) ->
      In a (Inventory.armor (inventory (sellArmor id state)))
      /\ In a (Inventory.armor (inventory (bulkSell ids KArmor state))))
  /\ (forall sold,
        In sold [sellWeapon id state; sellArmor id state;
                 bulkSell ids KWeapon state; bulkSell ids KArmor state] ->
        Inventory.currentWeapon (inventory sold) = Inventory.currentWeapon inv
        /\ Inventory.currentArmor (inventory sold) = Inventory.currentArmor inv).
Proof.
  cbv zeta. split_all.
  - intros Hw Hinw. unfold sellWeapon, bulkSell. split.
    + destruct (findItem id (Inventory.weapons _)); [| exact Hinw].
      destruct (hasId _ id) eqn:Hid; [exact Hinw |]. cbn.
      apply removeItem_In. split; [exact Hinw | exact (hasId_other _ _ _ Hw Hid)].
    + cbn. apply filter_In. split; [exact Hinw |]. rewrite Hw. apply orb_true_r.
  - intros Ha Hina. unfold sellArmor, bulkSell. split.
    + destruct (findItem id (Inventory.armor _)); [| exact Hina].
      destruct (hasId _ id) eqn:Hid; [exact Hina |]. cbn.
      apply removeItem_In. split; [exact Hina | exact (hasId_other _ _ _ Ha Hid)].
    + cbn. apply filter_In. split; [exact Hina |]. rewrite Ha. apply orb_true_r.
  - intros sold [<- | [<- | [<- | [<- | []]]]]; unfold sellWeapon, sellArmor, bulkSell;
      break_guards; now split.
Qed.

(** A player with a weapon in hand and no armor. *)
Lemma selling_spares_equipped_witness :
  hasId (Inventory.currentWeapon (inventory Sample.duelist)) (Item.id Sample.sword) = true
  /\ Inventory.currentArmor (inventory Sample.duelist) = None
  /\ In Sample.sword (Inventory.weapons (inventory Sample.duelist))
  /\ In Sample.sword (Inventory.weapons (inventory (sellWeapon "w1" Sample.duelist)))
  /\ In Sample.sword
       (Inventory.weapons (inventory (bulkSell ["w1"; "a1"]%string KWeapon Sample.duelist))).
Proof.
  assert (Hw : hasId (Inventory.currentWeapon (inventory Sample.duelist))
                 (Item.id Sample.sword) = true) by reflexivity.
  assert (Hinw : In Sample.sword (Inventory.weapons (inventory Sample.duelist)))
    by (left; reflexivity).
  destruct (selling_spares_equipped Sample.duelist "w1" ["w1"; "a1"]%string
              Sample.sword Sample.plate) as (Hweapon & _).
  destruct (Hweapon Hw Hinw) as [H1 H2].
  split; [exact Hw |]. split; [reflexivity |]. split; [exact Hinw |].
  split; [exact H1 | exact H2].
Defined.

(** X3.  [bulkSell] splits the weapons in two: the listed ones that are not
    equipped are sold, all the others are kept, so that the weapons kept
    and the weapons sold are together the weapons there were; the coins
    grow by the sum of the sell prices of the weapons sold, taken in
    inventory order.  Unlike [sellWeapon], it does not count the sales in
    the statistics.  The same holds of the armor. *)
Theorem bulkSell_splits_inventory (state : GameState) (ids : list string) :
  let inv := inventory state in
  let soldWeapons :=
    List.filter
      (fun w => includes ids (Item.id w)
                && negb (hasId (Inventory.currentWeapon inv) (Item.id w)))
      (Inventory.weapons inv) in
  let soldArmor :=
    List.filter
      (fun a => includes ids (Item.id a)
                && negb (hasId (Inventory.currentArmor inv) (Item.id a)))
      (Inventory.armor inv) in
  let afterW := bulkSell ids KWeapon state in
  let afterA := bulkSell ids KArmor state in
  Permutation (Inventory.weapons (inventory afterW) ++ soldWeapons) (Inventory.weapons inv)
  /\ coins afterW = coins state + sumOf Item.sellPrice soldWeapons
  /\ Inventory.armor (inventory afterW) = Inventory.armor inv
  /\ statistics afterW = statistics state
  /\ Permutation (Inventory.armor (inventory afterA) ++ soldArmor) (Inventory.armor inv)
  /\ coins afterA = coins state + sumOf Item.sellPrice soldArmor
  /\ Inventory.weapons (inventory afterA) = Inventory.weapons inv
  /\ statistics afterA = statistics state.
Proof.
  cbv zeta. unfold bulkSell. cbn. split_all; try reflexivity.
  - apply filter_split. intros w. now rewrite negb_andb, negb_involutive.
  - apply filter_split. intros a. now rewrite negb_andb, negb_involutive.
Qed.

(** * Upgrades *)

Lemma levelUp_id (w : Item.t) : Item.id (levelUp w) = Item.id w.
Proof. reflexivity. Qed.

Lemma relicLevelUp_id (r : Relic.t) : Relic.id (relicLevelUp r) = Relic.id r.
Proof. reflexivity. Qed.

Lemma map_levelUp_ids (p : Item.t -> bool) (items : list Item.t) :
  List.map Item.id (List.map (fun w => if p w then levelUp w else w) items)
  = List.map Item.id items.
Proof.
  rewrite List.map_map. apply List.map_ext. intros w. now destruct (p w).
Qed.

(** X4.  No upgrade adds, removes, reorders or renames an item: after
    [upgradeWeapon], [upgradeArmor], [bulkUpgrade] and [upgradeRelic],
    whether they succeed or not, the ids of the weapons, of the armor, of
    the relics and of the equipped relics are, in order, what they were. *)
Theorem upgrades_keep_the_ids
    (state : GameState) (id : string) (ids : list string) (type : ItemKind) :
  let weaponIds s := List.map Item.id (Inventory.weapons (inventory s)) in
  let armorIds s := List.map Item.id (Inventory.armor (inventory s)) in
  let relicIds s := List.map Relic.id (Inventory.relics (inventory s)) in
  let equippedIds s := List.map Relic.id (Inventory.equippedRelics (inventory s)) in
  let unchanged s :=
    weaponIds s = weaponIds state /\ armorIds s = armorIds state
    /\ relicIds s = relicIds state /\ equippedIds s = equippedIds state in
  unchanged (upgradeWeapon id state)
  /\ unchanged (upgradeArmor id state)
  /\ unchanged (bulkUpgrade ids type state)
  /\ unchanged (upgradeRelic id state).
Proof.
  cbv zeta. unfold upgradeWeapon, upgradeArmor, bulkUpgrade, upgradeRelic. split_all;
    break_guards; cbn; try reflexivity; try apply map_levelUp_ids.
  - rewrite List.map_map. apply List.map_ext. intros r. now destruct (String.eqb _ _).
  - rewrite List.map_map. apply List.map_ext. intros r.
    destruct (String.eqb (Relic.id r) id) eqn:Hid; [| reflexivity].
    apply String.eqb_eq in Hid.
    destruct (findRelic id (List.map _ _)) as [r' |] eqn:Hfind'; [| reflexivity]. cbn.
    apply findRelic_id in Hfind'. congruence.
Qed.

(** X5.  [upgradeWeapon] refreshes the equipped copy and counts the upgrade;
    [bulkUpgrade] does neither.  In any state and whatever it upgrades,
    [bulkUpgrade] leaves the equipped weapon, the equipped armor and the
    statistics as they were, while a listed item it can pay for is
    levelled up in the owned list.  [upgradeWeapon], when the equipped
    weapon bears the upgraded id, equips the upgraded first weapon of that
    id and adds one to [itemsUpgraded]. *)
Theorem bulkUpgrade_leaves_equipped_copy
    (state : GameState) (id : string) (ids : list string) (type : ItemKind)
    (w : Item.t) :
  let inv := inventory state in
  let listed :=
    List.filter (fun x => includes ids (Item.id x)) (Inventory.weapons inv) in
  (* bulkUpgrade, in any state *)
  Inventory.currentWeapon (inventory (bulkUpgrade ids type state))
  = Inventory.currentWeapon inv
  /\ Inventory.currentArmor (inventory (bulkUpgrade ids type state))
     = Inventory.currentArmor inv
  /\ statistics (bulkUpgrade ids type state) = statistics state
  (* while the owned copy is levelled up *)
  /\ ((gems state <? sumOf Item.upgradeCost listed) = false ->
      In w (Inventory.weapons inv) -> includes ids (Item.id w) = true ->
      In (levelUp w) (Inventory.weapons (inventory (bulkUpgrade ids KWeapon state))))
  (* upgradeWeapon of the equipped id *)
  /\ (findItem id (Inventory.weapons inv) = Some w ->
      (gems state <? Item.upgradeCost w) = false ->
      hasId (Inventory.currentWeapon inv) id = true ->
      Inventory.currentWeapon (inventory (upgradeWeapon id state)) = Some (levelUp w)
      /\ Statistics.itemsUpgraded (statistics (upgradeWeapon id state))
         = Statistics.itemsUpgraded (statistics state) + #1).
Proof.
  cbv zeta. split_all.
  - unfold bulkUpgrade. break_guards; reflexivity.
  - unfold bulkUpgrade. break_guards; reflexivity.
  - unfold bulkUpgrade. break_guards; reflexivity.
  - intros Hgems Hin Hlisted. unfold bulkUpgrade. rewrite Hgems. cbn.
    apply in_map_iff. exists w. now rewrite Hlisted.
  - intros Hfind Hgems Hid. unfold upgradeWeapon. rewrite Hfind, Hgems, Hid.
    rewrite (findItem_map id levelUp _ levelUp_id), Hfind. now cbn.
Qed.

Lemma bulkUpgrade_leaves_equipped_copy_witness :
  findItem "w1" (Inventory.weapons (inventory Sample.armed)) = Some Sample.sword
  /\ Inventory.currentWeapon (inventory (upgradeWeapon "w1" Sample.armed))
     = Some (levelUp Sample.sword)
  /\ Inventory.currentWeapon (inventory (bulkUpgrade ["w1"]%string KWeapon Sample.armed))
     = Some Sample.sword
  /\ In (levelUp Sample.sword)
       (Inventory.weapons (inventory (bulkUpgrade ["w1"]%string KWeapon Sample.armed))).
Proof.
  assert (Hfind : findItem "w1" (Inventory.weapons (inventory Sample.armed))
                  = Some Sample.sword) by reflexivity.
  destruct (bulkUpgrade_leaves_equipped_copy Sample.armed "w1" ["w1"]%string KWeapon
              Sample.sword) as (Hcur & _ & _ & Hown & Hup).
  split; [exact Hfind |]. split; [exact (proj1 (Hup Hfind eq_refl eq_refl)) |].
  split; [exact Hcur |]. apply Hown; [reflexivity | left; reflexivity | reflexivity].
Defined.


(** * What a fight leaves alone *)

Lemma untouched_refl (state : GameState) : untouched state state.
Proof. now constructor. Qed.

Lemma untouched_trans (a b c : GameState) :
  untouched a b -> untouched b c -> untouched a c.
Proof. intros [] []. constructor; congruence. Qed.

Lemma exchange_untouched (hit : bool) (category : option string) (enemy : Enemy.t)
    (state : GameState) :
  untouched state (exchange hit category enemy state).
Proof.
  unfold exchange, countQuestion, playerAttacks, enemyAttacks, recordAnswer.
  destruct hit; break_guards; now constructor.
Qed.

Lemma victoryCheck_untouched (state : GameState) : untouched state (victoryCheck state).
Proof. unfold victoryCheck. break_guards; now constructor. Qed.

Lemma defeatCheck_untouched (state : GameState) : untouched state (defeatCheck state).
Proof.
  unfold defeatCheck, metalShield, freeRevival, gameOver. break_guards; now constructor.
Qed.

(** [attack] only touches the fighters, the log, the streak, the rewards
    and the statistics of the fight. *)
Lemma attack_untouched (hit : bool) (category : option string) (state : GameState) :
  untouched state (attack hit category state).
Proof.
  unfold attack. destruct (currentEnemy state) as [enemy |]; [| apply untouched_refl].
  eapply untouched_trans; [apply exchange_untouched |].
  eapply untouched_trans; [apply victoryCheck_untouched | apply defeatCheck_untouched].
Qed.

Lemma filter_length_le {A : Type} (p : A -> bool) (xs : list A) :
  (length (List.filter p xs) <= length xs)%nat.
Proof.
  induction xs as [| x xs IH]; cbn [List.filter]; [lia |].
  destruct (p x); cbn [length]; lia.
Qed.

Section Lifetime.

Variable calculateResearchCost : number -> number.
Variable getChestRarityWeights : number -> list number.
Variable initializeAchievements : list Achievement.
Variable initializePlayerTags : list PlayerTag.

Local Abbreviation step :=
  (applyOp calculateResearchCost getChestRarityWeights
     initializeAchievements initializePlayerTags).
Local Abbreviation initial :=
  (createInitialGameState initializeAchievements initializePlayerTags).
Local Abbreviation states :=
  (trace calculateResearchCost getChestRarityWeights
     initializeAchievements initializePlayerTags).

(** A property every operation of a sequence keeps holds all along. *)
Lemma trace_invariant (P : GameState -> Prop) (allowed : Op -> Prop) :
  (forall op state, allowed op -> P state -> P (step op state)) ->
  forall ops state, Forall allowed ops -> P state -> Forall P (states ops state).
Proof.
  intros Hstep ops state Hops. revert state.
  induction Hops as [| op ops Hop Hops IH]; intros state HP; cbn [trace]; constructor.
  - now apply Hstep.
  - apply IH. now apply Hstep.
Qed.

Lemma trace_invariant_all (P : GameState -> Prop) :
  (forall op state, P state -> P (step op state)) ->
  forall ops state, P state -> Forall P (states ops state).
Proof.
  intros Hstep ops state HP.
  apply (trace_invariant P (fun _ => True)); auto.
  apply List.Forall_forall. trivial.
Qed.

(** ** Relics *)

Lemma step_relicsCoherent (op : Op) (state : GameState) :
  relicsCoherent state -> relicsCoherent (step op state).
Proof.
  intros Hinv. pose proof Hinv as [Hlen Hown].
  destruct op; cbn [applyOp]; try exact Hinv;
    try (unfold relicsCoherent;
         match goal with
         | |- context [attack ?h ?c state] =>
             rewrite (same_inventory _ _ (attack_untouched h c state))
         end; exact Hinv);
    try (split; cbn; [lia | intros ? []]);
    unfold_updaters; unfold addItem; break_guards; try exact Hinv;
    unfold relicsCoherent; cbn; try exact Hinv.
  - (* purchaseRelic *)
    apply orb_false_elim in Heqb as [_ Hfull]. apply Nat.leb_gt in Hfull.
    split; [rewrite length_app; cbn; lia |].
    intros r Hr. apply in_app_iff in Hr as [Hr | Hr]; apply in_app_iff; auto.
  - (* upgradeRelic *)
    split; [now rewrite length_map |].
    intros r Hr. apply in_map_iff in Hr as (r0 & <- & Hr0). specialize (Hown r0 Hr0).
    destruct (String.eqb (Relic.id r0) relicId) eqn:Hid.
    + destruct (findRelic relicId (List.map _ _)) as [r' |] eqn:Hfind; cbn.
      * unfold findRelic in Hfind. now apply find_some in Hfind as [Hin _].
      * rewrite (findRelic_map relicId relicLevelUp _ relicLevelUp_id) in Hfind.
        match goal with H : findRelic _ (Inventory.relics _) = Some _ |- _ =>
          rewrite H in Hfind end.
        discriminate.
    + apply in_map_iff. exists r0. now rewrite Hid.
  - (* equipRelic *)
    apply orb_false_elim in Heqb as [Hfull _]. apply Nat.leb_gt in Hfull.
    split; [rewrite length_app; cbn; lia |].
    intros r Hr. apply in_app_iff in Hr as [Hr | [<- | []]]; [auto |].
    match goal with H : findRelic _ _ = Some _ |- _ => rename H into Hf end.
    unfold findRelic in Hf. now apply find_some in Hf as [Hin _].
  - (* unequipRelic *)
    split.
    + pose proof (filter_length_le
                    (fun r => negb (String.eqb (Relic.id r) relicId))
                    (Inventory.equippedRelics (inventory state))).
      unfold removeRelic. lia.
    + intros r Hr. apply removeRelic_In in Hr as [Hr _]. auto.
  - (* sellRelic *)
    split.
    + pose proof (filter_length_le
                    (fun r => negb (String.eqb (Relic.id r) relicId))
                    (Inventory.equippedRelics (inventory state))).
      unfold removeRelic. lia.
    + intros r Hr. apply removeRelic_In in Hr as [Hr Hne].
      apply removeRelic_In. auto.
Qed.

(** X6.  Whatever is done, at most five relics are equipped and every
    equipped relic is owned: from a state where this holds it holds after
    every operation of every sequence.  [purchaseRelic] and [equipRelic]
    refuse a sixth relic, [upgradeRelic] keeps the equipped copy in step
    with the owned one, and [sellRelic] takes the relic off as it sells
    it. *)
Theorem equipped_relics_owned_and_at_most_five (ops : list Op) (state : GameState) :
  relicsCoherent state -> Forall relicsCoherent (states ops state).
Proof. apply trace_invariant_all. intros op s. apply step_relicsCoherent. Qed.

(** ** A fresh game *)

Lemma initial_unstocked (now : Date) : unstocked (initial now).
Proof. now constructor. Qed.

Lemma step_unstocked (op : Op) (state : GameState) :
  unstocked state -> unstocked (step op state).
Proof.
  intros Hinv. pose proof Hinv as [Hm Hr He Hd Hc Hg].
  destruct op; cbn [applyOp]; try exact Hinv; try apply initial_unstocked;
    try (match goal with
         | |- context [attack ?h ?c state] =>
             destruct (attack_untouched h c state) as [Hi Hy Hdr Hop _ _ _ _ _ _]
         end; constructor; rewrite ?Hi, ?Hy, ?Hdr, ?Hop; assumption);
    unfold_updaters; unfold addItem; break_guards; try exact Hinv;
    try (constructor; cbn; rewrite ?Hr, ?He; trivial); try congruence;
    try (unfold findRelic in *; rewrite ?Hm, ?Hr in *; discriminate).
Qed.

(** X7.  The hook never stocks the market, offers a daily reward or
    credits offline earnings.  In every state reached from the initial
    state the market is empty, no relic is owned or equipped, no daily
    reward is on offer and the offline earnings are zero; there
    [purchaseRelic] and [claimDailyReward] fail, and [upgradeRelic] and
    [equipRelic] change nothing, whatever their arguments. *)
Theorem nothing_to_buy_or_claim_in_a_fresh_game
    (now : Date) (ops : list Op) (relicId : string) (now1 now2 : Date) :
  Forall
    (fun state =>
       unstocked state
       /\ purchaseRelic relicId state = (state, false)
       /\ claimDailyReward now1 now2 state = (state, false)
       /\ upgradeRelic relicId state = state
       /\ equipRelic relicId state = state)
    (initial now :: states ops (initial now)).
Proof.
  assert (Hall : Forall unstocked (initial now :: states ops (initial now))).
  { constructor; [apply initial_unstocked |].
    apply trace_invariant_all; [apply step_unstocked | apply initial_unstocked]. }
  eapply List.Forall_impl; [| exact Hall].
  intros state Hinv. pose proof Hinv as [Hm Hr He Hd Hc Hg]. split; [exact Hinv |].
  unfold purchaseRelic, claimDailyReward, upgradeRelic, equipRelic.
  now rewrite Hm, Hr, Hd.
Qed.

(** ** The garden *)

Lemma step_planted (op : Op) (state : GameState) :
  isReset op = false -> planted state = true -> planted (step op state) = true.
Proof.
  intros Hop Hp. unfold planted in *.
  destruct op; try discriminate; cbn [applyOp]; try exact Hp;
    try (match goal with
         | |- context [attack ?h ?c state] =>
             rewrite (same_gardenOfGrowth _ _ (attack_untouched h c state))
         end; exact Hp);
    unfold_updaters; unfold addItem; break_guards; exact Hp || reflexivity.
Qed.

(** X8.  The seed is planted at most once in a game lifetime.  A
    [plantSeed] that succeeds leaves the garden planted; no operation but
    the reset unplants it; and [plantSeed] fails, changing nothing, in a
    planted garden.  So along a sequence without reset that starts from a
    planted garden, the garden stays planted and every [plantSeed]
    fails. *)
Theorem seed_planted_at_most_once
    (ops : list Op) (state : GameState) (now1 now2 : Date) :
  none isReset ops ->
  (snd (plantSeed now1 now2 state) = true ->
   planted (fst (plantSeed now1 now2 state)) = true
   /\ coins (fst (plantSeed now1 now2 state))
      = coins state - GardenOfGrowth.seedCost (gardenOfGrowth state))
  /\ (planted state = true ->
      Forall (fun s => planted s = true /\ plantSeed now1 now2 s = (s, false))
        (state :: states ops state)).
Proof.
  intros Hops. split.
  - unfold plantSeed, planted. destruct (_ || _); [discriminate |]. now cbn.
  - intros Hp.
    assert (Hall : Forall (fun s => planted s = true) (state :: states ops state)).
    { constructor; [exact Hp |].
      apply (trace_invariant (fun s => planted s = true) (fun op => isReset op = false));
        [apply step_planted | | exact Hp].
      unfold none in Hops. rewrite forallb_forall in Hops.
      apply List.Forall_forall. intros op Hin. apply negb_true_iff. now apply Hops. }
    eapply List.Forall_impl; [| exact Hall].
    intros s Hs. split; [exact Hs |]. unfold plantSeed. unfold planted in Hs.
    now rewrite Hs, orb_true_r.
Qed.

End Lifetime.

Lemma equipped_relics_owned_and_at_most_five_witness :
  relicsCoherent Sample.stocked
  /\ Forall relicsCoherent
       (trace Sample.researchCost Sample.chestWeights [] [] Sample.dealings Sample.stocked).
Proof.
  assert (Hinv : relicsCoherent Sample.stocked).
  { split; [cbn; lia | intros r Hr; exact Hr]. }
  split; [exact Hinv |].
  exact (equipped_relics_owned_and_at_most_five Sample.researchCost Sample.chestWeights
           [] [] Sample.dealings Sample.stocked Hinv).
Defined.

Lemma seed_planted_at_most_once_witness :
  none isReset Sample.gardening
  /\ planted Sample.sown = true
  /\ Forall (fun s => planted s = true /\ plantSeed #1 #2 s = (s, false))
       (Sample.sown
        :: trace Sample.researchCost Sample.chestWeights [] [] Sample.gardening Sample.sown).
Proof.
  assert (Hops : none isReset Sample.gardening) by reflexivity.
  assert (Hp : planted Sample.sown = true) by reflexivity.
  split; [exact Hops |]. split; [exact Hp |].
  exact (proj2 (seed_planted_at_most_once Sample.researchCost Sample.chestWeights [] []
                  Sample.gardening Sample.sown #1 #2 Hops) Hp).
Defined.

(** * Cheats *)

(** X9.  [toggleCheat] flips one flag and nothing else: the flag of the
    cheat it is given is negated, the flags of the other cheats are what
    they were, and so is every other field of the state (putting the old
    cheats back gives the old state).  Hence toggling the same cheat twice
    gives the state back, and toggles of two cheats commute. *)
Theorem toggleCheat_involutive (cheat other : CheatName) (state : GameState) :
  let toggled := toggleCheat cheat state in
  cheatFlag cheat (cheats toggled) = negb (cheatFlag cheat (cheats state))
  /\ (sameCheat cheat other = false ->
      cheatFlag other (cheats toggled) = cheatFlag other (cheats state))
  /\ set_cheats (cheats state) toggled = state
  /\ toggleCheat cheat toggled = state
  /\ toggleCheat cheat (toggleCheat other state)
     = toggleCheat other (toggleCheat cheat state).
Proof.
  cbv zeta. destruct state as [? ? ? ? ? ? ? ? ? ? ? ? ? ? ? ? [ic ig oi]].
  split_all.
  - now destruct cheat.
  - destruct cheat, other; try discriminate; reflexivity.
  - reflexivity.
  - destruct cheat; unfold toggleCheat; cbn; now rewrite negb_involutive.
  - destruct cheat, other; reflexivity.
Qed.


(** * Combat: what holds all along *)

Import SignFacts RoundFacts.

(** ** Comparison of numbers *)

Lemma compare_antisym (x y : number) :
  JS.compare y x = option_map CompOpp (JS.compare x y).
Proof.
  unfold JS.compare.
  destruct x as [sx | [] | | sx mx ex], y as [sy | [] | | sy my ey];
    try reflexivity; try (now destruct sx); try (now destruct sy).
  cbn [option_map]. rewrite (Z.min_comm ey ex). f_equal. apply Z.compare_antisym.
Qed.

Lemma leb_refl (x : number) : positive_or_zero x -> (x <=? x) = true.
Proof.
  unfold JS.leb, JS.compare. destruct x as [s | [] | | [] m e]; try contradiction;
    intros _; try reflexivity.
  now rewrite Z.compare_refl.
Qed.

Lemma leb_zero (x : number) : positive_or_zero x -> (#0 <=? x) = true.
Proof.
  change #0 with (S754_zero false). unfold JS.leb, JS.compare.
  destruct x as [s | [] | | [] m e]; try contradiction; reflexivity.
Qed.

(** [!(x > y)] on numbers that are not NaN is [x <= y]. *)
Lemma not_gtb_leb (x y : number) :
  JS.isNaN x = false -> JS.isNaN y = false -> (x >? y) = false -> (x <=? y) = true.
Proof.
  unfold JS.gtb, JS.ltb, JS.leb. rewrite (compare_antisym x y). intros Hx Hy.
  destruct (JS.compare x y) as [[] |] eqn:Hc; cbn; try reflexivity; try discriminate.
  unfold JS.compare in Hc.
  destruct x as [sx | [] | | sx mx ex], y as [sy | [] | | sy my ey]; discriminate.
Qed.

Lemma positive_not_nan (x : number) : positive_or_zero x -> JS.isNaN x = false.
Proof. destruct x as [s | [] | | [] m e]; try contradiction; reflexivity. Qed.

Lemma add_positive (x y : number) :
  positive_or_zero x -> positive_or_zero y -> positive_or_zero (x + y).
Proof.
  unfold JS.add, SFadd. intros Hx Hy.
  destruct x as [sx | [] | | [] mx ex], y as [sy | [] | | [] my ey];
    try contradiction; try exact I.
  - now destruct sx, sy.
  - apply signed_positive_or_zero; [| apply binary_normalize_not_nan].
    apply binary_normalize_nonneg. cbn [cond_Zopp]. lia.
Qed.

(** ** The state of a combat *)

Lemma exchange_combat (hit : bool) (category : option string) (enemy : Enemy.t)
    (state : GameState) :
  currentEnemy state = Some enemy ->
  combatCoherent state -> combatCoherent (exchange hit category enemy state).
Proof.
  intros Hcur [He Hs]. rewrite Hcur in He.
  unfold exchange, countQuestion, playerAttacks, enemyAttacks.
  destruct hit; [| destruct (dodges state)]; constructor; cbn; rewrite ?Hcur, ?He;
    try reflexivity; discriminate.
Qed.

Lemma victoryCheck_combat (state : GameState) :
  combatCoherent state -> combatCoherent (victoryCheck state).
Proof.
  intros Hinv. unfold victoryCheck.
  destruct (currentEnemy state) as [enemy |]; [| exact Hinv].
  destruct (Enemy.hp enemy <=? #0); [| exact Hinv].
  constructor; cbn; [reflexivity | intros _; split; reflexivity].
Qed.

Lemma defeatCheck_combat (state : GameState) :
  combatCoherent state -> combatCoherent (defeatCheck state).
Proof.
  intros Hinv. pose proof Hinv as [He Hs]. unfold defeatCheck.
  destruct (_ <=? _); [| exact Hinv].
  destruct (defeatBranch state) eqn:Hb; constructor; cbn; try exact He; try exact Hs;
    try reflexivity; try (intros _; now split).
  intros Hout. destruct (Hs Hout) as [Hsel _]. unfold defeatBranch in Hb.
  rewrite Hsel in Hb. cbn in Hb. now destruct (negb (hasUsedRevival state)).
Qed.

Lemma attack_combat (hit : bool) (category : option string) (state : GameState) :
  combatCoherent state -> combatCoherent (attack hit category state).
Proof.
  intros Hinv. unfold attack. destruct (currentEnemy state) as [enemy |] eqn:Hcur;
    [| exact Hinv].
  now apply defeatCheck_combat, victoryCheck_combat, exchange_combat.
Qed.

(** ** The player's stats *)

Lemma nonneg_const_0 : JS.nonneg #0. Proof. reflexivity. Qed.
Lemma nonneg_const_1 : JS.nonneg #1. Proof. reflexivity. Qed.
Lemma nonneg_const_2 : JS.nonneg #2. Proof. reflexivity. Qed.
Lemma nonneg_dec_06 : JS.nonneg (JS.dec 6 1). Proof. reflexivity. Qed.
Lemma nonneg_dec_07 : JS.nonneg (JS.dec 7 1). Proof. reflexivity. Qed.
Lemma nonneg_dec_085 : JS.nonneg (JS.dec 85 2). Proof. reflexivity. Qed.
Lemma nonneg_dec_12 : JS.nonneg (JS.dec 12 1). Proof. reflexivity. Qed.

Create HintDb stats.
#[local] Hint Resolve nonneg_const_0 nonneg_const_1 nonneg_const_2 nonneg_dec_06
  nonneg_dec_07 nonneg_dec_085 nonneg_dec_12 nonneg_mul nonneg_floor nonneg_max : stats.

Lemma attack_statsNonneg (hit : bool) (category : option string) (state : GameState) :
  statsNonneg state -> statsNonneg (attack hit category state).
Proof.
  intros Hinv. pose proof Hinv as (Hhp & Hmax & Hatk & Hdef).
  unfold attack. destruct (currentEnemy state) as [enemy |]; [| exact Hinv].
  assert (Hx : statsNonneg (exchange hit category enemy state)).
  { unfold exchange, countQuestion, playerAttacks, enemyAttacks.
    destruct hit; [| destruct (dodges state)]; unfold statsNonneg; cbn;
      split_all; auto with stats. }
  assert (Hv : statsNonneg (victoryCheck (exchange hit category enemy state))).
  { revert Hx. generalize (exchange hit category enemy state). intros s Hs.
    unfold victoryCheck. destruct (currentEnemy s) as [e |]; [| exact Hs].
    destruct (Enemy.hp e <=? #0); exact Hs. }
  revert Hv. generalize (victoryCheck (exchange hit category enemy state)).
  intros s Hs. pose proof Hs as (? & ? & ? & ?). unfold defeatCheck.
  destruct (_ <=? _); [| exact Hs].
  destruct (defeatBranch s); unfold statsNonneg; cbn; split_all; auto with stats.
Qed.

Lemma selectAdventureSkill_statsNonneg (skill : AdventureSkill.t)
    (generateEnemy : number -> Enemy.t) (r1 r2 r3 : number) (state : GameState) :
  statsNonneg state ->
  statsNonneg (selectAdventureSkill skill generateEnemy r1 r2 r3 state).
Proof.
  intros (Hhp & Hmax & Hatk & Hdef). unfold selectAdventureSkill, applySkill.
  destruct (AdventureSkill.type skill); unfold statsNonneg; cbn;
    try (split_all; assumption).
  - split_all; auto with stats.
  - destruct (statToDouble r1 r2), (statToReduce _ r3); cbn; split_all; auto with stats.
Qed.

(** ** The two ledgers and the streak *)

Lemma attack_streak (hit : bool) (category : option string) (state : GameState) :
  streakCoherent state -> streakCoherent (attack hit category state).
Proof.
  intros Hinv. pose proof Hinv as [Hc Hb [Hle Hm]].
  unfold attack. destruct (currentEnemy state) as [enemy |]; [| exact Hinv].
  assert (H1 : positive_or_zero #1) by exact I.
  assert (Hx : streakCoherent (exchange hit category enemy state)).
  { unfold exchange, countQuestion, playerAttacks, enemyAttacks.
    destruct hit; [| destruct (dodges state)]; constructor; unfold streakOrdered; cbn;
      try exact Hb; try exact I; try (split; [now apply leb_zero | reflexivity]).
    - now apply add_positive.
    - destruct (_ >? _); [now apply add_positive | exact Hb].
    - split; [| reflexivity].
      destruct (_ >? _) eqn:Hgt; [apply leb_refl; now apply add_positive |].
      apply not_gtb_leb; [| | exact Hgt]; apply positive_not_nan; auto using add_positive. }
  assert (Hv : streakCoherent (victoryCheck (exchange hit category enemy state))).
  { revert Hx. generalize (exchange hit category enemy state). intros s Hs.
    unfold victoryCheck. destruct (currentEnemy s) as [e |]; [| exact Hs].
    destruct (Enemy.hp e <=? #0); [| exact Hs]. destruct Hs as [? ? []].
    now constructor. }
  revert Hv. generalize (victoryCheck (exchange hit category enemy state)).
  intros s Hs. unfold defeatCheck. destruct (PlayerStats.hp _ <=? _); [| exact Hs].
  destruct Hs as [? ? []]. destruct (defeatBranch s); now constructor.
Qed.

Section Histories.

Variable calculateResearchCost : number -> number.
Variable getChestRarityWeights : number -> list number.
Variable initializeAchievements : list Achievement.
Variable initializePlayerTags : list PlayerTag.

Local Abbreviation step :=
  (applyOp calculateResearchCost getChestRarityWeights
     initializeAchievements initializePlayerTags).
Local Abbreviation initial :=
  (createInitialGameState initializeAchievements initializePlayerTags).
Local Abbreviation states :=
  (trace calculateResearchCost getChestRarityWeights
     initializeAchievements initializePlayerTags).
Local Abbreviation always :=
  (trace_invariant_all calculateResearchCost getChestRarityWeights
     initializeAchievements initializePlayerTags).

Lemma step_combat (op : Op) (state : GameState) :
  combatCoherent state -> combatCoherent (step op state).
Proof.
  intros Hinv. pose proof Hinv as [He Hs].
  destruct op; cbn [applyOp]; try exact Hinv; try (now apply attack_combat);
    try (now constructor);
    unfold_updaters; unfold addItem; break_guards; try exact Hinv;
    constructor; cbn; try exact He; try exact Hs; try reflexivity; try discriminate.
Qed.

(** X10.  In every state reached from the initial state, [inCombat] is
    true exactly when there is a current enemy, and outside a combat no
    adventure skill is selected and no skill effect is set, but for
    [skipCardUsed], which [useSkipCard] sets at any time. *)
Theorem combat_state_is_coherent (now : Date) (ops : list Op) :
  Forall combatCoherent (initial now :: states ops (initial now)).
Proof.
  assert (H0 : combatCoherent (initial now)) by now constructor.
  constructor; [exact H0 |]. apply always; [apply step_combat | exact H0].
Qed.

Lemma step_statsNonneg (op : Op) (state : GameState) :
  statsNonneg state -> statsNonneg (step op state).
Proof.
  intros Hinv.
  destruct op; cbn [applyOp]; try exact Hinv; try (now apply attack_statsNonneg);
    try (now apply selectAdventureSkill_statsNonneg);
    try (unfold statsNonneg; cbn; split_all; reflexivity);
    unfold_updaters; unfold addItem; break_guards; exact Hinv.
Qed.

(** X11.  The player's hp, maxHp, atk and def never compare below zero: in
    every state reached from the initial state, whatever the enemies, the
    draws and the skills selected.  A blow floors the health at zero, and
    [risker], [ramp] and the metal shield scale a stat by a positive factor
    and round it down. *)
Theorem stats_never_negative (now : Date) (ops : list Op) :
  Forall statsNonneg (initial now :: states ops (initial now)).
Proof.
  assert (H0 : statsNonneg (initial now)) by (unfold statsNonneg; now cbn).
  constructor; [exact H0 |]. apply always; [apply step_statsNonneg | exact H0].
Qed.

Lemma step_ledgers (op : Op) (state : GameState) :
  ledgersAgree state -> ledgersAgree (step op state).
Proof.
  intros Hinv. pose proof Hinv as [Hr Hm].
  destruct op; cbn [applyOp]; try exact Hinv;
    try (unfold ledgersAgree;
         match goal with
         | |- context [attack ?h ?c state] =>
             destruct (attack_untouched h c state) as [_ _ _ _ _ -> -> _ -> ->]
         end; exact Hinv);
    try (now split);
    unfold_updaters; unfold addItem; break_guards; try exact Hinv;
    unfold ledgersAgree; cbn; rewrite ?Hr, ?Hm; now split.
Qed.

(** X12.  The hook keeps two books on research spending
    ([research.totalSpent] and [statistics.totalResearchSpent]) and two on
    shiny gems ([mining.totalShinyGemsMined] and
    [statistics.shinyGemsEarned]); in every state reached from the initial
    state each pair holds the same number. *)
Theorem ledgers_agree (now : Date) (ops : list Op) :
  Forall ledgersAgree (initial now :: states ops (initial now)).
Proof.
  assert (H0 : ledgersAgree (initial now)) by now split.
  constructor; [exact H0 |]. apply always; [apply step_ledgers | exact H0].
Qed.

Lemma step_streak (op : Op) (state : GameState) :
  streakCoherent state -> streakCoherent (step op state).
Proof.
  intros Hinv. pose proof Hinv as [Hc Hb [Hle Hm]].
  destruct op; cbn [applyOp]; try exact Hinv; try (now apply attack_streak);
    try (constructor; [exact I | exact I | split; reflexivity]);
    unfold_updaters; unfold addItem; break_guards; try exact Hinv;
    now constructor.
Qed.

(** X13.  In every state reached from the initial state the best streak is
    not below the current streak, and the streak multiplier is exactly
    [1 + current * 0.1]: a correct answer lengthens the streak and raises
    the best with it, a wrong answer resets the current streak to 0 and the
    multiplier to 1, and nothing else writes them. *)
Theorem streak_best_not_below_current (now : Date) (ops : list Op) :
  Forall streakOrdered (initial now :: states ops (initial now)).
Proof.
  assert (H0 : streakCoherent (initial now))
    by (constructor; [exact I | exact I | split; reflexivity]).
  assert (Hall : Forall streakCoherent (initial now :: states ops (initial now))).
  { constructor; [exact H0 |]. apply always; [apply step_streak | exact H0]. }
  eapply List.Forall_impl; [| exact Hall]. now intros s [].
Qed.

End Histories.


(** * Combat: edge cases *)

(** X14.  The victory check and the defeat check of an [attack] both run.
    When the exchange leaves the enemy at 0 hp and the player at 0 hp as
    well (a correct answer given at 0 hp, say), the fight is won (one more
    victory, the next zone, out of combat) and then the defeat check runs
    on the cleared combat: the metal shield cannot fire, so the free
    revival is spent when it is still there (hp back to [maxHp]), and
    otherwise a death is counted on top of the victory. *)
Theorem victory_and_defeat_in_one_attack
    (state : GameState) (hit : bool) (category : option string) (enemy : Enemy.t) :
  currentEnemy state = Some enemy ->
  (enemyHpAfter hit enemy state <=? #0) = true ->
  (playerHpAfter hit enemy state <=? #0) = true ->
  let after := attack hit category state in
  Statistics.totalVictories (statistics after)
  = Statistics.totalVictories (statistics state) + #1
  /\ zone after = zone state + #1
  /\ inCombat after = false
  /\ currentEnemy after = None
  /\ defeatBranchOf hit category state <> Some ShieldBranch
  /\ (if hasUsedRevival state
      then Statistics.totalDeaths (statistics after)
           = Statistics.totalDeaths (statistics state) + #1
           /\ Statistics.revivals (statistics after) = Statistics.revivals (statistics state)
      else PlayerStats.hp (playerStats after) = PlayerStats.maxHp (playerStats state)
           /\ Statistics.revivals (statistics after)
              = Statistics.revivals (statistics state) + #1)
  /\ hasUsedRevival after = true.
Proof.
  intros Hcur Hwon Hlost. cbv zeta.
  destruct (attack_victory state hit category enemy Hcur Hwon)
    as (_ & _ & Hz & Hin & Hen & _ & _ & Hv & _).
  pose proof (attack_defeated state hit category enemy Hcur Hlost) as Hd.
  cbv zeta in Hd. rewrite Hwon in Hd. cbn [negb andb] in Hd.
  destruct (hasUsedRevival state); cbn [negb] in Hd.
  - destruct Hd as (Hb & _ & _ & _ & Hdeaths & Hused & Hrev).
    split_all; try assumption. congruence.
  - destruct Hd as (Hb & Hhp & Hused & Hrev & _).
    split_all; try assumption. congruence.
Qed.

Lemma victory_and_defeat_in_one_attack_witness :
  currentEnemy Sample.spent = Some Sample.rat
  /\ inCombat (attack true None Sample.spent) = false
  /\ PlayerStats.hp (playerStats (attack true None Sample.spent)) = #100
  /\ hasUsedRevival (attack true None Sample.spent) = true.
Proof.
  assert (Hcur : currentEnemy Sample.spent = Some Sample.rat) by reflexivity.
  destruct (victory_and_defeat_in_one_attack Sample.spent true None Sample.rat
              Hcur eq_refl eq_refl) as (_ & _ & Hin & _ & _ & Hrev & Hused).
  split; [exact Hcur |]. split; [exact Hin |]. split; [| exact Hused].
  exact (proj1 Hrev).
Defined.

(** * The offer of adventure skills *)

Lemma allSkills_ids :
  List.map AdventureSkill.id allSkills
  = ["risker"; "lightning_chain"; "skip_card"; "metal_shield"; "truth_lies";
     "ramp"; "dodge"]%string.
Proof. reflexivity. Qed.

Lemma allSkills_distinct : List.NoDup (List.map AdventureSkill.id allSkills).
Proof.
  rewrite allSkills_ids.
  repeat (constructor; [cbn; intuition discriminate |]). constructor.
Qed.

(** X15.  [startCombat] offers three distinct skills of the catalogue and
    does not start the fight.  When the shuffle is a permutation of the
    catalogue, the offer has exactly three skills, with distinct ids, all
    from the catalogue; the modal is shown; and the enemy, [inCombat], the
    player's stats, the selected skill and the skill effects are what they
    were. *)
Theorem startCombat_offers_three_skills
    (shuffled : list AdventureSkill.t) (state : GameState) :
  Permutation shuffled allSkills ->
  let after := startCombat shuffled state in
  let offer := AdventureSkills.availableSkills (adventureSkills after) in
  length offer = 3%nat
  /\ List.NoDup (List.map AdventureSkill.id offer)
  /\ (forall skill, In skill offer -> In skill allSkills)
  /\ AdventureSkills.showSelectionModal (adventureSkills after) = true
  /\ currentEnemy after = currentEnemy state
  /\ inCombat after = inCombat state
  /\ playerStats after = playerStats state
  /\ AdventureSkills.selectedSkill (adventureSkills after)
     = AdventureSkills.selectedSkill (adventureSkills state)
  /\ AdventureSkills.skillEffects (adventureSkills after)
     = AdventureSkills.skillEffects (adventureSkills state).
Proof.
  intros Hperm. cbv zeta.
  change (AdventureSkills.availableSkills (adventureSkills (startCombat shuffled state)))
    with (take 3 shuffled).
  split_all; try reflexivity.
  - rewrite length_take, (Permutation_length Hperm). reflexivity.
  - assert (Hnd : List.NoDup (List.map AdventureSkill.id shuffled)).
    { eapply Permutation_NoDup; [| exact allSkills_distinct].
      symmetry. now apply Permutation_map. }
    rewrite <- (take_drop 3 shuffled), List.map_app in Hnd.
    now apply NoDup_app_remove_r in Hnd.
  - intros skill Hin. apply (Permutation_in skill Hperm).
    rewrite <- (take_drop 3 shuffled). apply in_app_iff. now left.
Qed.

Lemma startCombat_offers_three_skills_witness :
  Permutation Sample.shuffle allSkills
  /\ length (AdventureSkills.availableSkills
               (adventureSkills (startCombat Sample.shuffle Sample.fresh))) = 3%nat.
Proof.
  assert (Hperm : Permutation Sample.shuffle allSkills)
    by (symmetry; apply Permutation_rev).
  split; [exact Hperm |].
  exact (proj1 (startCombat_offers_three_skills Sample.shuffle Sample.fresh Hperm)).
Defined.

(** * The debug entry points *)

Lemma max_clamps (bound x : number) :
  positive_or_zero bound -> bound <> S754_zero true ->
  (JS.max bound x <? bound) = false
  /\ ((x <? bound) = true -> JS.max bound x = bound)
  /\ ((bound <? x) = true -> JS.max bound x = x)
  /\ (JS.isNaN x = true -> JS.isNaN (JS.max bound x) = true).
Proof.
  intros Hb Hz. pose proof (leb_refl bound Hb) as Hrefl.
  assert (Hbb : (bound <? bound) = false).
  { unfold JS.leb in Hrefl. unfold JS.ltb. destruct (JS.compare bound bound) as [[] |] eqn:Hc;
      try reflexivity; try discriminate.
    pose proof (compare_antisym bound bound) as Ha. rewrite Hc in Ha. discriminate. }
  unfold JS.max, JS.ltb. rewrite (compare_antisym bound x).
  destruct (JS.compare bound x) as [[] |] eqn:Hc; cbn [option_map CompOpp].
  - assert (Hx : match bound, x with S754_zero true, S754_zero _ => x | _, _ => bound end
                 = bound).
    { destruct bound as [[] | | |]; try reflexivity. congruence. }
    rewrite Hx. fold (JS.ltb bound bound). rewrite Hbb.
    split_all; try reflexivity; try discriminate.
    intros Hn. destruct x; try discriminate. destruct bound; discriminate.
  - rewrite (compare_antisym bound x), Hc. cbn.
    split_all; try reflexivity; try discriminate.
    intros Hn. destruct x; try discriminate. destruct bound; discriminate.
  - fold (JS.ltb bound bound). rewrite Hbb.
    split_all; try reflexivity; try discriminate.
    intros Hn. destruct x; try discriminate. destruct bound; discriminate.
  - split_all; try reflexivity; discriminate.
Qed.

(** X16.  [teleportToZone] and [setExperience] clamp their argument from
    below, at 1 and at 0.  The zone committed never compares below 1: it is
    1 when the argument compares below 1, the argument when it compares
    above 1, and NaN when the argument is NaN; likewise for the experience
    and 0. *)
Theorem teleport_and_experience_are_clamped (z xp : number) (state : GameState) :
  let zone' := zone (teleportToZone z state) in
  let xp' := Progression.experience (progression (setExperience xp state)) in
  ((zone' <? #1) = false
   /\ ((z <? #1) = true -> zone' = #1)
   /\ ((#1 <? z) = true -> zone' = z)
   /\ (JS.isNaN z = true -> JS.isNaN zone' = true))
  /\ ((xp' <? #0) = false
      /\ ((xp <? #0) = true -> xp' = #0)
      /\ ((#0 <? xp) = true -> xp' = xp)
      /\ (JS.isNaN xp = true -> JS.isNaN xp' = true)).
Proof.
  cbv zeta. unfold teleportToZone, setExperience. cbn.
  split; apply max_clamps; try exact I; discriminate.
Qed.

(** * Chests *)



Section Chests.

Variable getChestRarityWeights : number -> list number.

(** X18.  What the updaters of [openChest] and [purchaseMythical] do to
    the state.  A chest that cannot be paid for changes nothing.
    Otherwise the updater appends exactly one generated item, to the end
    of the weapons or to the end of the armor, leaves the other list and
    the equipment alone and takes the cost off the coins; that of
    [openChest] generates the item with the rarity it selected and counts
    the chest and the item in the statistics, that of [purchaseMythical]
    generates a mythical item and writes neither the collection book nor
    the statistics. *)
Theorem chest_adds_one_item
    (cost r1 r2 r3 r : number) (generateWeapon generateArmor : option Rarity -> Item.t)
    (state : GameState) :
  let inv := inventory state in
  let opened :=
    fst (openChest getChestRarityWeights cost r1 r2 r3 generateWeapon generateArmor
           state) in
  let bought := fst (purchaseMythical cost r generateWeapon generateArmor state) in
  let rarity := selectRarity (getChestRarityWeights cost) (r1 * #100) in
  let found := if r2 <? JS.dec 7 1 then generateWeapon rarity else generateArmor rarity in
  let mythical :=
    if r <? JS.dec 5 1 then generateWeapon (Some Mythical)
    else generateArmor (Some Mythical) in
  if coins state <? cost then opened = state /\ bought = state
  else
    Inventory.weapons (inventory opened)
    = (if r2 <? JS.dec 7 1 then Inventory.weapons inv ++ [found]
       else Inventory.weapons inv)
    /\ Inventory.armor (inventory opened)
       = (if r2 <? JS.dec 7 1 then Inventory.armor inv
          else Inventory.armor inv ++ [found])
    /\ Inventory.currentWeapon (inventory opened) = Inventory.currentWeapon inv
    /\ Inventory.currentArmor (inventory opened) = Inventory.currentArmor inv
    /\ Inventory.relics (inventory opened) = Inventory.relics inv
    /\ coins opened = coins state - cost
    /\ gems opened = gems state + JS.floor (r3 * #10) + #5
    /\ Statistics.chestsOpened (statistics opened)
       = Statistics.chestsOpened (statistics state) + #1
    /\ Statistics.itemsCollected (statistics opened)
       = Statistics.itemsCollected (statistics state) + #1
    /\ Inventory.weapons (inventory bought)
       = (if r <? JS.dec 5 1 then Inventory.weapons inv ++ [mythical]
          else Inventory.weapons inv)
    /\ Inventory.armor (inventory bought)
       = (if r <? JS.dec 5 1 then Inventory.armor inv
          else Inventory.armor inv ++ [mythical])
    /\ Inventory.currentWeapon (inventory bought) = Inventory.currentWeapon inv
    /\ Inventory.currentArmor (inventory bought) = Inventory.currentArmor inv
    /\ coins bought = coins state - cost
    /\ gems bought = gems state
    /\ collectionBook bought = collectionBook state
    /\ statistics bought = statistics state.
Proof.
  cbv zeta. unfold openChest, purchaseMythical, addItem.
  destruct (coins state <? cost); [now split_all |]. cbn [fst snd].
  destruct (r2 <? JS.dec 7 1), (r <? JS.dec 5 1); cbn; split_all; reflexivity.
Qed.

End Chests.


(** * Hydration: fallbacks and a second pass *)

(** An object that has every key of another absorbs it in a spread. *)
Lemma union_covers (m defaults : gmap string value) :
  covers m defaults -> m ∪ defaults = m.
Proof.
  intros Hc. apply map_eq. intros key. rewrite lookup_union.
  destruct (m !! key) as [v |] eqn:Hm; [now destruct (defaults !! key) |].
  destruct (defaults !! key) as [d |] eqn:Hd; [| reflexivity].
  destruct (Hc key) as [v Hv]; [now rewrite Hd |]. congruence.
Qed.

(** The keys of an object literal are the keys written in it. *)
Lemma covers_literal (fields fields' : list (string * value)) :
  fields.*1 = fields'.*1 ->
  covers (list_to_map fields) (list_to_map fields').
Proof.
  intros Hkeys key [v Hv].
  destruct (list_to_map fields !! key) as [w |] eqn:Hw; [now exists w |].
  apply not_elem_of_list_to_map in Hw. apply elem_of_list_to_map_2 in Hv.
  exfalso. apply Hw. rewrite Hkeys. apply list_elem_of_fmap. now exists (key, v).
Qed.

Lemma covers_union_r (m persisted defaults : gmap string value) :
  covers m defaults -> covers (persisted ∪ m) defaults.
Proof.
  intros Hc key Hk. apply lookup_union_is_Some. right. now apply Hc.
Qed.

Lemma covers_insert (m defaults : gmap string value) (key : string) (v : value) :
  covers m defaults -> covers (<[key := v]> m) defaults.
Proof.
  intros Hc k Hk. apply lookup_insert_is_Some.
  destruct (decide (key = k)); [now left | right]. split; [assumption | now apply Hc].
Qed.

Section Rehydration.

Variable initializeAchievements : list Achievement.
Variable initializePlayerTags : list PlayerTag.

Local Abbreviation initialObject := (initialObject initializeAchievements initializePlayerTags).
Local Abbreviation hydrate := (loadGameState initializeAchievements initializePlayerTags).
Local Abbreviation complete := (complete initializeAchievements initializePlayerTags).

Lemma initialObject_covers (now now' : Date) :
  covers (initialObject now) (initialObject now').
Proof. now apply covers_literal. Qed.

Lemma initialSkills_covers (now now' : Date) :
  covers (ownProperties (initialSkills now)) (ownProperties (initialSkills now')).
Proof. now apply covers_literal. Qed.

Lemma covers_refl (m : gmap string value) : covers m m.
Proof. now intros key. Qed.

Lemma initialObject_complete (now : Date) : complete (initialObject now).
Proof.
  constructor.
  - intros now'. apply initialObject_covers.
  - eexists. split; [apply initialObject_skills |]. intros now'. apply initialSkills_covers.
  - eexists. split; [apply initialObject_adventureSkills |]. apply covers_refl.
Qed.

(** What [loadGameState] commits has every field. *)
Lemma loadGameState_complete (now0 now1 now2 : Date) (stored : Stored) :
  complete (hydrate now0 now1 now2 stored).
Proof.
  destruct stored as [| | parsedState]; try apply initialObject_complete.
  unfold loadGameState.
  destruct (property parsedState "skills") as [persistedSkills |];
    [| apply initialObject_complete].
  destruct (property parsedState "adventureSkills") as [persistedAdventureSkills |];
    [| apply initialObject_complete].
  rewrite initialObject_skills, initialObject_adventureSkills. cbn [default].
  constructor.
  - intros now. do 2 apply covers_insert. apply covers_union_r.
    apply initialObject_covers.
  - eexists. split.
    + rewrite lookup_insert_ne by discriminate. apply lookup_insert_eq.
    + intros now. apply covers_union_r. apply initialSkills_covers.
  - eexists. split; [apply lookup_insert_eq |]. apply covers_union_r, covers_refl.
Qed.

(** Hydrating an object that has every field gives it back. *)
Lemma loadGameState_fixes_complete (now0 now1 now2 : Date) (m : gmap string value) :
  complete m -> hydrate now0 now1 now2 (Parsed (VObj m)) = m.
Proof.
  intros [Htop (skills & Hs & Hsc) (adv & Ha & Hac)].
  rewrite loadGameState_object, Hs, Ha. cbn [default]. unfold id, mergeObjects.
  change (ownProperties (VObj m)) with m.
  change (ownProperties (VObj (initialObject now0))) with (initialObject now0).
  change (ownProperties (VObj skills)) with skills.
  change (ownProperties (VObj adv)) with adv.
  rewrite (union_covers m _ (Htop now0)).
  rewrite (union_covers skills _ (Hsc now1)), (union_covers adv _ Hac).
  rewrite (insert_id m "skills" _ Hs). now apply insert_id.
Qed.

(** X19.  When nothing usable is stored, [loadGameState] commits a fresh
    initial state: for no item or an empty one, for text that does not
    parse, and for a parsed [null], on which reading [.skills] throws into
    the [catch] block.  A parsed number or boolean has no field to spread
    and none to read, so it hydrates like the empty object, to the
    defaults. *)
Theorem hydration_falls_back_to_defaults
    (now0 now1 now2 : Date) (x : number) (b : bool) :
  hydrate now0 now1 now2 Absent = initialObject now0
  /\ hydrate now0 now1 now2 Malformed = initialObject now0
  /\ hydrate now0 now1 now2 (Parsed VNull) = initialObject now2
  /\ hydrate now0 now1 now2 (Parsed (VNum x))
     = hydrate now0 now1 now2 (Parsed (VObj ∅))
  /\ hydrate now0 now1 now2 (Parsed (VBool b))
     = hydrate now0 now1 now2 (Parsed (VObj ∅))
  /\ hydrate now0 now0 now0 (Parsed (VObj ∅)) = initialObject now0.
Proof.
  split_all; reflexivity.
Qed.

(** X20.  Hydration is idempotent.  Whatever was stored, the object
    [loadGameState] commits has every field of a game state, so hydrating
    that object again, at any later time, commits the same object. *)
Theorem hydration_is_idempotent
    (now0 now1 now2 later0 later1 later2 : Date) (stored : Stored) :
  let state := hydrate now0 now1 now2 stored in
  hydrate later0 later1 later2 (Parsed (VObj state)) = state.
Proof. cbv zeta. apply loadGameState_fixes_complete, loadGameState_complete. Qed.

End Rehydration.


(** * Skill effects that outlast a selection *)

(** X21.  [selectAdventureSkill] clears the three one-shot flags
    ([skipCardUsed], [metalShieldUsed], [dodgeUsed]) and none of the three
    lasting effects: after a selection the lightning chain (truth-and-lies,
    ramp) effect is on exactly when the selected skill switches it on or
    it was on before, whatever the state and the skill.  So after
    selecting [dodge] while the lightning chain is on, a blow of the enemy
    still costs [Math.floor(Math.max(1, enemy.atk - def) * 1.1)].
    [skipAdventureSkills] switches all six off. *)
Theorem selection_keeps_lasting_effects
    (skill : AdventureSkill.t) (generateEnemy : number -> Enemy.t)
    (r1 r2 r3 : number) (enemy : Enemy.t) (state : GameState) :
  let selected := selectAdventureSkill skill generateEnemy r1 r2 r3 state in
  let effects s := AdventureSkills.skillEffects (adventureSkills s) in
  SkillEffects.lightningChainActive (effects selected)
  = hasSkill lightning_chain (Some skill)
    || SkillEffects.lightningChainActive (effects state)
  /\ SkillEffects.truthLiesActive (effects selected)
     = hasSkill truth_lies (Some skill) || SkillEffects.truthLiesActive (effects state)
  /\ SkillEffects.rampActive (effects selected)
     = hasSkill ramp (Some skill) || SkillEffects.rampActive (effects state)
  /\ SkillEffects.skipCardUsed (effects selected) = false
  /\ SkillEffects.metalShieldUsed (effects selected) = false
  /\ SkillEffects.dodgeUsed (effects selected) = false
  /\ (SkillEffects.lightningChainActive (effects state) = true ->
      AdventureSkill.type skill = dodge ->
      enemyDamage enemy selected
      = JS.floor (JS.max #1 (Enemy.atk enemy - PlayerStats.def (playerStats state))
                  * JS.dec 11 1))
  /\ effects (skipAdventureSkills generateEnemy state) = noSkillEffects.
Proof.
  cbv zeta. unfold selectAdventureSkill, applySkill, enemyDamage, hasSkill.
  destruct (AdventureSkill.type skill); cbn;
    split_all; try reflexivity; try discriminate;
    intros Hon _; now rewrite Hon.
Qed.

Lemma selection_keeps_lasting_effects_witness :
  SkillEffects.lightningChainActive
    (AdventureSkills.skillEffects (adventureSkills Sample.charged)) = true
  /\ SkillEffects.lightningChainActive
       (AdventureSkills.skillEffects (adventureSkills Sample.chargedDodger)) = true
  /\ enemyDamage Sample.slime Sample.chargedDodger = #16.
Proof.
  assert (Hon : SkillEffects.lightningChainActive
                  (AdventureSkills.skillEffects (adventureSkills Sample.charged)) = true)
    by reflexivity.
  destruct (selection_keeps_lasting_effects (Sample.skill dodge)
              (fun _ => Sample.slime) #0 #0 #0 Sample.slime Sample.charged)
    as (Hl & _ & _ & _ & _ & _ & Hdamage & _).
  split; [exact Hon |]. split; [exact Hl |].
  unfold Sample.chargedDodger. rewrite (Hdamage Hon eq_refl). vm_compute. reflexivity.
Defined.

Section Loading.

Variable calculateResearchCost : number -> number.
Variable getChestRarityWeights : number -> list number.
Variable initializeAchievements : list Achievement.
Variable initializePlayerTags : list PlayerTag.

Local Abbreviation step :=
  (applyOp calculateResearchCost getChestRarityWeights
     initializeAchievements initializePlayerTags).
Local Abbreviation initial :=
  (createInitialGameState initializeAchievements initializePlayerTags).
Local Abbreviation states :=
  (trace calculateResearchCost getChestRarityWeights
     initializeAchievements initializePlayerTags).
Local Abbreviation committed :=
  (commitAll calculateResearchCost getChestRarityWeights
     initializeAchievements initializePlayerTags).
Local Abbreviation outcome :=
  (run calculateResearchCost getChestRarityWeights
     initializeAchievements initializePlayerTags).

Lemma commit_loaded (op : Op) (state : GameState) :
  commit calculateResearchCost getChestRarityWeights
    initializeAchievements initializePlayerTags op (Some state)
  = Some (step op state).
Proof. now destruct op. Qed.

Lemma commitAll_loaded (ops : list Op) (state : GameState) :
  committed ops (Some state) = Some (outcome ops state).
Proof.
  unfold commitAll, run. revert state.
  induction ops as [| op ops IH]; intros state; cbn [fold_left]; [reflexivity |].
  rewrite commit_loaded. apply IH.
Qed.

(** X22.  Until the saved game is loaded the operations do nothing:
    [updateGameState] passes a missing state on, so a sequence of
    operations leaves the state missing exactly when it contains no
    [resetGame], the one operation that sets the state directly.  Once
    there is a state there always is one, and it is the state the updaters
    compute in turn. *)
Theorem operations_wait_for_the_load (ops : list Op) (state : GameState) :
  (committed ops None = None <-> none isReset ops)
  /\ committed ops (Some state) = Some (outcome ops state).
Proof.
  split; [| apply commitAll_loaded].
  unfold commitAll, none. induction ops as [| op ops IH]; cbn [fold_left forallb];
    [tauto |].
  destruct op; cbn [commit updateGameState isReset negb andb]; try exact IH.
  fold (committed ops (Some (initial now))). rewrite commitAll_loaded.
  split; discriminate.
Qed.

Lemma attack_baseStats (hit : bool) (category : option string) (state : GameState) :
  baseStatsInitial state -> baseStatsInitial (attack hit category state).
Proof.
  intros Hinv. unfold attack. destruct (currentEnemy state) as [enemy |]; [| exact Hinv].
  assert (Hx : baseStatsInitial (exchange hit category enemy state)).
  { unfold exchange, countQuestion, playerAttacks, enemyAttacks.
    destruct hit; [| destruct (dodges state)]; exact Hinv. }
  assert (Hv : baseStatsInitial (victoryCheck (exchange hit category enemy state))).
  { revert Hx. generalize (exchange hit category enemy state). intros s Hs.
    unfold victoryCheck. destruct (currentEnemy s) as [e |]; [| exact Hs].
    destruct (Enemy.hp e <=? #0); exact Hs. }
  revert Hv. generalize (victoryCheck (exchange hit category enemy state)).
  intros s Hs. unfold defeatCheck. destruct (_ <=? _); [| exact Hs].
  destruct (defeatBranch s); exact Hs.
Qed.

Lemma selectAdventureSkill_baseStats (skill : AdventureSkill.t)
    (generateEnemy : number -> Enemy.t) (r1 r2 r3 : number) (state : GameState) :
  baseStatsInitial state ->
  baseStatsInitial (selectAdventureSkill skill generateEnemy r1 r2 r3 state).
Proof.
  intros Hinv. unfold selectAdventureSkill, applySkill.
  destruct (AdventureSkill.type skill); try exact Hinv.
  destruct (statToDouble r1 r2), (statToReduce _ r3); exact Hinv.
Qed.

Lemma step_baseStats (op : Op) (state : GameState) :
  baseStatsInitial state -> baseStatsInitial (step op state).
Proof.
  intros Hinv.
  destruct op; cbn [applyOp]; try exact Hinv; try (now apply attack_baseStats);
    try (now apply selectAdventureSkill_baseStats);
    try (unfold baseStatsInitial; cbn; split_all; reflexivity);
    unfold_updaters; unfold addItem; break_guards; exact Hinv.
Qed.

(** X23.  No operation writes [maxHp], [baseAtk], [baseDef] or [baseHp]:
    in every state reached from the initial state they are 100, 20, 10 and
    100.  Equipment, research and relics never feed into the player's
    stats, and what [risker], [ramp] and the metal shield do to [hp],
    [atk] and [def] is never undone from the base values. *)
Theorem base_stats_never_change (now : Date) (ops : list Op) :
  Forall baseStatsInitial (initial now :: states ops (initial now)).
Proof.
  assert (H0 : baseStatsInitial (initial now)) by (unfold baseStatsInitial; now cbn).
  constructor; [exact H0 |].
  apply (trace_invariant_all calculateResearchCost getChestRarityWeights
           initializeAchievements initializePlayerTags);
    [apply step_baseStats | exact H0].
Qed.

End Loading.

